(** * Income classification and aggregation engine (package [income])

    A shallow embedding of the Go package [internal/income] of
    automatic-finance-api: the wordlist classifier, the monthly aggregator,
    the product formulas over [statMap], the [Calculation] aggregate with
    its recalculation, and the three service operations that create,
    recalculate and complete a calculation.

    Conventions of the embedding.
    - A Go [string] is a byte sequence: Rocq's [string].  [len] is
      [String.length] (bytes).  [strings.ToLower], [strings.TrimSpace] and
      [strings.EqualFold] treat a text of ASCII bytes byte by byte, as
      written out here; a text that holds a byte above 127 goes through
      the tables of package [unicode], which are members of the class
      [strings.Unicode].
    - A [decimal.Decimal] (shopspring) is an exact decimal number; it is
      modelled by its numerical value, a canonical rational [Qc].  [Add],
      [Sub] and [Mul] are exact; [Div] rounds to [DivisionPrecision] = 16
      fractional digits (half away from zero) and panics on a zero divisor.
    - A Go [map] is a [gmap]; ranging over a map visits its entries in an
      order that Go leaves open: the member [rangeOrder] of the class
      [MapOrder], some permutation of [map_to_list].
    - A panic, an [error] return and a normal return are the three
      constructors of [outcome].
    - The spreadsheet reader, the clock, the text parsers of [time] and
      [decimal], the tables of [unicode] and the SQL tables are outside the
      package; they are the members of the classes [Library] and
      [Backend]. *)

From Stdlib Require Import ZArith QArith Qcanon String Ascii List Lia Permutation.
From Stdlib Require DecimalString DecimalPos Sorted.
From stdpp Require Import gmap strings list fin_maps.

Local Open Scope string_scope.
Local Open Scope Z_scope.

(** ** Results of fallible code *)

Inductive code : Type :=
  | InvalidArgument
  | AlreadyExists
  | FailedPrecondition
  | PermissionDenied.

Inductive error : Type :=
  | RpcStatus (c : code) (msg : string)
  | Errorf (msg : string)
  | ErrCalculationNotFound
  | ErrStatementFileNotFound
  | ErrWordlistNotFound.

Inductive outcome (A : Type) : Type :=
  | Ok (a : A)
  | Err (e : error)
  | Panic (msg : string).

Arguments Ok {A} a.
Arguments Err {A} e.
Arguments Panic {A} msg.

#[global] Instance outcome_ret : MRet outcome := fun A a => Ok a.

#[global] Instance outcome_bind : MBind outcome := fun A B f m =>
  match m with
  | Ok a => f a
  | Err e => Err e
  | Panic msg => Panic msg
  end.

Definition isOk {A} (o : outcome A) : bool :=
  match o with Ok _ => true | _ => false end.

(** ** Package [strings] *)

Module strings.

(** The table [asciiSpace]: tab, line feed, vertical tab, form feed,
    carriage return and space. *)
Definition isSpace (c : ascii) : bool :=
  let n := nat_of_ascii c in
  (Nat.eqb n 9 || Nat.eqb n 10 || Nat.eqb n 11 || Nat.eqb n 12
   || Nat.eqb n 13 || Nat.eqb n 32)%bool.

Definition lowerByte (c : ascii) : ascii :=
  let n := nat_of_ascii c in
  if (Nat.leb 65 n && Nat.leb n 90)%bool then ascii_of_nat (n + 32) else c.

(** [c < utf8.RuneSelf] *)
Definition isASCIIByte (c : ascii) : bool := Nat.ltb (nat_of_ascii c) 128.

Fixpoint isASCII (s : string) : bool :=
  match s with
  | EmptyString => true
  | String c s' => (isASCIIByte c && isASCII s')%bool
  end.

(** The branch of [ToLower] for a text of ASCII bytes. *)
Fixpoint lowerBytes (s : string) : string :=
  match s with
  | EmptyString => EmptyString
  | String c s' => String (lowerByte c) (lowerBytes s')
  end.

(** The two loops of [TrimSpace] over the bytes of [asciiSpace]: from the
    start, and from the end. *)
Fixpoint TrimLeft (s : string) : string :=
  match s with
  | EmptyString => EmptyString
  | String c s' => if isSpace c then TrimLeft s' else s
  end.

(** [TrimRight] keeps a byte when it is not a space or when something
    that is kept follows it. *)
Fixpoint TrimRight (s : string) : string :=
  match s with
  | EmptyString => EmptyString
  | String c s' =>
      match TrimRight s' with
      | EmptyString => if isSpace c then EmptyString else String c EmptyString
      | r => String c r
      end
  end.

Fixpoint lastByte (s : string) : option ascii :=
  match s with
  | EmptyString => None
  | String c EmptyString => Some c
  | String _ s' => lastByte s'
  end.

(** The test of [EqualFold] on two different ASCII bytes: the smaller one
    is an upper-case letter and the larger one is its lower-case letter. *)
Definition foldsTo (a b : ascii) : bool :=
  let sr := Nat.min (nat_of_ascii a) (nat_of_ascii b) in
  let tr := Nat.max (nat_of_ascii a) (nat_of_ascii b) in
  (Nat.leb 65 sr && Nat.leb sr 90 && Nat.eqb tr (sr + 32))%bool.

Section Paths.

(** [TrimFunc(_, unicode.IsSpace)], [TrimRightFunc(_, unicode.IsSpace)]
    and the loop of [EqualFold] over characters. *)
Variables (trimFunc trimRightFunc : string -> string).
Variable (equalFold : string -> string -> bool).

(** The second loop of [TrimSpace], on a text that starts with an ASCII
    byte that is no space: the bytes of [asciiSpace] at the end are
    dropped; when the last byte that is left is not ASCII, the text goes
    to [TrimRightFunc]. *)
Definition trimTail (s : string) : string :=
  let t := TrimRight s in
  match lastByte t with
  | Some c => if isASCIIByte c then t else trimRightFunc t
  | None => t
  end.

(** The first loop of [TrimSpace]: the bytes of [asciiSpace] at the start
    are dropped; at a byte that is not ASCII, what is left goes to
    [TrimFunc]. *)
Fixpoint trimSpace (s : string) : string :=
  match s with
  | EmptyString => EmptyString
  | String c s' =>
      if isASCIIByte c
      then if isSpace c then trimSpace s' else trimTail s
      else trimFunc s
  end.

(** The loop of [EqualFold] over bytes: equal bytes and the two cases of
    one ASCII letter are passed; at the first position where one of the
    two bytes is not ASCII, what is left of both texts goes to the loop
    over characters; when one text ends, the other one must end too. *)
Fixpoint equalFoldBytes (s t : string) : bool :=
  match s, t with
  | EmptyString, EmptyString => true
  | String a s', String b t' =>
      if (isASCIIByte a && isASCIIByte b)%bool
      then if Ascii.eqb a b then equalFoldBytes s' t'
           else if foldsTo a b then equalFoldBytes s' t' else false
      else equalFold s t
  | _, _ => false
  end.

End Paths.

(** The parts of [ToLower], [TrimSpace] and [EqualFold] that read the
    tables of package [unicode]; they are reached by a text that holds a
    byte above 127 only.  A text that [TrimSpace] returns has no white
    space at either end, so that trimming it again gives it back. *)
Class Unicode : Type := {
  (** [strings.Map(unicode.ToLower, _)] *)
  MapToLower : string -> string;
  (** [strings.TrimFunc(_, unicode.IsSpace)] *)
  TrimFuncSpace : string -> string;
  (** [strings.TrimRightFunc(_, unicode.IsSpace)] *)
  TrimRightFuncSpace : string -> string;
  (** the loop of [EqualFold] from the label [hasUnicode] *)
  EqualFoldUnicode : string -> string -> bool;
  TrimSpace_trimmed : forall s,
    trimSpace TrimFuncSpace TrimRightFuncSpace
      (trimSpace TrimFuncSpace TrimRightFuncSpace s)
    = trimSpace TrimFuncSpace TrimRightFuncSpace s
}.

Section Text.
Context `{Unicode}.

(** [ToLower]: a text of ASCII bytes has its letters [A]..[Z] lowered
    byte by byte; any other text is mapped character by character. *)
Definition ToLower (s : string) : string :=
  if isASCII s then lowerBytes s else MapToLower s.

(** [TrimSpace]: the two loops over [asciiSpace], which hand the text over
    to [TrimFunc] or [TrimRightFunc] at the first byte above 127. *)
Definition TrimSpace (s : string) : string :=
  trimSpace TrimFuncSpace TrimRightFuncSpace s.

(** [EqualFold]: the loop over bytes, which hands both texts over to the
    loop over characters at the first byte above 127. *)
Definition EqualFold (s t : string) : bool :=
  equalFoldBytes EqualFoldUnicode s t.

End Text.

Fixpoint HasPrefix (s p : string) : bool :=
  match p, s with
  | EmptyString, _ => true
  | String _ _, EmptyString => false
  | String b p', String a s' => if Ascii.eqb a b then HasPrefix s' p' else false
  end.

Fixpoint Contains (s sub : string) : bool :=
  (HasPrefix s sub
   || match s with
      | EmptyString => false
      | String _ s' => Contains s' sub
      end)%bool.

(** [Split s sep] for a non-empty [sep]: the pieces of [s] between the
    left-to-right, non-overlapping occurrences of [sep].  [skip] counts
    the bytes of a separator that are still to be passed over. *)
Fixpoint splitFrom (sep : string) (skip : nat) (s : string) : list string :=
  match s with
  | EmptyString => [EmptyString]
  | String c s' =>
      match skip with
      | S k => splitFrom sep k s'
      | O =>
          if HasPrefix s sep
          then EmptyString :: splitFrom sep (String.length sep - 1) s'
          else match splitFrom sep O s' with
               | [] => [String c EmptyString]
               | piece :: rest => String c piece :: rest
               end
      end
  end.

Definition Split (s sep : string) : list string := splitFrom sep O s.

(** [strings.SplitSeq] yields the pieces of [Split] one by one. *)
Definition SplitSeq (s sep : string) : list string := Split s sep.

Fixpoint Join (elems : list string) (sep : string) : string :=
  match elems with
  | [] => EmptyString
  | [e] => e
  | e :: rest => e ++ sep ++ Join rest sep
  end.

(** For a non-empty [old], replacing every occurrence is splitting on
    [old] and joining with [new]. *)
Definition ReplaceAll (s old new : string) : string := Join (Split s old) new.

(** Number of UTF-8 encoded characters: the bytes that are not
    continuation bytes [10xxxxxx]. *)
Fixpoint RuneCountInString (s : string) : nat :=
  match s with
  | EmptyString => O
  | String c s' =>
      let n := nat_of_ascii c in
      if (Nat.leb 128 n && Nat.ltb n 192)%bool
      then RuneCountInString s'
      else S (RuneCountInString s')
  end.

End strings.

(** ** Package [time]

    The statement dates are parsed with the date-only layout
    ["02/01/2006"] in one location, or are the zero [Time]; an instant is
    therefore its civil date with the nanoseconds elapsed in that day, and
    [Before] compares the fields in order. *)

Module time.

Record Time : Type := mkTime { Year : Z; Month : Z; Day : Z; Nanos : Z }.

(** The zero value [time.Time{}]: January 1, year 1, 00:00:00 UTC. *)
Definition zero : Time := mkTime 1 1 1 0.

Definition Date (y m d : Z) : Time := mkTime y m d 0.

Definition Before (t u : Time) : bool :=
  match Year t ?= Year u with
  | Lt => true
  | Gt => false
  | Eq =>
      match Month t ?= Month u with
      | Lt => true
      | Gt => false
      | Eq =>
          match Day t ?= Day u with
          | Lt => true
          | Gt => false
          | Eq => Nanos t <? Nanos u
          end
      end
  end.

End time.

Abbreviation Time := time.Time.

(** ** Package [decimal] *)

Module decimal.

Definition Decimal : Type := Qc.

Definition Zero : Decimal := Q2Qc 0.

Definition NewFromInt (n : Z) : Decimal := Q2Qc (inject_Z n).

(** [decimal.NewFromFloat(0.8)] is the decimal 0.8. *)
Definition eightTenths : Decimal := Q2Qc (8 # 10).

Definition Add (d d2 : Decimal) : Decimal := (d + d2)%Qc.
Definition Sub (d d2 : Decimal) : Decimal := (d - d2)%Qc.
Definition Mul (d d2 : Decimal) : Decimal := (d * d2)%Qc.

Definition IsZero (d : Decimal) : bool := Qc_eq_bool d Zero.

Definition LessThan (d d2 : Decimal) : bool :=
  match (d ?= d2)%Qc with Lt => true | _ => false end.

Definition GreaterThan (d d2 : Decimal) : bool :=
  match (d ?= d2)%Qc with Gt => true | _ => false end.

Definition DivisionPrecision : Z := 16.

(** [d.DivRound(d2, precision)] for [d2] not zero: the quotient rounded to
    [precision] fractional digits, half away from zero. *)
Definition DivRound (d d2 : Decimal) (precision : Z) : Decimal :=
  let q := (d / d2)%Qc in
  let n := Qnum (this q) * 10 ^ precision in
  let den := Z.pos (Qden (this q)) in
  let t := Z.quot n den in
  let r := Z.rem n den in
  let t' := if 2 * Z.abs r <? den then t else t + Z.sgn n in
  Q2Qc (Qmake t' (Z.to_pos (10 ^ precision))).

Definition Div (d d2 : Decimal) : outcome Decimal :=
  if IsZero d2 then Panic "decimal division by 0"
  else Ok (DivRound d d2 DivisionPrecision).

End decimal.

Abbreviation Decimal := decimal.Decimal.

(** ** Enumerations of package [income] *)

Inductive product : Type :=
  | ProductUnSpecified
  | ProductSA
  | ProductSF
  | ProductPL.

Inductive source : Type :=
  | SourceUnSpecified
  | SourceSalary
  | SourceAllowance
  | SourceCommission
  | SourceBasicSalaryInterview.

Inductive status : Type :=
  | StatusUnSpecified
  | StatusPending
  | StatusCompleted.

Definition sourceNames (s : source) : string :=
  match s with
  | SourceUnSpecified => "UNSPECIFIED"
  | SourceSalary => "SALARY"
  | SourceAllowance => "ALLOWANCE"
  | SourceCommission => "COMMISSION"
  | SourceBasicSalaryInterview => "BASIC_SALARY_INTERVIEW"
  end.

#[global] Instance product_eq_dec : EqDecision product.
Proof. solve_decision. Defined.

#[global] Instance source_eq_dec : EqDecision source.
Proof. solve_decision. Defined.

#[global] Instance status_eq_dec : EqDecision status.
Proof. solve_decision. Defined.

(** ** Data of package [income] *)

Module Wordlist.
Record t : Type := mk {
  ID : Z;
  Word : string;
  Category : source;
  CreatedBy : string;
  CreatedAt : Time
}.
End Wordlist.

Module Transaction.
Record t : Type := mk {
  Date : Time;
  BillNumber : string;
  Noted : string;
  Amount : Decimal
}.
End Transaction.

Module MonthlySalary.
Record t : Type := mk {
  Month : string;
  TimesReceived : Decimal;
  Transactions : list Transaction.t;
  Total : Decimal
}.
End MonthlySalary.

Module SalaryBreakdown.
Record t : Type := mk {
  MonthlySalaries : list MonthlySalary.t;
  BasicSalary : Decimal;
  Total : Decimal
}.
Definition empty : t := mk [] decimal.Zero decimal.Zero.
End SalaryBreakdown.

Module Allowance.
Record t : Type := mk {
  Title : string;
  Months : Decimal;
  MonthlyAverage : Decimal;
  Transactions : list Transaction.t;
  Total : Decimal
}.
End Allowance.

Module AllowanceBreakdown.
Record t : Type := mk {
  Allowances : list Allowance.t;
  Total : Decimal
}.
Definition empty : t := mk [] decimal.Zero.
End AllowanceBreakdown.

Module Commission.
Record t : Type := mk {
  Month : string;
  Transactions : list Transaction.t;
  Total : Decimal
}.
End Commission.

Module CommissionBreakdown.
Record t : Type := mk {
  Commissions : list Commission.t;
  MonthlyAverage : Decimal;
  Total : Decimal
}.
Definition empty : t := mk [] decimal.Zero decimal.Zero.
End CommissionBreakdown.

Module Breakdown.
Record t : Type := mk {
  MonthlyAverage : Decimal;
  Total : Decimal
}.
Definition empty : t := mk decimal.Zero decimal.Zero.
End Breakdown.

Module Source.
Record t : Type := mk {
  BasicSalary : Breakdown.t;
  Allowance : Breakdown.t;
  Commission : Breakdown.t;
  Other : Breakdown.t
}.
Definition empty : t := mk Breakdown.empty Breakdown.empty Breakdown.empty Breakdown.empty.
End Source.

Module Account.
Record t : Type := mk {
  Number : string;
  DisplayName : string;
  Currency : string
}.
End Account.

Module Calculation.
Record t : Type := mk {
  ID : Z;
  StatementFileName : string;
  Number : string;
  Product : product;
  Account : Account.t;
  ExchangeRate : Decimal;
  MonthlyAverageIncome : Decimal;
  MonthlyNetIncome : Decimal;
  TotalOtherIncome : Decimal;
  TotalBasicSalary : Decimal;
  TotalIncome : Decimal;
  PeriodInMonth : Decimal;
  StartedAt : Time;
  EndedAt : Time;
  Status : status;
  CreatedBy : string;
  UpdatedBy : string;
  CreatedAt : Time;
  UpdatedAt : Time;
  SalaryBreakdown : SalaryBreakdown.t;
  AllowanceBreakdown : AllowanceBreakdown.t;
  CommissionBreakdown : CommissionBreakdown.t;
  Source : Source.t
}.
End Calculation.

Module statCal.
Record t : Type := mk {
  Transactions : gmap string (list Transaction.t);
  Monthly : list Decimal;
  Total : Decimal;
  (** Used by the allowance to compute the average. *)
  AverageMonth : gmap string Decimal
}.
End statCal.

Abbreviation statMap := (gmap string statCal.t).

Module RecalculateReq.
Record t : Type := mk {
  Number : string;
  BasicSalaryFromInterview : Decimal;
  MonthlySalaries : list MonthlySalary.t;
  Allowances : list Allowance.t;
  Commissions : list Commission.t
}.
End RecalculateReq.

Module CalculateReq.
Record t : Type := mk {
  Number : string;
  Product : product;
  StatementFileName : string
}.
End CalculateReq.

Module StatementFile.
Record t : Type := mk {
  Name : string;
  Location : string
}.
End StatementFile.

Module Currency.
Record t : Type := mk {
  Code : string;
  ExchangeRate : Decimal
}.
End Currency.

(** ** The library functions that parse and format text *)

(** ** The order in which a map is visited

    A [range] over a Go map visits every key once, in an order that the
    language leaves open and that changes from one run to the next.
    [rangeOrder] is the order taken during one run of an operation: any
    permutation of the entries.  What is proved of the engine is proved
    for every [MapOrder]; a property that compares two runs gives each run
    an order of its own ([withOrder]). *)

Class MapOrder : Type := {
  rangeOrder : gmap string (list Transaction.t)
               -> list (string * list Transaction.t);
  rangeOrder_Permutation : forall m, Permutation (rangeOrder m) (map_to_list m)
}.

(** ** What the libraries and the runtime decide *)

Class Library : Type := {
  (** [decimal.NewFromString] *)
  NewFromString : string -> option Decimal;
  (** [time.ParseInLocation] and [time.Parse] with layout ["02/01/2006"] *)
  ParseDate : string -> option Time;
  (** [t.Format("January-2006")] *)
  FormatMonth : Time -> string;
  (** [time.Parse("January-2006", _)] *)
  ParseMonth : string -> option Time;
  (** the tables of package [unicode] behind package [strings] *)
  unicode :: strings.Unicode;
  (** the order of the [range] loops over the buckets of a [statCal] *)
  order :: MapOrder
}.

(** The same libraries during another run: the [range] loops take the
    order [O]. *)
Definition withOrder (L : Library) (O : MapOrder) : Library :=
  {| NewFromString := @NewFromString L;
     ParseDate := @ParseDate L;
     FormatMonth := @FormatMonth L;
     ParseMonth := @ParseMonth L;
     unicode := @unicode L;
     order := O |}.

(** ** The classifier: [matchWordlists] (wordlist.go) *)

Section Classify.
Context `{strings.Unicode}.

(** The body of [case len(w.Word) <= 3]: some token of some segment of the
    target is the lowered word, up to letter case.  [word] is the entry's
    word after [strings.TrimSpace]. *)
Definition matchTokens (target word : string) : bool :=
  existsb
    (fun t =>
       existsb
         (fun v => strings.EqualFold (strings.TrimSpace v) (strings.ToLower word))
         (strings.SplitSeq (strings.TrimSpace t) " "))
    (strings.SplitSeq target "|").

(** One turn of the loop over the wordlist, for the normalised target: the
    [switch] on the byte length of the trimmed word. *)
Definition matchWord (target word : string) : bool :=
  if (String.length word <=? 3)%nat
  then matchTokens target word
  else strings.Contains target (strings.ToLower word).

Fixpoint matchLoop (target : string) (wordlists : list Wordlist.t)
  : source * string * bool :=
  match wordlists with
  | [] => (SourceUnSpecified, "", false)
  | w :: rest =>
      let word := strings.TrimSpace (Wordlist.Word w) in
      if matchWord target word
      then (Wordlist.Category w, word, true)
      else matchLoop target rest
  end.

(** [matchWordlists] also stores the trimmed word back into each entry it
    visits; a trimmed word is trimmed ([TrimSpace_trimmed]), so later calls
    see the same words. *)
Definition matchWordlists (target : string) (wordlists : list Wordlist.t)
  : source * string * bool :=
  matchLoop (strings.ToLower (strings.TrimSpace target)) wordlists.

End Classify.

(** ** Helpers over amounts (service.go) *)

Section Engine.

Context `{Library}.

Import decimal.

Definition findMinAmountFromMonthlySalaries (ms : list MonthlySalary.t) : Decimal :=
  match ms with
  | [] => Zero
  | m0 :: _ =>
      fold_left
        (fun min m =>
           if LessThan (MonthlySalary.Total m) min then MonthlySalary.Total m else min)
        ms (MonthlySalary.Total m0)
  end.

Definition findMinAmount (amounts : list Decimal) : Decimal :=
  match amounts with
  | [] => Zero
  | a0 :: _ =>
      fold_left (fun min amount => if LessThan amount min then amount else min)
        amounts a0
  end.

Definition findMinFromTransactions (ts : list Transaction.t) : Decimal :=
  match ts with
  | [] => Zero
  | t0 :: _ =>
      fold_left
        (fun min t =>
           if LessThan (Transaction.Amount t) min then Transaction.Amount t else min)
        ts (Transaction.Amount t0)
  end.

Definition sumAmounts (amounts : list Decimal) : Decimal :=
  fold_left (fun sum amount => Add sum amount) amounts Zero.

Definition sumTransactions (ts : list Transaction.t) : Decimal :=
  fold_left (fun sum t => Add sum (Transaction.Amount t)) ts Zero.

Definition countMonth (from to : Time) : Decimal :=
  if time.Before to from then Zero
  else
    let yearDiff := time.Year to - time.Year from in
    let monthDiff := time.Month to - time.Month from in
    NewFromInt (yearDiff * 12 + monthDiff).

Definition extractAccount (raw : string) : string :=
  let raw := strings.TrimSpace raw in
  match strings.Split raw " : " with
  | [_; r1] => strings.TrimSpace r1
  | _ => ""
  end.

(** [extractPeriod]: the named results [from] and [to] start as the zero
    [Time]; [period[1]] is read without a length check. *)
Definition extractPeriod (raw : string) : outcome (Time * Time) :=
  let raw := strings.TrimSpace raw in
  match strings.Split raw " : " with
  | [_; r1] =>
      let period := strings.Split r1 " ຫາ " in
      match ParseDate (nth 0 period "") with
      | None => Ok (time.zero, time.zero)
      | Some from =>
          match nth_error period 1 with
          | None => Panic "index out of range [1]"
          | Some p1 =>
              match ParseDate p1 with
              | None => Ok (from, time.zero)
              | Some to => Ok (from, to)
              end
          end
      end
  | _ => Ok (time.zero, time.zero)
  end.

Definition getMonthWithYYYYMM (s : string) : string :=
  match ParseDate s with
  | None => ""
  | Some m => FormatMonth m
  end.

(** [sort.Slice] with the comparison [less]: insertion into the ordered
    prefix.  The order [sort.Slice] gives to elements that [less] does not
    separate is unspecified; here they keep their order of arrival. *)
Fixpoint insertSorted {A} (less : A -> A -> bool) (x : A) (l : list A) : list A :=
  match l with
  | [] => [x]
  | y :: l' => if less x y then x :: y :: l' else y :: insertSorted less x l'
  end.

Definition sortSlice {A} (less : A -> A -> bool) (l : list A) : list A :=
  fold_left (fun sorted x => insertSorted less x sorted) l [].

(** [t, _ := time.Parse("January-2006", label)]: the zero [Time] on error. *)
Definition monthTime (label : string) : Time :=
  match ParseMonth label with
  | Some t => t
  | None => time.zero
  end.

(** ** The formulas over [statMap] (service.go) *)

Definition totalIncome (s : statMap) (p : product) : Decimal :=
  match p with
  | ProductSA =>
      match s !! sourceNames SourceSalary with
      | None => Zero
      | Some raw =>
          fold_left
            (fun total '(_, tx) => Add total (findMinFromTransactions tx))
            (rangeOrder (statCal.Transactions raw)) Zero
      end
  | ProductPL | ProductSF =>
      match s !! sourceNames SourceSalary with
      | None => Zero
      | Some raw => statCal.Total raw
      end
  | ProductUnSpecified => Zero
  end.

Definition basicSalaryFromInterview (s : statMap) : Decimal :=
  match s !! sourceNames SourceBasicSalaryInterview with
  | None => Zero
  | Some raw => statCal.Total raw
  end.

Definition toListMonthlySalaries (s : statMap) : SalaryBreakdown.t :=
  match s !! sourceNames SourceSalary with
  | None => SalaryBreakdown.empty
  | Some raw =>
      let monthlySalaries :=
        omap
          (fun '(month, tx) =>
             match tx with
             | [] => None
             | _ =>
                 Some (MonthlySalary.mk month
                         (NewFromInt (Z.of_nat (length tx)))
                         tx
                         (sumTransactions tx))
             end)
          (rangeOrder (statCal.Transactions raw)) in
      SalaryBreakdown.mk
        (sortSlice
           (fun a b => time.Before (monthTime (MonthlySalary.Month a))
                                   (monthTime (MonthlySalary.Month b)))
           monthlySalaries)
        (findMinAmount (statCal.Monthly raw))
        (statCal.Total raw)
  end.

Definition basicSalary (s : statMap) (p : product) (period : Decimal)
  : outcome Decimal :=
  match p with
  | ProductSA =>
      if IsZero period then Ok Zero
      else
        let total := totalIncome s ProductSA in
        if IsZero total then Ok Zero
        else Div total period
  | ProductPL | ProductSF =>
      Ok (findMinAmountFromMonthlySalaries
            (SalaryBreakdown.MonthlySalaries (toListMonthlySalaries s)))
  | ProductUnSpecified => Ok Zero
  end.

Definition totalBasicSalary (s : statMap) (p : product) (period : Decimal)
  : outcome Decimal :=
  if IsZero period then Ok Zero
  else
    match p with
    | ProductSA =>
        let total := totalIncome s ProductSA in
        if IsZero total then Ok Zero
        else Div total period
    | ProductPL | ProductSF =>
        b ← basicSalary s p period;
        Ok (Mul b period)
    | ProductUnSpecified => Ok Zero
    end.

Definition totalOtherIncome (s : statMap) (period : Decimal) : outcome Decimal :=
  if IsZero period then Ok Zero
  else
    tb ← totalBasicSalary s ProductPL period;
    let o := Sub (totalIncome s ProductPL) tb in
    if LessThan o Zero then Ok Zero else Ok o.

Definition averageOtherIncome (s : statMap) (period : Decimal) : outcome Decimal :=
  if IsZero period then Ok Zero
  else
    total ← totalOtherIncome s period;
    if IsZero total then Ok Zero
    else Div total period.

(** The loop of [toListAllowances]; [months] is declared before the loop
    and keeps its last value when a title has no entry in [AverageMonth]. *)
Fixpoint allowancesLoop (averageMonth : gmap string Decimal)
    (entries : list (string * list Transaction.t))
    (allowances : list Allowance.t) (totalAllowance months : Decimal)
  : outcome (list Allowance.t * Decimal) :=
  match entries with
  | [] => Ok (allowances, totalAllowance)
  | (title, tx) :: rest =>
      match tx with
      | [] => allowancesLoop averageMonth rest allowances totalAllowance months
      | _ =>
          let months :=
            match averageMonth !! title with
            | Some m => m
            | None => months
            end in
          let amount := sumTransactions tx in
          average ← Div amount months;
          allowancesLoop averageMonth rest
            (allowances ++ [Allowance.mk title months average tx amount])%list
            (Add totalAllowance average) months
      end
  end.

Definition toListAllowances (s : statMap) : outcome AllowanceBreakdown.t :=
  match s !! sourceNames SourceAllowance with
  | None => Ok AllowanceBreakdown.empty
  | Some raw =>
      r ← allowancesLoop (statCal.AverageMonth raw)
            (rangeOrder (statCal.Transactions raw)) [] Zero (NewFromInt 12);
      Ok (AllowanceBreakdown.mk r.1 r.2)
  end.

Definition toListCommissions (s : statMap) (period : Decimal)
  : outcome CommissionBreakdown.t :=
  match s !! sourceNames SourceCommission with
  | None => Ok CommissionBreakdown.empty
  | Some raw =>
      let commissions :=
        omap
          (fun '(month, tx) =>
             match tx with
             | [] => None
             | _ => Some (Commission.mk month tx (sumTransactions tx))
             end)
          (rangeOrder (statCal.Transactions raw)) in
      let commissions :=
        sortSlice
          (fun a b => time.Before (monthTime (Commission.Month a))
                                  (monthTime (Commission.Month b)))
          commissions in
      monthlyAverage ←
        (if negb (IsZero period) then Div (statCal.Total raw) period else Ok Zero);
      Ok (CommissionBreakdown.mk commissions monthlyAverage (statCal.Total raw))
  end.

Definition averageCommission (s : statMap) (period : Decimal) : outcome Decimal :=
  c ← toListCommissions s period;
  Ok (CommissionBreakdown.MonthlyAverage c).

Definition averageAllowance (s : statMap) (period : Decimal) : outcome Decimal :=
  a ← toListAllowances s;
  Ok (AllowanceBreakdown.Total a).

Definition averageOtherIncomeIn80Percent (s : statMap) (period : Decimal)
  : outcome Decimal :=
  other ← averageOtherIncome s period;
  c ← averageCommission s period;
  let other := Add other c in
  a ← averageAllowance s period;
  let other := Add other a in
  Ok (Mul other eightTenths).

Definition averageMonthlyIncome (s : statMap) (p : product) (period : Decimal)
  : outcome Decimal :=
  match p with
  | ProductSA =>
      basic ← basicSalary s ProductSA period;
      let interview := basicSalaryFromInterview s in
      if (GreaterThan interview Zero && LessThan interview basic)%bool
      then
        a ← averageAllowance s period;
        c ← averageCommission s period;
        Ok (Add (Add interview a) c)
      else
        a ← averageAllowance s period;
        c ← averageCommission s period;
        Ok (Add (Add basic a) c)
  | ProductPL | ProductSF =>
      otherIn80Percent ← averageOtherIncomeIn80Percent s period;
      basic ← basicSalary s p period;
      let interview := basicSalaryFromInterview s in
      if (GreaterThan interview Zero && LessThan interview basic)%bool
      then Ok (Add interview otherIn80Percent)
      else Ok (Add basic otherIn80Percent)
  | ProductUnSpecified => Ok Zero
  end.

Definition netIncomeMonthly (s : statMap) (p : product)
    (exchangeRate period : Decimal) : outcome Decimal :=
  if IsZero period then Ok Zero
  else
    monthlyIncome ← averageMonthlyIncome s p period;
    if IsZero monthlyIncome then Ok Zero
    else Ok (Mul monthlyIncome exchangeRate).

Definition newSourceIncome (m : statMap) (p : product) (period : Decimal)
  : outcome Source.t :=
  la ← toListAllowances m;
  aa ← averageAllowance m period;
  lc ← toListCommissions m period;
  ac ← averageCommission m period;
  tb ← totalBasicSalary m p period;
  bs ← basicSalary m p period;
  Ok (Source.mk
        (Breakdown.mk bs tb)
        (Breakdown.mk aa (AllowanceBreakdown.Total la))
        (Breakdown.mk ac (CommissionBreakdown.Total lc))
        Breakdown.empty).

End Engine.

(** ** The aggregate [Calculation] (calculation.go) *)

Section Aggregate.

Context `{Library}.

Import decimal.

Definition newSalaryBreakdown (months : list MonthlySalary.t) : SalaryBreakdown.t :=
  SalaryBreakdown.mk months Zero Zero.

Definition newAllowanceBreakdown (allowances : list Allowance.t) : AllowanceBreakdown.t :=
  AllowanceBreakdown.mk allowances Zero.

Definition newCommissionBreakdown (commissions : list Commission.t)
  : CommissionBreakdown.t :=
  CommissionBreakdown.mk commissions Zero Zero.

Definition newCalculation (by_ : string) (now : Time)
    (number statementFileName : string) (p : product) : Calculation.t :=
  {| Calculation.ID := 0;
     Calculation.StatementFileName := statementFileName;
     Calculation.Number := number;
     Calculation.Product := p;
     Calculation.Account := Account.mk "" "" "";
     Calculation.ExchangeRate := NewFromInt 1;
     Calculation.MonthlyAverageIncome := Zero;
     Calculation.MonthlyNetIncome := Zero;
     Calculation.TotalOtherIncome := Zero;
     Calculation.TotalBasicSalary := Zero;
     Calculation.TotalIncome := Zero;
     Calculation.PeriodInMonth := Zero;
     Calculation.StartedAt := time.zero;
     Calculation.EndedAt := time.zero;
     Calculation.Status := StatusPending;
     Calculation.CreatedBy := by_;
     Calculation.UpdatedBy := by_;
     Calculation.CreatedAt := now;
     Calculation.UpdatedAt := now;
     Calculation.SalaryBreakdown := SalaryBreakdown.empty;
     Calculation.AllowanceBreakdown := AllowanceBreakdown.empty;
     Calculation.CommissionBreakdown := CommissionBreakdown.empty;
     Calculation.Source := Source.empty |}.

Definition populate (c : Calculation.t) (p : product)
    (period exchangeRate : Decimal) (incomes : statMap) : outcome Calculation.t :=
  src ← newSourceIncome incomes p period;
  ab ← toListAllowances incomes;
  cb ← toListCommissions incomes period;
  let sb := toListMonthlySalaries incomes in
  tbs ← totalBasicSalary incomes p period;
  let ti := totalIncome incomes p in
  toi ← totalOtherIncome incomes period;
  mai ← averageMonthlyIncome incomes p period;
  mni ← netIncomeMonthly incomes p exchangeRate period;
  Ok {| Calculation.ID := Calculation.ID c;
        Calculation.StatementFileName := Calculation.StatementFileName c;
        Calculation.Number := Calculation.Number c;
        Calculation.Product := Calculation.Product c;
        Calculation.Account := Calculation.Account c;
        Calculation.ExchangeRate := exchangeRate;
        Calculation.MonthlyAverageIncome := mai;
        Calculation.MonthlyNetIncome := mni;
        Calculation.TotalOtherIncome := toi;
        Calculation.TotalBasicSalary := tbs;
        Calculation.TotalIncome := ti;
        Calculation.PeriodInMonth := period;
        Calculation.StartedAt := Calculation.StartedAt c;
        Calculation.EndedAt := Calculation.EndedAt c;
        Calculation.Status := Calculation.Status c;
        Calculation.CreatedBy := Calculation.CreatedBy c;
        Calculation.UpdatedBy := Calculation.UpdatedBy c;
        Calculation.CreatedAt := Calculation.CreatedAt c;
        Calculation.UpdatedAt := Calculation.UpdatedAt c;
        Calculation.SalaryBreakdown := sb;
        Calculation.AllowanceBreakdown := ab;
        Calculation.CommissionBreakdown := cb;
        Calculation.Source := src |}.

(** [m[k] = append(m[k], txs...)] *)
Definition appendAt (m : gmap string (list Transaction.t)) (k : string)
    (txs : list Transaction.t) : gmap string (list Transaction.t) :=
  <[k := (default [] (m !! k) ++ txs)%list]> m.

(** The bodies of the three loops of [toStateMap]. *)
Definition addAllowance
    (st : gmap string (list Transaction.t) * list Decimal * gmap string Decimal)
    (a : Allowance.t)
  : gmap string (list Transaction.t) * list Decimal * gmap string Decimal :=
  let '(awnTxs, awsMonthly, awsAverageMonths) := st in
  match Allowance.Transactions a with
  | [] => st
  | _ =>
      (appendAt awnTxs (Allowance.Title a) (Allowance.Transactions a),
       (awsMonthly ++ [Allowance.Total a])%list,
       <[Allowance.Title a := Allowance.Months a]> awsAverageMonths)
  end.

Definition addCommission (st : gmap string (list Transaction.t) * list Decimal)
    (c : Commission.t) : gmap string (list Transaction.t) * list Decimal :=
  let '(comTxs, commMonthly) := st in
  match Commission.Transactions c with
  | [] => st
  | _ =>
      (appendAt comTxs (Commission.Month c) (Commission.Transactions c),
       (commMonthly ++ [Commission.Total c])%list)
  end.

Definition addMonthlySalary (st : gmap string (list Transaction.t) * list Decimal)
    (s : MonthlySalary.t) : gmap string (list Transaction.t) * list Decimal :=
  let '(salTxs, salaryMonthly) := st in
  match MonthlySalary.Transactions s with
  | [] => st
  | _ =>
      (appendAt salTxs (MonthlySalary.Month s) (MonthlySalary.Transactions s),
       (salaryMonthly ++ map Transaction.Amount (MonthlySalary.Transactions s))%list)
  end.

Definition toStateMap (c : Calculation.t) : outcome statMap :=
  let '(awnTxs, awsMonthly, awsAverageMonths) :=
    fold_left addAllowance
      (AllowanceBreakdown.Allowances (Calculation.AllowanceBreakdown c))
      (∅, [], ∅) in
  let m : statMap :=
    <[sourceNames SourceAllowance :=
        statCal.mk awnTxs awsMonthly (sumAmounts awsMonthly) awsAverageMonths]> ∅ in
  let '(comTxs, commMonthly) :=
    fold_left addCommission
      (CommissionBreakdown.Commissions (Calculation.CommissionBreakdown c))
      (∅, []) in
  let m : statMap :=
    <[sourceNames SourceCommission :=
        statCal.mk comTxs commMonthly (sumAmounts commMonthly) ∅]> m in
  let '(salTxs, salaryMonthly) :=
    fold_left addMonthlySalary
      (SalaryBreakdown.MonthlySalaries (Calculation.SalaryBreakdown c))
      (∅, []) in
  let m : statMap :=
    <[sourceNames SourceSalary :=
        statCal.mk salTxs salaryMonthly (sumAmounts salaryMonthly) ∅]> m in
  Ok m.

Definition setBreakdowns (c : Calculation.t) (sb : SalaryBreakdown.t)
    (ab : AllowanceBreakdown.t) (cb : CommissionBreakdown.t) : Calculation.t :=
  {| Calculation.ID := Calculation.ID c;
     Calculation.StatementFileName := Calculation.StatementFileName c;
     Calculation.Number := Calculation.Number c;
     Calculation.Product := Calculation.Product c;
     Calculation.Account := Calculation.Account c;
     Calculation.ExchangeRate := Calculation.ExchangeRate c;
     Calculation.MonthlyAverageIncome := Calculation.MonthlyAverageIncome c;
     Calculation.MonthlyNetIncome := Calculation.MonthlyNetIncome c;
     Calculation.TotalOtherIncome := Calculation.TotalOtherIncome c;
     Calculation.TotalBasicSalary := Calculation.TotalBasicSalary c;
     Calculation.TotalIncome := Calculation.TotalIncome c;
     Calculation.PeriodInMonth := Calculation.PeriodInMonth c;
     Calculation.StartedAt := Calculation.StartedAt c;
     Calculation.EndedAt := Calculation.EndedAt c;
     Calculation.Status := Calculation.Status c;
     Calculation.CreatedBy := Calculation.CreatedBy c;
     Calculation.UpdatedBy := Calculation.UpdatedBy c;
     Calculation.CreatedAt := Calculation.CreatedAt c;
     Calculation.UpdatedAt := Calculation.UpdatedAt c;
     Calculation.SalaryBreakdown := sb;
     Calculation.AllowanceBreakdown := ab;
     Calculation.CommissionBreakdown := cb;
     Calculation.Source := Calculation.Source c |}.

(** The assignments [c.Status = st; c.UpdatedAt = now; c.UpdatedBy = by]. *)
Definition setStatusUpdated (c : Calculation.t) (st : status) (now : Time)
    (by_ : string) : Calculation.t :=
  {| Calculation.ID := Calculation.ID c;
     Calculation.StatementFileName := Calculation.StatementFileName c;
     Calculation.Number := Calculation.Number c;
     Calculation.Product := Calculation.Product c;
     Calculation.Account := Calculation.Account c;
     Calculation.ExchangeRate := Calculation.ExchangeRate c;
     Calculation.MonthlyAverageIncome := Calculation.MonthlyAverageIncome c;
     Calculation.MonthlyNetIncome := Calculation.MonthlyNetIncome c;
     Calculation.TotalOtherIncome := Calculation.TotalOtherIncome c;
     Calculation.TotalBasicSalary := Calculation.TotalBasicSalary c;
     Calculation.TotalIncome := Calculation.TotalIncome c;
     Calculation.PeriodInMonth := Calculation.PeriodInMonth c;
     Calculation.StartedAt := Calculation.StartedAt c;
     Calculation.EndedAt := Calculation.EndedAt c;
     Calculation.Status := st;
     Calculation.CreatedBy := Calculation.CreatedBy c;
     Calculation.UpdatedBy := by_;
     Calculation.CreatedAt := Calculation.CreatedAt c;
     Calculation.UpdatedAt := now;
     Calculation.SalaryBreakdown := Calculation.SalaryBreakdown c;
     Calculation.AllowanceBreakdown := Calculation.AllowanceBreakdown c;
     Calculation.CommissionBreakdown := Calculation.CommissionBreakdown c;
     Calculation.Source := Calculation.Source c |}.

(** The assignments to [StartedAt], [EndedAt] and [Account] made while the
    header of the statement is read. *)
Definition setHeader (c : Calculation.t) (from to : Time) (a : Account.t)
  : Calculation.t :=
  {| Calculation.ID := Calculation.ID c;
     Calculation.StatementFileName := Calculation.StatementFileName c;
     Calculation.Number := Calculation.Number c;
     Calculation.Product := Calculation.Product c;
     Calculation.Account := a;
     Calculation.ExchangeRate := Calculation.ExchangeRate c;
     Calculation.MonthlyAverageIncome := Calculation.MonthlyAverageIncome c;
     Calculation.MonthlyNetIncome := Calculation.MonthlyNetIncome c;
     Calculation.TotalOtherIncome := Calculation.TotalOtherIncome c;
     Calculation.TotalBasicSalary := Calculation.TotalBasicSalary c;
     Calculation.TotalIncome := Calculation.TotalIncome c;
     Calculation.PeriodInMonth := Calculation.PeriodInMonth c;
     Calculation.StartedAt := from;
     Calculation.EndedAt := to;
     Calculation.Status := Calculation.Status c;
     Calculation.CreatedBy := Calculation.CreatedBy c;
     Calculation.UpdatedBy := Calculation.UpdatedBy c;
     Calculation.CreatedAt := Calculation.CreatedAt c;
     Calculation.UpdatedAt := Calculation.UpdatedAt c;
     Calculation.SalaryBreakdown := Calculation.SalaryBreakdown c;
     Calculation.AllowanceBreakdown := Calculation.AllowanceBreakdown c;
     Calculation.CommissionBreakdown := Calculation.CommissionBreakdown c;
     Calculation.Source := Calculation.Source c |}.

Definition ReCalculate (c : Calculation.t) (by_ : string) (now : Time)
    (req : RecalculateReq.t) : outcome Calculation.t :=
  let c :=
    setBreakdowns c
      (newSalaryBreakdown (RecalculateReq.MonthlySalaries req))
      (newAllowanceBreakdown (RecalculateReq.Allowances req))
      (newCommissionBreakdown (RecalculateReq.Commissions req)) in
  mapCal ← toStateMap c;
  let c := setStatusUpdated c (Calculation.Status c) now by_ in
  populate c (Calculation.Product c) (Calculation.PeriodInMonth c)
    (Calculation.ExchangeRate c) mapCal.

Definition Complete (c : Calculation.t) (by_ : string) (now : Time) : Calculation.t :=
  setStatusUpdated c StatusCompleted now by_.

Definition IsCompleted (c : Calculation.t) : bool :=
  bool_decide (Calculation.Status c = StatusCompleted).

(** The calculation as its caller sees it after [saveCalculationIncome]:
    [row.Scan(&in.ID)] on an insert, untouched on an update. *)
Definition scanID (c : Calculation.t) (id : option Z) : Calculation.t :=
  match id with
  | None => c
  | Some i =>
      {| Calculation.ID := i;
         Calculation.StatementFileName := Calculation.StatementFileName c;
         Calculation.Number := Calculation.Number c;
         Calculation.Product := Calculation.Product c;
         Calculation.Account := Calculation.Account c;
         Calculation.ExchangeRate := Calculation.ExchangeRate c;
         Calculation.MonthlyAverageIncome := Calculation.MonthlyAverageIncome c;
         Calculation.MonthlyNetIncome := Calculation.MonthlyNetIncome c;
         Calculation.TotalOtherIncome := Calculation.TotalOtherIncome c;
         Calculation.TotalBasicSalary := Calculation.TotalBasicSalary c;
         Calculation.TotalIncome := Calculation.TotalIncome c;
         Calculation.PeriodInMonth := Calculation.PeriodInMonth c;
         Calculation.StartedAt := Calculation.StartedAt c;
         Calculation.EndedAt := Calculation.EndedAt c;
         Calculation.Status := Calculation.Status c;
         Calculation.CreatedBy := Calculation.CreatedBy c;
         Calculation.UpdatedBy := Calculation.UpdatedBy c;
         Calculation.CreatedAt := Calculation.CreatedAt c;
         Calculation.UpdatedAt := Calculation.UpdatedAt c;
         Calculation.SalaryBreakdown := Calculation.SalaryBreakdown c;
         Calculation.AllowanceBreakdown := Calculation.AllowanceBreakdown c;
         Calculation.CommissionBreakdown := Calculation.CommissionBreakdown c;
         Calculation.Source := Calculation.Source c |}
  end.

End Aggregate.

(** ** The tables, the stored files and the currency service *)

Class Backend (W : Type) : Type := {
  (** [SELECT] of the number in table [statement_file_analysis] *)
  isCalculationExists : W -> string -> outcome bool;
  getStatementFileByName : W -> string -> outcome StatementFile.t;
  (** all wordlists, [ORDER BY created_at DESC] *)
  listWordlists : W -> outcome (list Wordlist.t);
  getCalculation : W -> string -> outcome Calculation.t;
  (** the update-or-insert transaction; on an error nothing is written;
      an insert yields the identity of the new row, which is scanned into
      [in.ID] *)
  saveCalculationIncome : W -> Calculation.t -> outcome (W * option Z);
  GetCurrencyByCode : W -> string -> outcome Currency.t;
  (** [*excelize.File], with [excelize.OpenFile], [f.GetCellValue] and the
      rows that [f.Rows] iterates (an error when the iteration fails) *)
  File : Type;
  OpenFile : W -> string -> outcome File;
  GetCellValue : File -> string -> string -> outcome string;
  Rows : File -> string -> outcome (list (list string))
}.

(** ** The service (service.go) *)

Section Service.

Context `{Library} {W : Type} `{Backend W}.

Import decimal.

Definition emptyStatCal : statCal.t := statCal.mk ∅ [] Zero ∅.

(** The three statements shared by the cases of the [switch]: create the
    entry when absent, append the amount, add it to the total, append the
    transaction to its bucket. *)
Definition addIncome (incomes : statMap) (key bucket : string)
    (incomeAmount : Decimal) (transaction : Transaction.t) : statMap :=
  let cur := default emptyStatCal (incomes !! key) in
  <[key := statCal.mk
             (appendAt (statCal.Transactions cur) bucket [transaction])
             (statCal.Monthly cur ++ [incomeAmount])%list
             (Add (statCal.Total cur) incomeAmount)
             (statCal.AverageMonth cur)]> incomes.

Definition setAverageMonth (incomes : statMap) (key title : string)
    (months : Decimal) : statMap :=
  let cur := default emptyStatCal (incomes !! key) in
  <[key := statCal.mk
             (statCal.Transactions cur)
             (statCal.Monthly cur)
             (statCal.Total cur)
             (<[title := months]> (statCal.AverageMonth cur))]> incomes.

(** One turn of the loop over the rows of the sheet. *)
Definition addRow (wordlists : list Wordlist.t) (incomes : statMap)
    (row : list string) : statMap :=
  if (length row <=? 4)%nat then incomes
  else
    let rawAmount := strings.ReplaceAll (nth 4 row "") "," "" in
    match NewFromString rawAmount with
    | None => incomes
    | Some incomeAmount =>
        if negb (GreaterThan incomeAmount Zero) then incomes
        else if (String.length (nth 2 row "") =? 0)%nat then incomes
        else
          match ParseDate (nth 0 row "") with
          | None => incomes
          | Some date =>
              let month := getMonthWithYYYYMM (nth 0 row "") in
              let '(category, title, matched) :=
                matchWordlists (nth 2 row "") wordlists in
              if negb matched then incomes
              else
                let transaction :=
                  Transaction.mk date (nth 1 row "") (nth 2 row "") incomeAmount in
                match category with
                | SourceSalary =>
                    addIncome incomes (sourceNames SourceSalary) month
                      incomeAmount transaction
                | SourceCommission =>
                    addIncome incomes (sourceNames SourceCommission) month
                      incomeAmount transaction
                | SourceAllowance =>
                    addIncome
                      (setAverageMonth incomes (sourceNames SourceAllowance)
                         title (NewFromInt 12))
                      (sourceNames SourceAllowance) title incomeAmount transaction
                | _ => incomes
                end
          end
    end.

Definition sheetName : string := "Table 1".

(** [fmt.Errorf(msg + ": %w", err)] on an error. *)
Definition wrap {A} (msg : string) (o : outcome A) : outcome A :=
  match o with
  | Err _ => Err (Errorf msg)
  | _ => o
  end.

Definition calculateIncomeFromStatementFile (w : W) (by_ : string) (now : Time)
    (cal : CalculateReq.t) (wordlists : list Wordlist.t)
    (statement : StatementFile.t) : outcome Calculation.t :=
  let calculation :=
    newCalculation by_ now (CalculateReq.Number cal)
      (StatementFile.Name statement) (CalculateReq.Product cal) in
  f ← wrap "failed to open file" (OpenFile w (StatementFile.Location statement));
  rawPeriod ← wrap "failed to get period" (GetCellValue f sheetName "A7");
  '(from, to) ← extractPeriod rawPeriod;
  rawAccountNumber ←
    wrap "failed to get account number" (GetCellValue f sheetName "A9");
  rawAccountDisplayName ←
    wrap "failed to get account display name" (GetCellValue f sheetName "A10");
  rawAccountCurrency ←
    wrap "failed to get account currency" (GetCellValue f sheetName "A11");
  let account :=
    Account.mk (extractAccount rawAccountNumber)
      (extractAccount rawAccountDisplayName)
      (extractAccount rawAccountCurrency) in
  let calculation := setHeader calculation from to account in
  if ((String.length (Account.Number account) =? 0)%nat
      || (String.length (Account.DisplayName account) =? 0)%nat
      || negb (String.length (strings.TrimSpace (Account.Currency account)) =? 3)%nat)%bool
  then Err (Errorf "no valid income transactions found in the statement file")
  else
    currency ← GetCurrencyByCode w (Account.Currency account);
    rows ← wrap "failed to get rows from sheet" (Rows f sheetName);
    let incomes := fold_left (addRow wordlists) rows (∅ : statMap) in
    let period := countMonth from to in
    populate calculation (CalculateReq.Product cal) period
      (Currency.ExchangeRate currency) incomes.

Definition CalculateReq_Validate (r : CalculateReq.t) : option error :=
  if ((String.length (CalculateReq.Number r) =? 0)%nat
      || bool_decide (CalculateReq.Product r = ProductUnSpecified)
      || (String.length (CalculateReq.StatementFileName r) =? 0)%nat)%bool
  then Some (RpcStatus InvalidArgument
               "Calculation is not valid or incomplete. Please check the errors and try again, see details for more information.")
  else None.

Definition CalculateIncome (w : W) (by_ : string) (now : Time)
    (req : CalculateReq.t) : outcome Calculation.t * W :=
  match CalculateReq_Validate req with
  | Some e => (Err e, w)
  | None =>
      match isCalculationExists w (CalculateReq.Number req) with
      | Panic msg => (Panic msg, w)
      | Err _ => (Err (Errorf "failed to check if calculation exists"), w)
      | Ok true =>
          (Err (RpcStatus AlreadyExists
                  "Calculation with this number already exists. Please use a different number."),
           w)
      | Ok false =>
          match getStatementFileByName w (CalculateReq.StatementFileName req) with
          | Panic msg => (Panic msg, w)
          | Err ErrStatementFileNotFound =>
              (Err (RpcStatus InvalidArgument
                      "Calculation is not valid or incomplete. Please check the errors and try again, see details for more information."),
               w)
          | Err e => (Err e, w)
          | Ok statementFile =>
              match listWordlists w with
              | Panic msg => (Panic msg, w)
              | Err e => (Err e, w)
              | Ok wordlists =>
                  match calculateIncomeFromStatementFile w by_ now req wordlists
                          statementFile with
                  | Panic msg => (Panic msg, w)
                  | Err _ =>
                      (Err (RpcStatus FailedPrecondition
                              "The statement file is not valid. Please check your statement file and try again."),
                       w)
                  | Ok calculation =>
                      match saveCalculationIncome w calculation with
                      | Panic msg => (Panic msg, w)
                      | Err _ => (Err (Errorf "failed to save calculation income"), w)
                      | Ok (w', id) => (Ok (scanID calculation id), w')
                      end
                  end
              end
          end
      end
  end.

Definition ReCalculateIncome (w : W) (by_ : string) (now : Time)
    (req : RecalculateReq.t) : outcome Calculation.t * W :=
  match getCalculation w (RecalculateReq.Number req) with
  | Panic msg => (Panic msg, w)
  | Err ErrCalculationNotFound =>
      (Err (RpcStatus PermissionDenied
              "You are not allowed to this resource or (it may not exist)"), w)
  | Err e => (Err e, w)
  | Ok calculation =>
      if IsCompleted calculation
      then (Err (RpcStatus FailedPrecondition
                   "This calculation is already completed and cannot be recalculated"), w)
      else
        match ReCalculate calculation by_ now req with
        | Panic msg => (Panic msg, w)
        | Err e => (Err e, w)
        | Ok calculation =>
            match saveCalculationIncome w calculation with
            | Panic msg => (Panic msg, w)
            | Err e => (Err e, w)
            | Ok (w', id) => (Ok (scanID calculation id), w')
            end
        end
  end.

Definition CompleteCalculation (w : W) (by_ : string) (now : Time)
    (number : string) : outcome Calculation.t * W :=
  match getCalculation w number with
  | Panic msg => (Panic msg, w)
  | Err ErrCalculationNotFound =>
      (Err (RpcStatus PermissionDenied
              "You are not allowed to this resource or (it may not exist)"), w)
  | Err e => (Err e, w)
  | Ok calculation =>
      if IsCompleted calculation then (Ok calculation, w)
      else
        let calculation := Complete calculation by_ now in
        match saveCalculationIncome w calculation with
        | Panic msg => (Panic msg, w)
        | Err e => (Err e, w)
        | Ok (w', id) => (Ok (scanID calculation id), w')
        end
  end.

End Service.

(** ** Stand-ins used to run the engine on concrete statements

    [Sample.library] reads plain amounts ([-]digits[.digits]), dates
    [dd/mm/yyyy] and labels [Month-yyyy], takes the characters above U+007F
    as caseless and visits a map in the order of [map_to_list];
    [Sample.World] keeps the tables in memory, keyed by exact number, name,
    location and code. *)

Module Sample.

Import decimal.

Definition digit (c : ascii) : option Z :=
  let n := nat_of_ascii c in
  if (Nat.leb 48 n && Nat.leb n 57)%bool then Some (Z.of_nat n - 48) else None.

Fixpoint digitsFrom (acc : Z) (s : string) : option Z :=
  match s with
  | EmptyString => Some acc
  | String c s' =>
      match digit c with
      | Some d => digitsFrom (acc * 10 + d) s'
      | None => None
      end
  end.

Definition number (s : string) : option Z :=
  match s with
  | EmptyString => None
  | _ => digitsFrom 0 s
  end.

Definition unsignedDecimal (s : string) : option Decimal :=
  match strings.Split s "." with
  | [i] => n ← number i; Some (NewFromInt n)
  | [i; f] =>
      n ← number i;
      m ← number f;
      Some (Q2Qc (Qmake (n * 10 ^ Z.of_nat (String.length f) + m)
                    (Z.to_pos (10 ^ Z.of_nat (String.length f)))))
  | _ => None
  end.

Definition newFromString (s : string) : option Decimal :=
  match s with
  | String "-" s' => d ← unsignedDecimal s'; Some (Qcopp d)
  | _ => unsignedDecimal s
  end.

Definition isLeap (y : Z) : bool :=
  ((y mod 4 =? 0) && (negb (y mod 100 =? 0) || (y mod 400 =? 0)))%bool.

Definition daysIn (y m : Z) : Z :=
  if m =? 2 then (if isLeap y then 29 else 28)
  else if (m =? 4) || (m =? 6) || (m =? 9) || (m =? 11) then 30
  else 31.

Definition parseDate (s : string) : option Time :=
  match strings.Split s "/" with
  | [dd; mm; yyyy] =>
      if ((String.length dd =? 2)%nat && (String.length mm =? 2)%nat
          && (String.length yyyy =? 4)%nat)%bool
      then
        d ← number dd;
        m ← number mm;
        y ← number yyyy;
        if ((1 <=? m) && (m <=? 12) && (1 <=? d) && (d <=? daysIn y m))%bool
        then Some (time.Date y m d)
        else None
      else None
  | _ => None
  end.

Definition monthNames : list string :=
  ["January"; "February"; "March"; "April"; "May"; "June"; "July";
   "August"; "September"; "October"; "November"; "December"].

Definition digitChar (d : Z) : string :=
  String (ascii_of_nat (Z.to_nat (48 + d mod 10))) EmptyString.

Definition year4 (y : Z) : string :=
  digitChar (y / 1000) ++ digitChar (y / 100) ++ digitChar (y / 10) ++ digitChar y.

Definition formatMonth (t : Time) : string :=
  nth (Z.to_nat (time.Month t - 1)) monthNames "" ++ "-" ++ year4 (time.Year t).

Fixpoint monthIndex (names : list string) (i : Z) (name : string) : option Z :=
  match names with
  | [] => None
  | n :: rest =>
      if String.eqb (strings.lowerBytes n) (strings.lowerBytes name)
      then Some i else monthIndex rest (i + 1) name
  end.

Definition parseMonth (label : string) : option Time :=
  match strings.Split label "-" with
  | [name; yyyy] =>
      if (String.length yyyy =? 4)%nat
      then
        m ← monthIndex monthNames 1 name;
        y ← number yyyy;
        Some (time.Date y m 1)
      else None
  | _ => None
  end.

(** The tables of [unicode] for a text whose characters above U+007F are
    neither letters that have two cases nor white space (Lao text is such
    a text): these characters are left as they are and are equal to
    themselves only. *)
#[export] Instance caseless : strings.Unicode.
Proof.
  refine {| strings.MapToLower := strings.lowerBytes;
            strings.TrimFuncSpace := fun s => strings.TrimRight (strings.TrimLeft s);
            strings.TrimRightFuncSpace := strings.TrimRight;
            strings.EqualFoldUnicode := fun s t =>
              String.eqb (strings.lowerBytes s) (strings.lowerBytes t) |}.
  assert (Hl : forall s, strings.TrimLeft (strings.TrimLeft s) = strings.TrimLeft s).
  { induction s as [|c s IH]; [reflexivity|].
    cbn. destruct (strings.isSpace c) eqn:E; [exact IH|]. cbn. now rewrite E. }
  assert (Hr : forall s, strings.TrimRight (strings.TrimRight s) = strings.TrimRight s).
  { induction s as [|c s IH]; [reflexivity|].
    cbn. destruct (strings.TrimRight s) as [|d r] eqn:E.
    - destruct (strings.isSpace c) eqn:Ec; [reflexivity|]. cbn. now rewrite Ec.
    - change (strings.TrimRight (String c (String d r)) = String c (String d r)).
      cbn [strings.TrimRight] in *. now rewrite IH. }
  assert (Hlr : forall s, strings.TrimLeft s = s ->
                          strings.TrimLeft (strings.TrimRight s) = strings.TrimRight s).
  { intros [|c s]; [reflexivity|]. cbn.
    destruct (strings.isSpace c) eqn:Ec.
    - intros E. exfalso.
      assert (Hlen : forall t, (String.length (strings.TrimLeft t) <= String.length t)%nat).
      { induction t as [|d t IH]; [cbn; lia|].
        cbn. destruct (strings.isSpace d); cbn; lia. }
      pose proof (Hlen s) as Hs. rewrite E in Hs. cbn in Hs. lia.
    - intros _. destruct (strings.TrimRight s); cbn; now rewrite Ec. }
  assert (Ht : forall s,
             strings.trimSpace (fun s => strings.TrimRight (strings.TrimLeft s))
               strings.TrimRight s
             = strings.TrimRight (strings.TrimLeft s)).
  { induction s as [|c s IH]; [reflexivity|].
    cbn [strings.trimSpace strings.TrimLeft].
    destruct (strings.isASCIIByte c); [|reflexivity].
    destruct (strings.isSpace c) eqn:Ec; [exact IH|].
    unfold strings.trimTail.
    destruct (strings.lastByte (strings.TrimRight (String c s))) as [d|];
      [|reflexivity].
    destruct (strings.isASCIIByte d); [reflexivity|]. apply Hr. }
  intros s. rewrite !Ht. rewrite (Hlr (strings.TrimLeft s) (Hl s)). apply Hr.
Defined.

(** Two orders of visiting a map: the one of [map_to_list], and the
    opposite one. *)
#[export] Instance ascending : MapOrder := {
  rangeOrder := map_to_list;
  rangeOrder_Permutation := fun m => Permutation_refl (map_to_list m)
}.

Definition descending : MapOrder := {|
  rangeOrder := fun m => rev (map_to_list m);
  rangeOrder_Permutation := fun m =>
    Permutation_sym (Permutation_rev (map_to_list m))
|}.

#[export] Instance library : Library := {
  NewFromString := newFromString;
  ParseDate := parseDate;
  FormatMonth := formatMonth;
  ParseMonth := parseMonth;
  unicode := caseless;
  order := ascending
}.

(** What a stored statement holds in sheet ["Table 1"]: the four header
    cells and the rows in order, each row the texts of its cells. *)
Record Sheet : Type := mkSheet {
  A7 : string;
  A9 : string;
  A10 : string;
  A11 : string;
  Rows_ : list (list string)
}.

Definition getCellValue (f : Sheet) (sheet cell : string) : outcome string :=
  if negb (String.eqb sheet "Table 1") then Err (Errorf "sheet does not exist")
  else if String.eqb cell "A7" then Ok (A7 f)
  else if String.eqb cell "A9" then Ok (A9 f)
  else if String.eqb cell "A10" then Ok (A10 f)
  else if String.eqb cell "A11" then Ok (A11 f)
  else Ok "".

Definition getRows (f : Sheet) (sheet : string) : outcome (list (list string)) :=
  if String.eqb sheet "Table 1" then Ok (Rows_ f)
  else Err (Errorf "sheet does not exist").

Record World : Type := mkWorld {
  calculations : gmap string Calculation.t;
  statementFiles : gmap string StatementFile.t;
  sheets : gmap string Sheet;
  wordlists : list Wordlist.t;
  currencies : gmap string Currency.t
}.

Definition lookupOr {A} (m : gmap string A) (k : string) (e : error) : outcome A :=
  match m !! k with
  | Some a => Ok a
  | None => Err e
  end.

#[export] Instance backend : Backend World := {
  isCalculationExists w n := Ok (bool_decide (is_Some (calculations w !! n)));
  getStatementFileByName w n := lookupOr (statementFiles w) n ErrStatementFileNotFound;
  listWordlists w := Ok (wordlists w);
  getCalculation w n := lookupOr (calculations w) n ErrCalculationNotFound;
  saveCalculationIncome w c :=
    let id :=
      match calculations w !! Calculation.Number c with
      | Some _ => None
      | None => Some (Z.of_nat (size (calculations w)) + 1)
      end in
    Ok (mkWorld (<[Calculation.Number c := scanID c id]> (calculations w))
          (statementFiles w) (sheets w) (wordlists w) (currencies w),
        id);
  GetCurrencyByCode w c :=
    lookupOr (currencies w) c
      (RpcStatus PermissionDenied "You are not allowed to this resource or (it may not exist)");
  File := Sheet;
  OpenFile w loc := lookupOr (sheets w) loc (Errorf "failed to open file");
  GetCellValue := getCellValue;
  Rows := getRows
}.

(** Concrete data for the scenarios. *)

Definition tx (amount : Z) : Transaction.t :=
  Transaction.mk time.zero "" "" (NewFromInt amount).

(** Salary totals of January, February and March 2025: 1,000,000,
    1,200,000 and 1,100,000. *)
Definition threeMonths : statMap :=
  <[sourceNames SourceSalary :=
      statCal.mk
        (<["January-2025" := [tx 1000000]]>
           (<["February-2025" := [tx 700000; tx 500000]]>
              (<["March-2025" := [tx 1100000]]> ∅)))
        [NewFromInt 1000000; NewFromInt 700000; NewFromInt 500000;
         NewFromInt 1100000]
        (NewFromInt 3300000)
        ∅]> ∅.

Definition wordlist : list Wordlist.t :=
  [Wordlist.mk 3 "ot" SourceCommission "admin" time.zero;
   Wordlist.mk 2 "allowance" SourceAllowance "admin" time.zero;
   Wordlist.mk 1 "salary" SourceSalary "admin" time.zero].

Definition rows : list (list string) :=
  [["Date"; "Bill"; "Description"; "Debit"; "Credit"];
   ["05/01/2025"; "B1"; "SALARY JAN"; ""; "1,000,000"];
   ["20/01/2025"; "B2"; "ATM withdrawal"; "200,000"; ""];
   ["05/02/2025"; "B3"; "Salary Feb part 1"; ""; "700,000"];
   ["25/02/2025"; "B4"; "Salary Feb part 2"; ""; "500,000"];
   ["26/02/2025"; "B5"; "OT | February"; ""; "90,000"];
   ["05/03/2025"; "B6"; "salary mar"; ""; "1,100,000"];
   ["06/03/2025"; "B7"; "Fuel allowance"; ""; "120,000"];
   ["07/03/2025"; "B8"; "transfer from a friend"; ""; "50,000"]].

(** A pending PL calculation over a period of 3 months, rate 1. *)
Definition pendingNumbered (number : string) : Calculation.t :=
  {| Calculation.ID := 1;
     Calculation.StatementFileName := "statement.xlsx";
     Calculation.Number := number;
     Calculation.Product := ProductPL;
     Calculation.Account := Account.mk "0101" "Somchai" "LAK";
     Calculation.ExchangeRate := NewFromInt 1;
     Calculation.MonthlyAverageIncome := Zero;
     Calculation.MonthlyNetIncome := Zero;
     Calculation.TotalOtherIncome := Zero;
     Calculation.TotalBasicSalary := Zero;
     Calculation.TotalIncome := Zero;
     Calculation.PeriodInMonth := NewFromInt 3;
     Calculation.StartedAt := time.Date 2025 1 1;
     Calculation.EndedAt := time.Date 2025 4 1;
     Calculation.Status := StatusPending;
     Calculation.CreatedBy := "officer";
     Calculation.UpdatedBy := "officer";
     Calculation.CreatedAt := time.Date 2025 4 2;
     Calculation.UpdatedAt := time.Date 2025 4 2;
     Calculation.SalaryBreakdown := SalaryBreakdown.empty;
     Calculation.AllowanceBreakdown := AllowanceBreakdown.empty;
     Calculation.CommissionBreakdown := CommissionBreakdown.empty;
     Calculation.Source := Source.empty |}.

Definition pending : Calculation.t := pendingNumbered "N-001".

Definition completed : Calculation.t :=
  Complete (pendingNumbered "N-000") "officer" (time.Date 2025 4 3).

Definition salaries : list MonthlySalary.t :=
  [MonthlySalary.mk "January-2025" (NewFromInt 1) [tx 1000000] (NewFromInt 1000000);
   MonthlySalary.mk "February-2025" (NewFromInt 2) [tx 700000; tx 500000]
     (NewFromInt 1200000);
   MonthlySalary.mk "March-2025" (NewFromInt 1) [tx 1100000] (NewFromInt 1100000)].

(** One allowance, with a month-divisor of 0. *)
Definition zeroMonths : Allowance.t :=
  Allowance.mk "fuel" Zero Zero [tx 120000] (NewFromInt 120000).

Definition reqZeroMonths : RecalculateReq.t :=
  RecalculateReq.mk "N-001" Zero salaries [zeroMonths] [].

(** The same allowance followed by a second entry of the same title with
    a month-divisor of 12. *)
Definition reqDuplicateTitle : RecalculateReq.t :=
  RecalculateReq.mk "N-001" Zero salaries
    [zeroMonths;
     Allowance.mk "fuel" (NewFromInt 12) Zero [tx 60000] (NewFromInt 60000)]
    [].

(** A declared interview salary of 900,000, below the basic salary. *)
Definition reqInterview : RecalculateReq.t :=
  RecalculateReq.mk "N-001" (NewFromInt 900000) salaries [] [].

(** A request and a statement with two allowances. *)
Definition reqTwoAllowances : RecalculateReq.t :=
  RecalculateReq.mk "N-001" Zero salaries
    [Allowance.mk "fuel" (NewFromInt 12) (NewFromInt 10000) [tx 120000]
       (NewFromInt 120000);
     Allowance.mk "meal" (NewFromInt 12) (NewFromInt 5000) [tx 60000]
       (NewFromInt 60000)]
    [].

Definition perks : list Wordlist.t :=
  [Wordlist.mk 1 "meal" SourceAllowance "admin" time.zero;
   Wordlist.mk 2 "fuel" SourceAllowance "admin" time.zero;
   Wordlist.mk 3 "salary" SourceSalary "admin" time.zero].

Definition perkRows : list (list string) :=
  [["Date"; "Bill"; "Description"; "Debit"; "Credit"];
   ["05/01/2025"; "P1"; "salary jan"; ""; "1,000,000"];
   ["06/01/2025"; "P2"; "Fuel support"; ""; "120,000"];
   ["07/01/2025"; "P3"; "Meal support"; ""; "60,000"];
   ["05/02/2025"; "P4"; "salary feb"; ""; "1,000,000"]].

(** Three statements: one with salary, commission and allowance rows, one
    whose rows match no wordlist entry, one whose currency cell is wrong. *)
Definition sheet : Sheet :=
  mkSheet "Period : 01/01/2025 ຫາ 01/04/2025" "Account No : 0101"
    "Account Name : Somchai" "Currency : LAK" rows.

Definition unclassifiedSheet : Sheet :=
  mkSheet "Period : 01/01/2025 ຫາ 01/04/2025" "Account No : 0101"
    "Account Name : Somchai" "Currency : LAK"
    [["Date"; "Bill"; "Description"; "Debit"; "Credit"];
     ["20/01/2025"; "B2"; "ATM deposit"; ""; "200,000"];
     ["07/03/2025"; "B8"; "transfer from a friend"; ""; "50,000"]].

Definition badCurrencySheet : Sheet :=
  mkSheet "Period : 01/01/2025 ຫາ 01/04/2025" "Account No : 0101"
    "Account Name : Somchai" "Currency : KIPS" rows.

Definition world : World :=
  mkWorld
    (<["N-001" := pending]> (<["N-000" := completed]> ∅))
    (<["statement.xlsx" := StatementFile.mk "statement.xlsx" "/files/1"]>
       (<["quiet.xlsx" := StatementFile.mk "quiet.xlsx" "/files/2"]>
          (<["bad.xlsx" := StatementFile.mk "bad.xlsx" "/files/3"]> ∅)))
    (<["/files/1" := sheet]>
       (<["/files/2" := unclassifiedSheet]>
          (<["/files/3" := badCurrencySheet]> ∅)))
    wordlist
    (<["LAK" := Currency.mk "LAK" (NewFromInt 1)]> ∅).

End Sample.

(** * Notions used to state the properties *)

(** The sum of a list of decimals, as a right fold. *)
Definition total (l : list Decimal) : Decimal := foldr decimal.Add decimal.Zero l.

(** The test the classifier applies to one wordlist entry for a memo. *)
Definition entryMatches `{strings.Unicode} (memo : string) (w : Wordlist.t) : bool :=
  matchWord (strings.ToLower (strings.TrimSpace memo))
    (strings.TrimSpace (Wordlist.Word w)).

(** The tokens the short-word rule looks at: each segment of the
    normalised memo between ['|'], trimmed, cut at the spaces, each piece
    trimmed. *)
Definition memoTokens `{strings.Unicode} (memo : string) : list string :=
  flat_map
    (fun seg => map strings.TrimSpace (strings.Split (strings.TrimSpace seg) " "))
    (strings.Split (strings.ToLower (strings.TrimSpace memo)) "|").

(** The calendar month that follows the month [ym] = (year, month). *)
Definition nextMonth (ym : Z * Z) : Z * Z :=
  if ym.2 =? 12 then (ym.1 + 1, 1) else (ym.1, ym.2 + 1).

(** The calendar months from the month of [from] to the month of [to],
    both counted. *)
Definition calendarMonthsInclusive (from to : Time) : Z :=
  let first := (time.Year from, time.Month from) in
  let last := (time.Year to, time.Month to) in
  let le (a b : Z * Z) := ((a.1 <? b.1) || ((a.1 =? b.1) && (a.2 <=? b.2)))%bool in
  Z.of_nat
    (length
       (filter (fun ym => le first ym && le ym last)%bool
          (list_prod (seqZ (time.Year from) (time.Year to - time.Year from + 1))
             (seqZ 1 12)))).

Definition validMonth (t : Time) : Prop := 1 <= time.Month t <= 12.

(** The salary buckets of an aggregation, and all their transactions. *)
Definition salaryBuckets (m : statMap) : list (string * list Transaction.t) :=
  match m !! sourceNames SourceSalary with
  | Some raw => map_to_list (statCal.Transactions raw)
  | None => []
  end.

Definition bucketTransactions (buckets : list (string * list Transaction.t))
  : list Transaction.t :=
  concat (map snd buckets).

(** A bucket table whose running total is the sum of the amounts of all its
    transactions and whose buckets all hold a transaction. *)
Definition consistentBuckets (txs : gmap string (list Transaction.t))
    (sum : Decimal) : Prop :=
  sum = total (map Transaction.Amount (bucketTransactions (map_to_list txs)))
  /\ forall month tx, txs !! month = Some tx -> tx <> [].

Definition salaryConsistent (m : statMap) : Prop :=
  match m !! sourceNames SourceSalary with
  | Some raw => consistentBuckets (statCal.Transactions raw) (statCal.Total raw)
  | None => True
  end.

(** The [statMap]s the package builds: by the pass over the rows of a
    statement, or from the breakdowns of a calculation. *)
Definition aggregated `{Library} (m : statMap) : Prop :=
  (exists wordlists rows, m = fold_left (addRow wordlists) rows ∅)
  \/ (exists c, toStateMap c = Ok m).

(** The call returns a value: it neither panics nor reports an error. *)
Definition returns {A} (o : outcome A) : Prop := exists a, o = Ok a.

(** The allowance bucket [title] holds a transaction and its month-divisor
    is zero. *)
Definition zeroDivisorBucket (txs : gmap string (list Transaction.t))
    (months : gmap string Decimal) (title : string) : Prop :=
  (exists tx, txs !! title = Some tx /\ tx <> [])
  /\ months !! title = Some decimal.Zero.

(** The request [req] with another declared interview salary. *)
Definition withInterview (req : RecalculateReq.t) (s : Decimal) : RecalculateReq.t :=
  RecalculateReq.mk (RecalculateReq.Number req) s
    (RecalculateReq.MonthlySalaries req) (RecalculateReq.Allowances req)
    (RecalculateReq.Commissions req).

(** No declared interview salary is recorded in the [statMap]. *)
Definition noInterview (m : statMap) : Prop :=
  m !! sourceNames SourceBasicSalaryInterview = None.

(** A required header value is missing after extraction, or the trimmed
    currency code is not 3 bytes long. *)
Definition headerInvalid `{Library} (rawAccountNumber rawAccountDisplayName
    rawAccountCurrency : string) : Prop :=
  extractAccount rawAccountNumber = ""
  \/ extractAccount rawAccountDisplayName = ""
  \/ String.length (strings.TrimSpace (extractAccount rawAccountCurrency)) <> 3%nat.

(** The transaction a row of the statement stands for: at least five
    cells, a positive amount once the thousands separators are removed, a
    memo that is not empty and a date that parses. *)
Definition decodeRow `{Library} (row : list string) : option Transaction.t :=
  if (length row <=? 4)%nat then None
  else
    match NewFromString (strings.ReplaceAll (nth 4 row "") "," "") with
    | None => None
    | Some amount =>
        if decimal.GreaterThan amount decimal.Zero
        then
          if (String.length (nth 2 row "") =? 0)%nat then None
          else
            match ParseDate (nth 0 row "") with
            | None => None
            | Some date =>
                Some (Transaction.mk date (nth 1 row "") (nth 2 row "") amount)
            end
        else None
    end.

(** The classifier puts the transaction under salary. *)
Definition isSalary `{strings.Unicode} (wordlists : list Wordlist.t)
    (t : Transaction.t) : bool :=
  match matchWordlists (Transaction.Noted t) wordlists with
  | (SourceSalary, _, true) => true
  | _ => false
  end.

(** The salary transactions of a statement, in the order of its rows. *)
Definition salaryTransactions `{Library} (wordlists : list Wordlist.t)
    (rows : list (list string)) : list Transaction.t :=
  List.filter (isSalary wordlists) (omap decodeRow rows).

(** The salary transactions a recalculation request supplies. *)
Definition suppliedSalaryTransactions (c : Calculation.t) : list Transaction.t :=
  concat (map MonthlySalary.Transactions
            (SalaryBreakdown.MonthlySalaries (Calculation.SalaryBreakdown c))).

(** The string [s] without its first [n] bytes. *)
Fixpoint dropBytes (n : nat) (s : string) : string :=
  match n, s with
  | O, _ => s
  | S _, EmptyString => EmptyString
  | S k, String _ s' => dropBytes k s'
  end.

(** * Further operations of the package *)

(** ** Listing and looking up the transactions of a statement (service.go) *)

Module TransactionReq.
Record t : Type := mk {
  Number : string;
  Category : source;
  (** the month, of type [mmyyyy] *)
  Month : Time
}.
End TransactionReq.

Module GetTransactionReq.
Record t : Type := mk {
  Number : string;
  BillNumber : string
}.
End GetTransactionReq.

Section Lookup.

Context `{Library} {W : Type} `{Backend W}.

Import decimal.

(** [mmyyyy.String] *)
Definition mmyyyy_String (y : Time) : string := FormatMonth y.

(** One turn of the loop of [listTransactionFromStatementFile]. *)
Definition listRow (month : string) (wordlists : list Wordlist.t)
    (txs : list Transaction.t) (row : list string) : list Transaction.t :=
  if (4 <? length row)%nat
  then
    match NewFromString (strings.ReplaceAll (nth 4 row "") "," "") with
    | None => txs
    | Some incomeAmount =>
        if (GreaterThan incomeAmount Zero
            && (0 <? String.length (nth 2 row ""))%nat)%bool
        then
          if (matchWordlists (nth 2 row "") wordlists).2
          then
            match ParseDate (nth 0 row "") with
            | None => txs
            | Some date =>
                if String.eqb (FormatMonth date) month
                then (txs ++ [Transaction.mk date (nth 1 row "") (nth 2 row "")
                                incomeAmount])%list
                else txs
            end
          else txs
        else txs
    end
  else txs.

Definition listTransactionFromStatementFile (w : W) (txReq : TransactionReq.t)
    (wordlists : list Wordlist.t) (statement : StatementFile.t)
  : outcome (list Transaction.t) :=
  f ← wrap "failed to open file" (OpenFile w (StatementFile.Location statement));
  rows ← wrap "failed to get rows" (Rows f sheetName);
  Ok (fold_left (listRow (mmyyyy_String (TransactionReq.Month txReq)) wordlists)
        rows []).

(** The loop of [GetIncomeTransactionByBillNumber]: the first row with a
    positive amount, a memo and the bill number asked for (up to letter
    case and surrounding spaces) whose date parses. *)
Fixpoint findByBillNumber (billNumber : string) (rows : list (list string))
  : option Transaction.t :=
  match rows with
  | [] => None
  | row :: rest =>
      if (4 <? length row)%nat
      then
        match NewFromString (strings.ReplaceAll (nth 4 row "") "," "") with
        | None => findByBillNumber billNumber rest
        | Some incomeAmount =>
            if (GreaterThan incomeAmount Zero
                && (0 <? String.length (nth 2 row ""))%nat)%bool
            then
              if String.eqb
                   (strings.TrimSpace (strings.ToLower (nth 1 row "")))
                   (strings.TrimSpace (strings.ToLower billNumber))
              then
                match ParseDate (nth 0 row "") with
                | None => findByBillNumber billNumber rest
                | Some date =>
                    Some (Transaction.mk date (nth 1 row "") (nth 2 row "")
                            incomeAmount)
                end
              else findByBillNumber billNumber rest
            else findByBillNumber billNumber rest
        end
      else findByBillNumber billNumber rest
  end.

Definition GetTransactionReq_Validate (r : GetTransactionReq.t) : option error :=
  if ((String.length (GetTransactionReq.Number r) =? 0)%nat
      || (String.length (GetTransactionReq.BillNumber r) =? 0)%nat)%bool
  then Some (RpcStatus InvalidArgument
               "Transaction is not valid or incomplete. Please check the errors and try again, see details for more information.")
  else None.

Definition GetIncomeTransactionByBillNumber (w : W) (req : GetTransactionReq.t)
  : outcome Transaction.t :=
  match GetTransactionReq_Validate req with
  | Some e => Err e
  | None =>
      match getCalculation w (GetTransactionReq.Number req) with
      | Panic msg => Panic msg
      | Err ErrCalculationNotFound =>
          Err (RpcStatus PermissionDenied
                 "You are not allowed to this calculation or (it may not exist)")
      | Err e => Err e
      | Ok calculation =>
          match getStatementFileByName w (Calculation.StatementFileName calculation) with
          | Panic msg => Panic msg
          | Err ErrStatementFileNotFound =>
              Err (RpcStatus PermissionDenied
                     "You are not allowed to this statement file or (it may not exist)")
          | Err e => Err e
          | Ok statementFile =>
              f ← wrap "failed to open file"
                    (OpenFile w (StatementFile.Location statementFile));
              rows ← wrap "failed to get rows" (Rows f sheetName);
              match findByBillNumber (GetTransactionReq.BillNumber req) rows with
              | Some t => Ok t
              | None =>
                  Err (RpcStatus PermissionDenied
                         "You are not allowed to this resource or (it may not exist)")
              end
          end
      end
  end.

End Lookup.

(** ** The text forms of [product] (type.go)

    A [product] is an [int]; the constants are 0 to 3, and the JSON decoder
    can store any other [int]. *)

Definition quote : string := String (ascii_of_nat 34) EmptyString.

Definition productInt (p : product) : Z :=
  match p with
  | ProductUnSpecified => 0
  | ProductSA => 1
  | ProductSF => 2
  | ProductPL => 3
  end.

Definition productNames (p : Z) : option string :=
  if p =? 0 then Some "UNSPECIFIED"
  else if p =? 1 then Some "SA"
  else if p =? 2 then Some "SF"
  else if p =? 3 then Some "PL"
  else None.

Definition productValues (s : string) : option Z :=
  if String.eqb s "UNSPECIFIED" then Some 0
  else if String.eqb s "SA" then Some 1
  else if String.eqb s "SF" then Some 2
  else if String.eqb s "PL" then Some 3
  else None.

(** [fmt.Sprintf("%d", n)] *)
Definition itoa (n : Z) : string :=
  DecimalString.NilZero.string_of_int (Z.to_int n).

Definition product_String (p : Z) : string :=
  match productNames p with
  | Some v => v
  | None => ("Product(" ++ itoa p ++ ")")%string
  end.

Definition product_MarshalJSON (p : Z) : string :=
  (quote ++ product_String p ++ quote)%string.

(** The value of a run of decimal digits. *)
Fixpoint digitsValue (acc : Z) (s : string) : option Z :=
  match s with
  | EmptyString => Some acc
  | String c s' =>
      let n := nat_of_ascii c in
      if (Nat.leb 48 n && Nat.leb n 57)%bool
      then digitsValue (acc * 10 + (Z.of_nat n - 48)) s'
      else None
  end.

(** [strconv.Atoi]: an optional sign, at least one digit, only digits, and
    a value that fits an [int] of 64 bits. *)
Definition Atoi (s : string) : option Z :=
  let '(negative, digits) :=
    match s with
    | String "-" s' => (true, s')
    | String "+" s' => (false, s')
    | _ => (false, s)
    end in
  match digits with
  | EmptyString => None
  | _ =>
      match digitsValue 0 digits with
      | None => None
      | Some v =>
          let v := if negative then - v else v in
          if ((- 2 ^ 63 <=? v) && (v <=? 2 ^ 63 - 1))%bool then Some v else None
      end
  end.

(** [UnmarshalJSON(b)] of a pointer to a variable holding [p]: the new
    content of the variable.  [b[1 : len(b)-1]] needs two bytes. *)
Definition product_UnmarshalJSON (p : Z) (b : string) : outcome Z :=
  if String.eqb b "null" then Ok p
  else if (String.length b <? 2)%nat then Panic "slice bounds out of range"
  else
    let b := String.substring 1 (String.length b - 2) b in
    match productValues b with
    | Some t => Ok t
    | None =>
        match Atoi b with
        | Some t => Ok t
        | None => Err (Errorf ("invalid product: " ++ b))
        end
    end.

(** [Scan(src)] for a column value that is [nil] or a [string], and
    [product.Value]. *)
Definition product_Scan (p : Z) (src : option string) : outcome Z :=
  match src with
  | None => Ok p
  | Some src =>
      match productValues src with
      | Some v => Ok v
      | None => Err (Errorf ("invalid product: " ++ src))
      end
  end.

Definition product_Value (p : Z) : string := product_String p.

(** * Notions of the further properties *)

(** Every allowance bucket of the [statMap] has the month-divisor 12. *)
Definition dividedByTwelve (m : statMap) : Prop :=
  forall raw title tx,
    m !! sourceNames SourceAllowance = Some raw ->
    statCal.Transactions raw !! title = Some tx ->
    statCal.AverageMonth raw !! title = Some (decimal.NewFromInt 12).

(** The commissions of a request that hold at least one transaction. *)
Definition statedCommissions (req : RecalculateReq.t) : list Commission.t :=
  List.filter (fun k => negb (Nat.eqb (length (Commission.Transactions k)) 0))
    (RecalculateReq.Commissions req).

(** The bucket [b] of the entry [key] of a [statMap]; empty when missing. *)
Definition bucket (m : statMap) (key b : string) : list Transaction.t :=
  match m !! key with
  | Some raw => default [] (statCal.Transactions raw !! b)
  | None => []
  end.

(** Where the pass over a statement files a transaction: the entry of its
    category and, there, the bucket of its month (salary, commission) or of
    the matched word (allowance). *)
Definition filedUnder `{Library} (wordlists : list Wordlist.t) (t : Transaction.t)
  : option (string * string) :=
  match matchWordlists (Transaction.Noted t) wordlists with
  | (SourceSalary, _, true) =>
      Some (sourceNames SourceSalary, FormatMonth (Transaction.Date t))
  | (SourceCommission, _, true) =>
      Some (sourceNames SourceCommission, FormatMonth (Transaction.Date t))
  | (SourceAllowance, title, true) => Some (sourceNames SourceAllowance, title)
  | _ => None
  end.

(** The wordlist entries of one category, in their order. *)
Definition ofCategory (category : source) (wordlists : list Wordlist.t)
  : list Wordlist.t :=
  List.filter (fun w => bool_decide (Wordlist.Category w = category)) wordlists.

(** The bill number of the transaction is the one asked for, up to letter
    case and surrounding white space. *)
Definition billMatches `{strings.Unicode} (billNumber : string)
    (t : Transaction.t) : bool :=
  String.eqb (strings.TrimSpace (strings.ToLower (Transaction.BillNumber t)))
    (strings.TrimSpace (strings.ToLower billNumber)).

(** The month label [a] does not come after the month label [b]. *)
Definition notAfter `{Library} (a b : string) : Prop :=
  time.Before (monthTime b) (monthTime a) = false.

(** The amounts recorded under salary in a [statMap], in their order. *)
Definition salaryAmounts (m : statMap) : list Decimal :=
  match m !! sourceNames SourceSalary with
  | Some raw => statCal.Monthly raw
  | None => []
  end.

(** The entry of a [statMap] under a key, read as the empty entry when the
    key is missing. *)
Definition entry (m : statMap) (key : string) : statCal.t :=
  default emptyStatCal (m !! key).

(** The request that sends the breakdowns of a calculation back as they
    are. *)
Definition unchangedRequest (c : Calculation.t) (interview : Decimal)
  : RecalculateReq.t :=
  RecalculateReq.mk (Calculation.Number c) interview
    (SalaryBreakdown.MonthlySalaries (Calculation.SalaryBreakdown c))
    (AllowanceBreakdown.Allowances (Calculation.AllowanceBreakdown c))
    (CommissionBreakdown.Commissions (Calculation.CommissionBreakdown c)).

(** An entry keeps its bookkeeping: no bucket is empty, the recorded
    amounts are those of the bucketed transactions and the total is their
    sum. *)
Definition tidyEntry (raw : statCal.t) : Prop :=
  (forall b tx, statCal.Transactions raw !! b = Some tx -> tx <> [])
  /\ Permutation (statCal.Monthly raw)
       (map Transaction.Amount
          (bucketTransactions (map_to_list (statCal.Transactions raw))))
  /\ statCal.Total raw = total (statCal.Monthly raw).

(** Every entry of the [statMap] keeps its bookkeeping, the month-divisors
    are 12 for exactly the allowance buckets, and no interview salary is
    recorded. *)
Definition tidy (m : statMap) : Prop :=
  (forall key raw, m !! key = Some raw -> tidyEntry raw)
  /\ (forall raw,
        m !! sourceNames SourceAllowance = Some raw ->
        statCal.AverageMonth raw
        = (fun _ => decimal.NewFromInt 12) <$> statCal.Transactions raw)
  /\ m !! sourceNames SourceBasicSalaryInterview = None.

(** The allowance the loop of [toListAllowances] makes for a bucket whose
    month-divisor is recorded. *)
Definition allowanceOf (averageMonth : gmap string Decimal)
    (e : string * list Transaction.t) : Allowance.t :=
  let months := default decimal.Zero (averageMonth !! e.1) in
  Allowance.mk e.1 months
    (decimal.DivRound (sumTransactions e.2) months decimal.DivisionPrecision)
    e.2 (sumTransactions e.2).

(** The bucket holds a transaction and its recorded month-divisor is 0. *)
Definition dividesByZero (averageMonth : gmap string Decimal)
    (e : string * list Transaction.t) : bool :=
  negb (Nat.eqb (length e.2) 0)
  && decimal.IsZero (default decimal.Zero (averageMonth !! e.1)).

(** Every allowance bucket of [m] has a month-divisor. *)
Definition allDivided (m : statMap) : Prop :=
  forall raw title tx,
    m !! sourceNames SourceAllowance = Some raw ->
    statCal.Transactions raw !! title = Some tx ->
    is_Some (statCal.AverageMonth raw !! title).

(** [c'] is [c] with the entries of its three breakdowns listed in another
    order: every figure, the summary, and the entries themselves are
    those of [c]. *)
Definition reordered (c c' : Calculation.t) : Prop :=
  exists salaries allowances commissions,
    Permutation salaries
      (SalaryBreakdown.MonthlySalaries (Calculation.SalaryBreakdown c))
    /\ Permutation allowances
         (AllowanceBreakdown.Allowances (Calculation.AllowanceBreakdown c))
    /\ Permutation commissions
         (CommissionBreakdown.Commissions (Calculation.CommissionBreakdown c))
    /\ c' = setBreakdowns c
              (SalaryBreakdown.mk salaries
                 (SalaryBreakdown.BasicSalary (Calculation.SalaryBreakdown c))
                 (SalaryBreakdown.Total (Calculation.SalaryBreakdown c)))
              (AllowanceBreakdown.mk allowances
                 (AllowanceBreakdown.Total (Calculation.AllowanceBreakdown c)))
              (CommissionBreakdown.mk commissions
                 (CommissionBreakdown.MonthlyAverage (Calculation.CommissionBreakdown c))
                 (CommissionBreakdown.Total (Calculation.CommissionBreakdown c))).

(** The entry as [matchWordlists] leaves it after a visit: its word is
    stored back trimmed. *)
Definition storedBack `{strings.Unicode} (w : Wordlist.t) : Wordlist.t :=
  Wordlist.mk (Wordlist.ID w) (strings.TrimSpace (Wordlist.Word w))
    (Wordlist.Category w) (Wordlist.CreatedBy w) (Wordlist.CreatedAt w).

(** * Properties *)

Local Open Scope list_scope.

(** ** Decimals *)

Section DecimalFacts.

Import decimal.

Lemma IsZero_true (d : Decimal) : IsZero d = true <-> d = Zero.
Proof.
  unfold IsZero. split.
  - apply Qc_eq_bool_correct.
  - intros ->. unfold Qc_eq_bool.
    destruct (Qc_eq_dec Zero Zero) as [_|n]; [reflexivity | now destruct n].
Qed.

Lemma IsZero_false (d : Decimal) : IsZero d = false <-> d <> Zero.
Proof.
  rewrite <- IsZero_true. destruct (IsZero d); split; congruence.
Qed.

Lemma LessThan_true (a b : Decimal) : LessThan a b = true <-> (a < b)%Qc.
Proof.
  unfold LessThan. rewrite Qclt_alt.
  destruct (a ?= b)%Qc; split; congruence.
Qed.

Lemma LessThan_false (a b : Decimal) : LessThan a b = false <-> (b <= a)%Qc.
Proof.
  rewrite Qcle_ngt, <- LessThan_true. destruct (LessThan a b); intuition congruence.
Qed.

Lemma GreaterThan_true (a b : Decimal) : GreaterThan a b = true <-> (b < a)%Qc.
Proof.
  unfold GreaterThan. pose proof (Qcgt_alt a b) as E.
  destruct (a ?= b)%Qc; intuition congruence.
Qed.

Lemma Add_Zero_l (d : Decimal) : Add Zero d = d.
Proof. unfold Add, Zero. apply Qcplus_0_l. Qed.

Lemma Add_Zero_r (d : Decimal) : Add d Zero = d.
Proof. unfold Add, Zero. apply Qcplus_0_r. Qed.

Lemma Add_comm (a b : Decimal) : Add a b = Add b a.
Proof. apply Qcplus_comm. Qed.

Lemma Add_assoc (a b c : Decimal) : Add (Add a b) c = Add a (Add b c).
Proof. unfold Add. symmetry. apply Qcplus_assoc. Qed.

Lemma Div_Ok (d d2 : Decimal) :
  d2 <> Zero -> Div d d2 = Ok (DivRound d d2 DivisionPrecision).
Proof. intros Hz. unfold Div. apply IsZero_false in Hz. now rewrite Hz. Qed.

Lemma Div_Panic (d d2 : Decimal) :
  d2 = Zero -> Div d d2 = Panic "decimal division by 0".
Proof. intros ->. reflexivity. Qed.

Lemma fold_left_Add (l : list Decimal) (acc : Decimal) :
  fold_left (fun sum amount => Add sum amount) l acc = Add acc (total l).
Proof.
  revert acc. induction l as [|a l IH]; intros acc; simpl.
  - now rewrite Add_Zero_r.
  - rewrite IH. apply Add_assoc.
Qed.

Lemma sumAmounts_total (l : list Decimal) : sumAmounts l = total l.
Proof. unfold sumAmounts. rewrite fold_left_Add. apply Add_Zero_l. Qed.

Lemma sumTransactions_total (ts : list Transaction.t) :
  sumTransactions ts = total (map Transaction.Amount ts).
Proof.
  unfold sumTransactions.
  transitivity (fold_left (fun sum amount => Add sum amount)
                  (map Transaction.Amount ts) Zero).
  - generalize Zero. induction ts as [|t ts IH]; intros acc; simpl; [done|apply IH].
  - rewrite fold_left_Add. apply Add_Zero_l.
Qed.

Lemma total_app (l1 l2 : list Decimal) :
  total (l1 ++ l2) = Add (total l1) (total l2).
Proof.
  induction l1 as [|a l1 IH]; simpl.
  - now rewrite Add_Zero_l.
  - now rewrite IH, Add_assoc.
Qed.

Lemma total_Permutation (l1 l2 : list Decimal) :
  Permutation l1 l2 -> total l1 = total l2.
Proof.
  induction 1; simpl; try congruence.
  rewrite <- !Add_assoc. f_equal. apply Add_comm.
Qed.

End DecimalFacts.

(** ** The period: [countMonth] *)

Section Period.

Import decimal.

Lemma Before_false_months (from to : Time) :
  time.Before to from = false ->
  time.Year from < time.Year to
  \/ (time.Year from = time.Year to /\ time.Month from <= time.Month to).
Proof.
  unfold time.Before.
  destruct (Z.compare_spec (time.Year to) (time.Year from)); try discriminate;
    [|lia].
  destruct (Z.compare_spec (time.Month to) (time.Month from)); try discriminate;
    lia.
Qed.

Lemma iter_nextMonth (n : nat) (y m : Z) :
  1 <= m <= 12 ->
  Nat.iter n nextMonth (y, m)
  = (y + (m - 1 + Z.of_nat n) / 12, (m - 1 + Z.of_nat n) mod 12 + 1).
Proof.
  intros Hm. induction n as [|n IH].
  - simpl. rewrite Z.add_0_r, Z.div_small, Z.mod_small by lia.
    f_equal; lia.
  - rewrite Nat.iter_succ, IH. unfold nextMonth. cbn [fst snd].
    replace (m - 1 + Z.of_nat (S n)) with (m - 1 + Z.of_nat n + 1) by lia.
    set (N := m - 1 + Z.of_nat n).
    assert (HN : 0 <= N) by (unfold N; lia).
    pose proof (Z.div_mod N 12 ltac:(lia)) as HD.
    pose proof (Z.mod_pos_bound N 12 ltac:(lia)) as HB.
    destruct (Z.eqb_spec (N mod 12 + 1) 12) as [E|E].
    + assert (E1 : (N + 1) / 12 = N / 12 + 1)
        by (symmetry; apply Z.div_unique with (r := 0); lia).
      assert (E2 : (N + 1) mod 12 = 0)
        by (symmetry; apply Z.mod_unique with (q := N / 12 + 1); lia).
      rewrite E1, E2. f_equal; lia.
    + assert (E1 : (N + 1) / 12 = N / 12)
        by (symmetry; apply Z.div_unique with (r := N mod 12 + 1); lia).
      assert (E2 : (N + 1) mod 12 = N mod 12 + 1)
        by (symmetry; apply Z.mod_unique with (q := N / 12); lia).
      rewrite E1, E2. f_equal; lia.
Qed.

(** C8, as the code has it: when the end precedes the start the period is
    0; otherwise it is the number of calendar-month steps that lead from the
    month of the start to the month of the end, so the start month itself
    is not counted and two dates of one month give 0. *)
Theorem countMonth_month_steps (from to : Time) :
  validMonth from -> validMonth to ->
  (time.Before to from = true -> countMonth from to = Zero)
  /\ (time.Before to from = false ->
      exists k : nat,
        countMonth from to = NewFromInt (Z.of_nat k)
        /\ Z.of_nat k
           = (time.Year to - time.Year from) * 12
             + (time.Month to - time.Month from)
        /\ Nat.iter k nextMonth (time.Year from, time.Month from)
           = (time.Year to, time.Month to)).
Proof.
  unfold validMonth. intros Hf Ht. split; intros HB; unfold countMonth; rewrite HB.
  - reflexivity.
  - apply Before_false_months in HB.
    set (d := (time.Year to - time.Year from) * 12
              + (time.Month to - time.Month from)).
    assert (Hd : 0 <= d) by (unfold d; lia).
    exists (Z.to_nat d). rewrite Z2Nat.id by exact Hd.
    split; [reflexivity|]. split; [reflexivity|].
    rewrite iter_nextMonth by exact Hf. rewrite Z2Nat.id by exact Hd.
    f_equal.
    + assert (E : (time.Month from - 1 + d) / 12
                  = time.Year to - time.Year from).
      { symmetry. apply Z.div_unique with (r := time.Month to - 1); unfold d; lia. }
      lia.
    + assert (E : (time.Month from - 1 + d) mod 12 = time.Month to - 1).
      { symmetry.
        apply Z.mod_unique with (q := time.Year to - time.Year from); unfold d; lia. }
      lia.
Qed.

Lemma countMonth_month_steps_witness :
  countMonth (time.Date 2025 1 1) (time.Date 2025 3 31) = NewFromInt 2
  /\ Nat.iter 2 nextMonth (2025, 1) = (2025, 3).
Proof.
  destruct (countMonth_month_steps (time.Date 2025 1 1) (time.Date 2025 3 31))
    as [_ Hk]; [unfold validMonth; simpl; lia | unfold validMonth; simpl; lia |].
  destruct (Hk eq_refl) as (k & Hc & Hz & Hi).
  assert (k = 2%nat) as -> by (simpl in Hz; lia).
  split; [exact Hc | exact Hi].
Defined.

(** C8, as stated, fails: a statement from 1 January 2025 to 31 March 2025
    spans the calendar months January, February and March, three months
    when the end month is counted inclusively, and its period is 2. *)
Lemma countMonth_end_month_not_counted :
  time.Before (time.Date 2025 3 31) (time.Date 2025 1 1) = false
  /\ calendarMonthsInclusive (time.Date 2025 1 1) (time.Date 2025 3 31) = 3
  /\ countMonth (time.Date 2025 1 1) (time.Date 2025 3 31) = NewFromInt 2
  /\ countMonth (time.Date 2025 1 1) (time.Date 2025 3 31)
     <> NewFromInt
          (calendarMonthsInclusive (time.Date 2025 1 1) (time.Date 2025 3 31)).
Proof.
  split; [reflexivity|]. split; [reflexivity|]. split; [reflexivity|].
  intros E. apply (f_equal this) in E. vm_compute in E. discriminate E.
Qed.

End Period.

(** ** The classifier *)

Section Classifier.

Import strings.

Context `{Library}.

Lemma HasPrefix_spec (s p : string) :
  HasPrefix s p = true <-> exists post, s = (p ++ post)%string.
Proof.
  revert s. induction p as [|b p IH]; intros s; simpl.
  - split; [intros _; now exists s | intros _; now destruct s].
  - destruct s as [|a s]; simpl.
    + split; [discriminate | intros [post E]; discriminate E].
    + destruct (Ascii.eqb_spec a b) as [->|Hne].
      * rewrite IH. split; intros [post E]; exists post.
        -- now rewrite E.
        -- now injection E.
      * split; [discriminate|]. intros [post E]. injection E as E1 _. congruence.
Qed.

Lemma Contains_spec (s sub : string) :
  Contains s sub = true <-> exists pre post, s = (pre ++ sub ++ post)%string.
Proof.
  induction s as [|a s IH].
  - cbn [Contains]. rewrite orb_false_r, HasPrefix_spec. split.
    + intros [post E]. now exists EmptyString, post.
    + intros (pre & post & E). destruct pre as [|c pre]; [|discriminate E].
      now exists post.
  - cbn [Contains]. rewrite orb_true_iff, HasPrefix_spec, IH. split.
    + intros [[post E] | (pre & post & E)].
      * now exists EmptyString, post.
      * exists (String a pre), post. simpl. now rewrite E.
    + intros (pre & post & E). destruct pre as [|c pre].
      * left. now exists post.
      * right. injection E as _ E. now exists pre, post.
Qed.

Lemma splitFrom_nonempty (sep : string) (k : nat) (s : string) :
  splitFrom sep k s <> [].
Proof.
  revert k. induction s as [|c s IH]; intros k; cbn [splitFrom]; [discriminate|].
  destruct k as [|k]; [|apply IH].
  destruct (HasPrefix (String c s) sep); [discriminate|].
  destruct (splitFrom sep 0 s); discriminate.
Qed.

Lemma Join_cons (e : string) (rest : list string) (sep : string) :
  rest <> [] -> Join (e :: rest) sep = (e ++ sep ++ Join rest sep)%string.
Proof. destruct rest; [congruence | reflexivity]. Qed.

Lemma dropBytes_app (p post : string) :
  dropBytes (String.length p) (p ++ post)%string = post.
Proof. induction p as [|c p IH]; simpl; [now destruct post | exact IH]. Qed.

(** Joining the pieces of [Split] with the separator gives the string
    back: no byte is lost and the pieces are cut exactly at separators. *)
Lemma Join_splitFrom (sep : string) (k : nat) (s : string) :
  sep <> EmptyString -> Join (splitFrom sep k s) sep = dropBytes k s.
Proof.
  intros Hsep. revert k. induction s as [|c s IH]; intros k.
  - now destruct k.
  - cbn [splitFrom]. destruct k as [|k]; [|apply IH].
    destruct (HasPrefix (String c s) sep) eqn:Hp.
    + rewrite Join_cons by apply splitFrom_nonempty. rewrite IH.
      apply HasPrefix_spec in Hp as [post E].
      destruct sep as [|b sep]; [congruence|]. injection E as -> ->.
      cbn [String.length Nat.sub]. rewrite Nat.sub_0_r, dropBytes_app.
      reflexivity.
    + specialize (IH 0%nat). cbn [dropBytes] in *.
      destruct (splitFrom sep 0 s) as [|piece rest] eqn:Es;
        [now apply splitFrom_nonempty in Es|].
      destruct rest as [|r rest].
      * cbn [Join] in *. now rewrite IH.
      * rewrite Join_cons by discriminate. rewrite Join_cons in IH by discriminate.
        rewrite <- IH. reflexivity.
Qed.

Lemma Join_Split (s sep : string) :
  sep <> EmptyString -> Join (Split s sep) sep = s.
Proof. intros Hsep. unfold Split. now rewrite Join_splitFrom. Qed.

Lemma matchTokens_memoTokens (memo word : string) :
  matchTokens (ToLower (TrimSpace memo)) word = true
  <-> exists tok,
       In tok (memoTokens memo) /\ EqualFold tok (ToLower word) = true.
Proof.
  unfold matchTokens, memoTokens, SplitSeq. rewrite existsb_exists. split.
  - intros (seg & Hseg & Htok). apply existsb_exists in Htok as (v & Hv & E).
    exists (TrimSpace v). split; [|exact E].
    apply in_flat_map. exists seg. split; [exact Hseg|]. now apply in_map.
  - intros (tok & Hin & E). apply in_flat_map in Hin as (seg & Hseg & Hin).
    apply in_map_iff in Hin as (v & <- & Hv).
    exists seg. split; [exact Hseg|]. apply existsb_exists. exists v.
    split; [exact Hv | exact E].
Qed.

Lemma matchLoop_first (target : string) (pre post : list Wordlist.t)
    (w : Wordlist.t) :
  Forall (fun v => matchWord target (TrimSpace (Wordlist.Word v)) = false) pre ->
  matchWord target (TrimSpace (Wordlist.Word w)) = true ->
  matchLoop target (pre ++ w :: post)%list
  = (Wordlist.Category w, TrimSpace (Wordlist.Word w), true).
Proof.
  intros Hpre Hw. induction Hpre as [|v pre Hv _ IH]; simpl.
  - now rewrite Hw.
  - now rewrite Hv.
Qed.

Lemma matchLoop_none (target : string) (wordlists : list Wordlist.t) :
  Forall (fun v => matchWord target (TrimSpace (Wordlist.Word v)) = false) wordlists ->
  matchLoop target wordlists = (SourceUnSpecified, "", false).
Proof.
  induction 1 as [|v l Hv _ IH]; simpl; [reflexivity|]. now rewrite Hv.
Qed.

(** The words that [matchWordlists] stores back trimmed are read by the
    later calls as the words they were: the answers are the same whether
    some, all or none of the entries were visited before. *)
Lemma matchWordlists_storedBack (memo : string) (visited : Wordlist.t -> bool)
    (wordlists : list Wordlist.t) :
  matchWordlists memo
    (map (fun w => if visited w then storedBack w else w) wordlists)
  = matchWordlists memo wordlists.
Proof.
  unfold matchWordlists. generalize (ToLower (TrimSpace memo)). intros target.
  induction wordlists as [|w l IH]; [reflexivity|].
  cbn [map matchLoop]. rewrite IH.
  destruct (visited w); [|reflexivity].
  unfold storedBack. cbn [Wordlist.Word Wordlist.Category].
  unfold TrimSpace. now rewrite TrimSpace_trimmed.
Qed.

Lemma addRow_unmatched (wordlists : list Wordlist.t) (incomes : statMap)
    (row : list string) :
  (matchWordlists (nth 2 row "") wordlists).2 = false ->
  addRow wordlists incomes row = incomes.
Proof.
  intros Hm. unfold addRow.
  destruct (length row <=? 4)%nat; [reflexivity|].
  destruct (NewFromString _) as [amount|]; [|reflexivity].
  destruct (negb _); [reflexivity|].
  destruct (String.length (nth 2 row "") =? 0)%nat; [reflexivity|].
  destruct (ParseDate _); [|reflexivity].
  destruct (matchWordlists (nth 2 row "") wordlists) as [[category title] matched].
  simpl in Hm. now rewrite Hm.
Qed.

(** C3: the classifier tries the entries in sequence order and answers with
    the category (and trimmed word) of the first entry that matches the
    memo, whatever follows it; with the wordlist [pay -> ALLOWANCE;
    pay -> SALARY] the memo "pay received" is ALLOWANCE; when no entry
    matches, the answer is unspecified/unmatched and the row that carries
    the memo leaves every bucket of the aggregation as it was. *)
Theorem matchWordlists_first_match_wins (memo : string)
    (wordlists : list Wordlist.t) :
  (forall pre w post,
      wordlists = (pre ++ w :: post)%list ->
      Forall (fun v => entryMatches memo v = false) pre ->
      entryMatches memo w = true ->
      matchWordlists memo wordlists
      = (Wordlist.Category w, TrimSpace (Wordlist.Word w), true))
  /\ (Forall (fun v => entryMatches memo v = false) wordlists ->
      matchWordlists memo wordlists = (SourceUnSpecified, "", false)
      /\ forall (incomes : statMap) (row : list string),
          nth 2 row "" = memo -> addRow wordlists incomes row = incomes)
  /\ matchWordlists "pay received"
       [Wordlist.mk 1 "pay" SourceAllowance "" time.zero;
        Wordlist.mk 2 "pay" SourceSalary "" time.zero]
     = (SourceAllowance, "pay", true).
Proof.
  split; [|split].
  - intros pre w post -> Hpre Hw. unfold matchWordlists.
    now apply matchLoop_first.
  - intros Hnone.
    assert (E : matchWordlists memo wordlists = (SourceUnSpecified, "", false))
      by now apply matchLoop_none.
    split; [exact E|]. intros incomes row Hrow. apply addRow_unmatched.
    now rewrite Hrow, E.
  - reflexivity.
Qed.

(** On ASCII bytes the test of [EqualFold] on two bytes is the equality of
    their lower-case forms. *)
Lemma lowerByte_idem (c : ascii) : lowerByte (lowerByte c) = lowerByte c.
Proof. destruct c as [[] [] [] [] [] [] [] []]; reflexivity. Qed.

Lemma lowerBytes_idem (s : string) : lowerBytes (lowerBytes s) = lowerBytes s.
Proof.
  induction s as [|c s IH]; simpl; [reflexivity|].
  now rewrite lowerByte_idem, IH.
Qed.

Lemma isASCIIByte_lowerByte (c : ascii) :
  isASCIIByte (lowerByte c) = isASCIIByte c.
Proof. destruct c as [[] [] [] [] [] [] [] []]; reflexivity. Qed.

Lemma isASCII_lowerBytes (s : string) : isASCII (lowerBytes s) = isASCII s.
Proof.
  induction s as [|c s IH]; simpl; [reflexivity|].
  now rewrite isASCIIByte_lowerByte, IH.
Qed.

Lemma ToLower_ASCII (s : string) : isASCII s = true -> ToLower s = lowerBytes s.
Proof. intros E. unfold ToLower. now rewrite E. Qed.

Lemma foldsTo_lowerByte (a b : ascii) :
  (Ascii.eqb a b || foldsTo a b)%bool = Ascii.eqb (lowerByte a) (lowerByte b).
Proof.
  assert (Hall : forallb (fun x =>
                    forallb (fun y =>
                       Bool.eqb (Ascii.eqb (ascii_of_nat x) (ascii_of_nat y)
                                 || foldsTo (ascii_of_nat x) (ascii_of_nat y))%bool
                                (Ascii.eqb (lowerByte (ascii_of_nat x))
                                           (lowerByte (ascii_of_nat y))))
                      (seq 0 256))
                 (seq 0 256) = true) by (vm_compute; reflexivity).
  rewrite forallb_forall in Hall.
  specialize (Hall (nat_of_ascii a)). rewrite forallb_forall in Hall.
  assert (Ha : In (nat_of_ascii a) (seq 0 256))
    by (apply in_seq; pose proof (nat_ascii_bounded a); lia).
  assert (Hb : In (nat_of_ascii b) (seq 0 256))
    by (apply in_seq; pose proof (nat_ascii_bounded b); lia).
  specialize (Hall Ha (nat_of_ascii b) Hb).
  rewrite !ascii_nat_embedding in Hall. now apply Bool.eqb_prop in Hall.
Qed.

Lemma EqualFold_ASCII (s t : string) :
  isASCII s = true -> isASCII t = true ->
  EqualFold s t = String.eqb (lowerBytes s) (lowerBytes t).
Proof.
  unfold EqualFold. revert t. induction s as [|a s IH]; intros [|b t];
    try reflexivity.
  cbn [isASCII equalFoldBytes lowerBytes String.eqb].
  intros [Ea Es]%andb_true_iff [Eb Et]%andb_true_iff.
  rewrite Ea, Eb. cbn [andb].
  rewrite <- foldsTo_lowerByte, (IH t Es Et).
  destruct (Ascii.eqb a b); [reflexivity|]. cbn [orb].
  now destruct (foldsTo a b).
Qed.

(** C4, as the code has it: the threshold of the short-word rule is the
    byte length of the trimmed word.  A word of at most 3 bytes matches a
    memo exactly when [EqualFold] holds of some token of the normalised
    memo and the lowered word; a longer word matches exactly when its
    lowered form is a substring of the normalised memo.  For a token and a
    word of ASCII bytes [EqualFold] is the equality of the two texts up to
    letter case.  Word "ot" does not match "hot soup" and matches
    "OT | bonus". *)
Theorem short_word_rule_by_byte_length (memo : string) (w : Wordlist.t) :
  ((String.length (TrimSpace (Wordlist.Word w)) <= 3)%nat ->
   (entryMatches memo w = true
    <-> exists tok,
         In tok (memoTokens memo)
         /\ EqualFold tok (ToLower (TrimSpace (Wordlist.Word w))) = true))
  /\ ((3 < String.length (TrimSpace (Wordlist.Word w)))%nat ->
      (entryMatches memo w = true
       <-> exists pre post,
            ToLower (TrimSpace memo)
            = (pre ++ ToLower (TrimSpace (Wordlist.Word w)) ++ post)%string))
  /\ (forall tok word,
        isASCII tok = true -> isASCII word = true ->
        EqualFold tok (ToLower word)
        = String.eqb (lowerBytes tok) (lowerBytes word))
  /\ entryMatches "hot soup" (Wordlist.mk 1 "ot" SourceCommission "" time.zero) = false
  /\ entryMatches "OT | bonus" (Wordlist.mk 1 "ot" SourceCommission "" time.zero) = true.
Proof.
  split; [|split; [|split; [|split; reflexivity]]].
  - intros Hlen. unfold entryMatches, matchWord.
    apply Nat.leb_le in Hlen. rewrite Hlen. apply matchTokens_memoTokens.
  - intros Hlen. unfold entryMatches, matchWord.
    apply Nat.leb_gt in Hlen. rewrite Hlen. apply Contains_spec.
  - intros tok word Ht Hw. rewrite (ToLower_ASCII word Hw).
    rewrite EqualFold_ASCII by (rewrite ?isASCII_lowerBytes; assumption).
    now rewrite lowerBytes_idem.
Qed.

End Classifier.

Lemma matchWordlists_first_match_wins_witness :
  matchWordlists (H := Sample.caseless) "Monthly PAY slip"
    [Wordlist.mk 1 "bonus" SourceCommission "" time.zero;
     Wordlist.mk 2 " pay " SourceAllowance "" time.zero;
     Wordlist.mk 3 "slip" SourceSalary "" time.zero]
  = (SourceAllowance, "pay", true).
Proof.
  apply (proj1 (matchWordlists_first_match_wins (H := Sample.library)
                  "Monthly PAY slip"
                  [Wordlist.mk 1 "bonus" SourceCommission "" time.zero;
                   Wordlist.mk 2 " pay " SourceAllowance "" time.zero;
                   Wordlist.mk 3 "slip" SourceSalary "" time.zero])
           [Wordlist.mk 1 "bonus" SourceCommission "" time.zero]
           (Wordlist.mk 2 " pay " SourceAllowance "" time.zero)
           [Wordlist.mk 3 "slip" SourceSalary "" time.zero]).
  - reflexivity.
  - repeat constructor.
  - reflexivity.
Defined.

Lemma short_word_rule_by_byte_length_witness :
  exists tok,
    In tok (memoTokens (H := Sample.caseless) "OT | bonus")
    /\ strings.EqualFold (H := Sample.caseless) tok
         (strings.ToLower (H := Sample.caseless) "ot") = true.
Proof.
  apply (proj1 (short_word_rule_by_byte_length (H := Sample.library) "OT | bonus"
                  (Wordlist.mk 1 "ot" SourceCommission "" time.zero))).
  - simpl. lia.
  - reflexivity.
Defined.

(** C4, as stated in characters, fails: the word "ກຂ" has two characters
    (six bytes); the memo "ກຂຄ" is one token, different from the word, and
    the entry matches it all the same, because a word of more than three
    bytes is looked up as a substring.  Lao letters have one case and are
    no white space. *)
Lemma short_word_rule_not_by_characters :
  let w := Wordlist.mk 1 "ກຂ" SourceAllowance "" time.zero in
  (strings.RuneCountInString
     (strings.TrimSpace (H := Sample.caseless) (Wordlist.Word w)) <= 3)%nat
  /\ entryMatches (H := Sample.caseless) "ກຂຄ" w = true
  /\ (forall tok,
        In tok (memoTokens (H := Sample.caseless) "ກຂຄ") ->
        strings.EqualFold (H := Sample.caseless) tok
          (strings.ToLower (H := Sample.caseless)
             (strings.TrimSpace (H := Sample.caseless) (Wordlist.Word w)))
        = false).
Proof.
  split; [vm_compute; lia|]. split; [reflexivity|].
  intros tok [<-|[]]. reflexivity.
Qed.

(** ** The entries a [range] loop visits *)

Section Visits.
Context `{MapOrder}.

Lemma elem_of_rangeOrder (m : gmap string (list Transaction.t)) (k : string)
    (x : list Transaction.t) :
  (k, x) ∈ rangeOrder m <-> m !! k = Some x.
Proof. now rewrite (rangeOrder_Permutation m), elem_of_map_to_list. Qed.

Lemma In_rangeOrder (m : gmap string (list Transaction.t)) (k : string)
    (x : list Transaction.t) :
  In (k, x) (rangeOrder m) <-> m !! k = Some x.
Proof. rewrite <- list_elem_of_In. apply elem_of_rangeOrder. Qed.

Lemma NoDup_fst_rangeOrder (m : gmap string (list Transaction.t)) :
  List.NoDup (map fst (rangeOrder m)).
Proof.
  apply NoDup_ListNoDup.
  rewrite (fmap_Permutation fst _ _ (rangeOrder_Permutation m)).
  apply NoDup_fst_map_to_list.
Qed.

Lemma rangeOrder_nil (m : gmap string (list Transaction.t)) :
  rangeOrder m = [] <-> m = ∅.
Proof.
  split.
  - intros E. apply map_to_list_empty_iff, Permutation_nil.
    rewrite <- E. apply rangeOrder_Permutation.
  - intros ->. apply Permutation_nil. rewrite <- (map_to_list_empty (M := gmap string)).
    symmetry. apply rangeOrder_Permutation.
Qed.

Lemma rangeOrder_empty : rangeOrder (∅ : gmap string (list Transaction.t)) = [].
Proof. now apply rangeOrder_nil. Qed.

End Visits.

(** ** Minima, sums and the order of the buckets *)

Section Minimum.

Import decimal.

Lemma fold_min_spec {A} (f : A -> Decimal) (l : list A) (init : Decimal) :
  let r := fold_left (fun min x => if LessThan (f x) min then f x else min) l init in
  (r = init \/ exists x, In x l /\ r = f x)
  /\ (r <= init)%Qc
  /\ (forall x, In x l -> (r <= f x)%Qc).
Proof.
  revert init. induction l as [|a l IH]; intros init; simpl.
  - split; [now left|]. split; [apply Qcle_refl | intros x []].
  - destruct (LessThan (f a) init) eqn:E.
    + destruct (IH (f a)) as (Hin & Hle & Hall).
      apply LessThan_true in E.
      split; [|split].
      * right. destruct Hin as [->|(x & Hx & ->)]; eauto.
      * apply Qcle_trans with (f a); [exact Hle | now apply Qclt_le_weak].
      * intros x [<-|Hx]; [exact Hle | now apply Hall].
    + destruct (IH init) as (Hin & Hle & Hall).
      apply LessThan_false in E.
      split; [|split].
      * destruct Hin as [->|(x & Hx & ->)]; [now left | right; eauto].
      * exact Hle.
      * intros x [<-|Hx]; [now apply Qcle_trans with init | now apply Hall].
Qed.

Lemma findMinAmountFromMonthlySalaries_min (ms : list MonthlySalary.t) :
  ms <> [] ->
  (exists m, In m ms /\ findMinAmountFromMonthlySalaries ms = MonthlySalary.Total m)
  /\ (forall m, In m ms ->
        (findMinAmountFromMonthlySalaries ms <= MonthlySalary.Total m)%Qc).
Proof.
  destruct ms as [|m0 ms]; [congruence|]. intros _.
  unfold findMinAmountFromMonthlySalaries.
  destruct (fold_min_spec MonthlySalary.Total (m0 :: ms) (MonthlySalary.Total m0))
    as (Hin & _ & Hall).
  split; [|exact Hall].
  destruct Hin as [E|Hin]; [|exact Hin].
  exists m0. split; [now left | exact E].
Qed.

Lemma findMinFromTransactions_min (ts : list Transaction.t) :
  ts <> [] ->
  (exists t, In t ts /\ findMinFromTransactions ts = Transaction.Amount t)
  /\ (forall t, In t ts -> (findMinFromTransactions ts <= Transaction.Amount t)%Qc).
Proof.
  destruct ts as [|t0 ts]; [congruence|]. intros _.
  unfold findMinFromTransactions.
  destruct (fold_min_spec Transaction.Amount (t0 :: ts) (Transaction.Amount t0))
    as (Hin & _ & Hall).
  split; [|exact Hall].
  destruct Hin as [E|Hin]; [|exact Hin].
  exists t0. split; [now left | exact E].
Qed.

Lemma insertSorted_Permutation {A} (less : A -> A -> bool) (x : A) (l : list A) :
  Permutation (insertSorted less x l) (x :: l).
Proof.
  induction l as [|y l IH]; simpl; [reflexivity|].
  destruct (less x y); [reflexivity|].
  rewrite IH. apply perm_swap.
Qed.

Lemma sortSlice_Permutation {A} (less : A -> A -> bool) (l : list A) :
  Permutation (sortSlice less l) l.
Proof.
  unfold sortSlice.
  assert (G : forall acc, Permutation
                (fold_left (fun sorted x => insertSorted less x sorted) l acc)
                (l ++ acc)).
  { induction l as [|a l IH]; intros acc; simpl; [reflexivity|].
    rewrite IH, insertSorted_Permutation. symmetry. apply Permutation_middle. }
  rewrite G. now rewrite app_nil_r.
Qed.

End Minimum.

(** ** Basic salary of the loan products *)

Section BasicSalary.

Context `{Library}.

Import decimal.

(** The monthly salaries listed by [toListMonthlySalaries] are the
    non-empty buckets, each with the sum of its transactions. *)
Lemma toListMonthlySalaries_elems (s : statMap) (raw : statCal.t)
    (m : MonthlySalary.t) :
  s !! sourceNames SourceSalary = Some raw ->
  In m (SalaryBreakdown.MonthlySalaries (toListMonthlySalaries s))
  <-> exists month tx,
      statCal.Transactions raw !! month = Some tx /\ tx <> []
      /\ m = MonthlySalary.mk month (NewFromInt (Z.of_nat (length tx))) tx
               (sumTransactions tx).
Proof.
  intros Hraw. unfold toListMonthlySalaries. rewrite Hraw. cbn [SalaryBreakdown.MonthlySalaries].
  rewrite <- list_elem_of_In, sortSlice_Permutation, list_elem_of_omap.
  split.
  - intros ([month tx] & Hin & E). apply elem_of_rangeOrder in Hin.
    exists month, tx. destruct tx as [|t tx]; [discriminate E|].
    injection E as <-. split; [exact Hin|]. split; [congruence | reflexivity].
  - intros (month & tx & Hin & Hne & ->). exists (month, tx).
    split; [now apply elem_of_rangeOrder|].
    destruct tx; [congruence | reflexivity].
Qed.

(** C1: for PL and SF, when the statement has a salary bucket and the
    period is positive, the monthly basic salary is the least of the
    per-month salary totals (it is the total of some month and no month's
    total is below it), and the total basic salary is that amount times the
    period.  With monthly totals 1,000,000, 1,200,000 and 1,100,000 and a
    period of 3 the basic salary is 1,000,000 and the total 3,000,000. *)
Theorem basicSalary_minimum_of_monthly_totals (s : statMap) (p : product)
    (period : Decimal) (raw : statCal.t) :
  p = ProductPL \/ p = ProductSF ->
  s !! sourceNames SourceSalary = Some raw ->
  (exists month tx, statCal.Transactions raw !! month = Some tx /\ tx <> []) ->
  (Zero < period)%Qc ->
  (exists b,
      basicSalary s p period = Ok b
      /\ (exists month tx,
            statCal.Transactions raw !! month = Some tx /\ tx <> []
            /\ b = sumTransactions tx)
      /\ (forall month tx,
            statCal.Transactions raw !! month = Some tx -> tx <> [] ->
            (b <= sumTransactions tx)%Qc)
      /\ totalBasicSalary s p period = Ok (Mul b period))
  /\ basicSalary (H := Sample.library) Sample.threeMonths ProductPL (NewFromInt 3)
     = Ok (NewFromInt 1000000)
  /\ totalBasicSalary (H := Sample.library) Sample.threeMonths ProductPL (NewFromInt 3)
     = Ok (NewFromInt 3000000).
Proof.
  intros Hp Hraw (month0 & tx0 & Hb0 & Hne0) Hpos.
  split; [|split; vm_compute; reflexivity].
  set (ms := SalaryBreakdown.MonthlySalaries (toListMonthlySalaries s)).
  assert (Hms : ms <> []).
  { intros E.
    assert (Hin : In (MonthlySalary.mk month0 (NewFromInt (Z.of_nat (length tx0)))
                        tx0 (sumTransactions tx0)) ms).
    { apply (toListMonthlySalaries_elems s raw); [exact Hraw|]. eauto 6. }
    rewrite E in Hin. destruct Hin. }
  destruct (findMinAmountFromMonthlySalaries_min ms Hms) as ((m & Hm & Emin) & Hall).
  assert (Hbasic : basicSalary s p period = Ok (findMinAmountFromMonthlySalaries ms))
    by (destruct Hp as [-> | ->]; reflexivity).
  exists (findMinAmountFromMonthlySalaries ms). split; [exact Hbasic|].
  split; [|split].
  - apply (toListMonthlySalaries_elems s raw) in Hm as (month & tx & Hb & Hne & ->);
      [|exact Hraw].
    exists month, tx. auto.
  - intros month tx Hb Hne.
    apply (Hall (MonthlySalary.mk month (NewFromInt (Z.of_nat (length tx))) tx
                   (sumTransactions tx))).
    apply (toListMonthlySalaries_elems s raw); [exact Hraw|]. eauto 6.
  - unfold totalBasicSalary.
    assert (Hz : IsZero period = false).
    { apply IsZero_false. intros ->. exact (Qclt_not_eq _ _ Hpos eq_refl). }
    rewrite Hz. destruct Hp as [-> | ->]; rewrite Hbasic; reflexivity.
Qed.

End BasicSalary.

Lemma basicSalary_minimum_of_monthly_totals_witness :
  exists b,
    basicSalary (H := Sample.library) Sample.threeMonths ProductSF (decimal.NewFromInt 3)
    = Ok b
    /\ totalBasicSalary (H := Sample.library) Sample.threeMonths ProductSF
         (decimal.NewFromInt 3)
       = Ok (decimal.Mul b (decimal.NewFromInt 3)).
Proof.
  destruct (basicSalary_minimum_of_monthly_totals (H := Sample.library)
              Sample.threeMonths ProductSF (decimal.NewFromInt 3)
              (statCal.mk
                 (<["January-2025" := [Sample.tx 1000000]]>
                    (<["February-2025" := [Sample.tx 700000; Sample.tx 500000]]>
                       (<["March-2025" := [Sample.tx 1100000]]> ∅)))
                 [decimal.NewFromInt 1000000; decimal.NewFromInt 700000;
                  decimal.NewFromInt 500000; decimal.NewFromInt 1100000]
                 (decimal.NewFromInt 3300000)
                 ∅))
    as [(b & Hb & _ & _ & Ht) _].
  - now right.
  - reflexivity.
  - exists "January-2025", [Sample.tx 1000000]. split; [reflexivity | discriminate].
  - reflexivity.
  - exists b. split; [exact Hb | exact Ht].
Defined.

(** ** Total income *)

Section TotalIncome.

Context `{Library}.

Import decimal.

Lemma fold_left_invariant {A B} (P : A -> Prop) (f : A -> B -> A) (l : list B)
    (init : A) :
  P init -> (forall acc x, P acc -> P (f acc x)) -> P (fold_left f l init).
Proof.
  intros Hinit Hstep. revert init Hinit.
  induction l as [|x l IH]; intros init Hinit; simpl; auto.
Qed.

Lemma bucketTotal_cons (b : string * list Transaction.t)
    (l : list (string * list Transaction.t)) :
  total (map Transaction.Amount (bucketTransactions (b :: l)))
  = Add (total (map Transaction.Amount b.2))
      (total (map Transaction.Amount (bucketTransactions l))).
Proof.
  unfold bucketTransactions. simpl. now rewrite map_app, total_app.
Qed.

Lemma bucketTotal_Permutation (l l' : list (string * list Transaction.t)) :
  Permutation l l' ->
  total (map Transaction.Amount (bucketTransactions l))
  = total (map Transaction.Amount (bucketTransactions l')).
Proof.
  induction 1 as [|b l l' _ IH|a b l|l1 l2 l3 _ IH1 _ IH2].
  - reflexivity.
  - now rewrite !bucketTotal_cons, IH.
  - rewrite !bucketTotal_cons, <- !Add_assoc. f_equal. apply Add_comm.
  - congruence.
Qed.

Lemma bucketTotal_appendAt (txs : gmap string (list Transaction.t))
    (k : string) (new : list Transaction.t) :
  total (map Transaction.Amount (bucketTransactions (map_to_list (appendAt txs k new))))
  = Add (total (map Transaction.Amount (bucketTransactions (map_to_list txs))))
      (total (map Transaction.Amount new)).
Proof.
  unfold appendAt. destruct (txs !! k) as [old|] eqn:E; simpl.
  - rewrite <- insert_delete_eq.
    rewrite (bucketTotal_Permutation _ _
               (map_to_list_insert (delete k txs) k (old ++ new)
                  (lookup_delete_eq txs k))).
    rewrite <- (bucketTotal_Permutation _ _ (map_to_list_delete txs k old E)).
    rewrite !bucketTotal_cons. cbn [snd].
    rewrite map_app, total_app, !Add_assoc. f_equal. apply Add_comm.
  - rewrite (bucketTotal_Permutation _ _ (map_to_list_insert txs k new E)).
    rewrite bucketTotal_cons. cbn [snd]. apply Add_comm.
Qed.

Lemma consistentBuckets_empty : consistentBuckets ∅ Zero.
Proof.
  split; [now rewrite map_to_list_empty|].
  intros month tx E. now rewrite lookup_empty in E.
Qed.

Lemma consistentBuckets_appendAt (txs : gmap string (list Transaction.t))
    (sum : Decimal) (k : string) (new : list Transaction.t) :
  new <> [] ->
  consistentBuckets txs sum ->
  consistentBuckets (appendAt txs k new)
    (Add sum (total (map Transaction.Amount new))).
Proof.
  intros Hnew [Hsum Hne]. split.
  - now rewrite bucketTotal_appendAt, Hsum.
  - intros month tx. unfold appendAt.
    destruct (decide (k = month)) as [->|Hk].
    + rewrite lookup_insert_eq. intros [= <-] E.
      apply app_eq_nil in E as [_ E]. contradiction.
    + rewrite lookup_insert_ne by exact Hk. apply Hne.
Qed.

Lemma salaryConsistent_addIncome (m : statMap) (key bucket : string)
    (t : Transaction.t) :
  salaryConsistent m ->
  salaryConsistent (addIncome m key bucket (Transaction.Amount t) t).
Proof.
  unfold salaryConsistent, addIncome. intros Hm.
  destruct (decide (key = sourceNames SourceSalary)) as [->|Hk].
  - rewrite lookup_insert_eq. cbn [statCal.Transactions statCal.Total].
    replace (Add (statCal.Total (default emptyStatCal (m !! sourceNames SourceSalary)))
               (Transaction.Amount t))
      with (Add (statCal.Total (default emptyStatCal (m !! sourceNames SourceSalary)))
              (total (map Transaction.Amount [t])))
      by (simpl; now rewrite Add_Zero_r).
    apply consistentBuckets_appendAt; [discriminate|].
    destruct (m !! sourceNames SourceSalary); [exact Hm | apply consistentBuckets_empty].
  - rewrite lookup_insert_ne by exact Hk. exact Hm.
Qed.

Lemma salaryConsistent_addRow (wordlists : list Wordlist.t) (m : statMap)
    (row : list string) :
  salaryConsistent m -> salaryConsistent (addRow wordlists m row).
Proof.
  intros Hm. unfold addRow.
  destruct (length row <=? 4)%nat; [exact Hm|].
  destruct (NewFromString _) as [amount|]; [|exact Hm].
  destruct (negb _); [exact Hm|].
  destruct (String.length (nth 2 row "") =? 0)%nat; [exact Hm|].
  destruct (ParseDate _) as [date|]; [|exact Hm].
  destruct (matchWordlists (nth 2 row "") wordlists) as [[category title] matched].
  destruct (negb matched); [exact Hm|].
  set (t := Transaction.mk date (nth 1 row "") (nth 2 row "") amount).
  destruct category; try exact Hm.
  - apply (salaryConsistent_addIncome m _ _ t Hm).
  - apply (salaryConsistent_addIncome _ _ _ t).
    unfold salaryConsistent, setAverageMonth.
    rewrite lookup_insert_ne by discriminate. exact Hm.
  - apply (salaryConsistent_addIncome m _ _ t Hm).
Qed.

Lemma salaryConsistent_toStateMap (c : Calculation.t) (m : statMap) :
  toStateMap c = Ok m -> salaryConsistent m.
Proof.
  unfold toStateMap.
  destruct (fold_left addAllowance _ _) as [[awnTxs awsMonthly] awsAvg].
  destruct (fold_left addCommission _ _) as [comTxs commMonthly].
  destruct (fold_left addMonthlySalary _ _) as [salTxs salaryMonthly] eqn:Es.
  intros [= <-]. unfold salaryConsistent. rewrite lookup_insert_eq.
  cbn [statCal.Transactions statCal.Total]. rewrite sumAmounts_total.
  change (consistentBuckets (salTxs, salaryMonthly).1 (total (salTxs, salaryMonthly).2)).
  rewrite <- Es.
  apply (fold_left_invariant (fun st => consistentBuckets st.1 (total st.2))).
  - apply consistentBuckets_empty.
  - intros [txs monthly] s Hst. unfold addMonthlySalary. cbn [fst snd] in *.
    destruct (MonthlySalary.Transactions s) as [|t ts] eqn:Et; [exact Hst|].
    cbn [fst snd]. rewrite total_app.
    apply consistentBuckets_appendAt; [discriminate | exact Hst].
Qed.

Lemma aggregated_salaryConsistent (m : statMap) : aggregated m -> salaryConsistent m.
Proof.
  intros [(wordlists & rows & ->) | (c & Hc)].
  - apply fold_left_invariant.
    + unfold salaryConsistent. now rewrite lookup_empty.
    + intros acc row. apply salaryConsistent_addRow.
  - now apply salaryConsistent_toStateMap with c.
Qed.

Lemma fold_left_minimums (l : list (string * list Transaction.t)) (acc : Decimal) :
  fold_left (fun total '(_, tx) => Add total (findMinFromTransactions tx)) l acc
  = Add acc (total (map (fun b => findMinFromTransactions b.2) l)).
Proof.
  revert acc. induction l as [|[k tx] l IH]; intros acc; simpl.
  - now rewrite Add_Zero_r.
  - rewrite IH. apply Add_assoc.
Qed.

(** The order in which the salary buckets are visited does not change the
    SA total income. *)
Lemma fold_left_minimums_Permutation (l l' : list (string * list Transaction.t)) :
  Permutation l l' ->
  fold_left (fun total '(_, tx) => Add total (findMinFromTransactions tx)) l Zero
  = fold_left (fun total '(_, tx) => Add total (findMinFromTransactions tx)) l' Zero.
Proof.
  intros Hp. rewrite !fold_left_minimums. f_equal.
  apply total_Permutation. now apply Permutation_map.
Qed.

Lemma totalIncome_addIncome_salary (m : statMap) (bucket : string)
    (amount : Decimal) (t : Transaction.t) (p : product) :
  p = ProductPL \/ p = ProductSF ->
  totalIncome (addIncome m (sourceNames SourceSalary) bucket amount t) p
  = Add (totalIncome m p) amount.
Proof.
  intros [-> | ->]; unfold totalIncome, addIncome; rewrite lookup_insert_eq;
    cbn [statCal.Total]; destruct (m !! sourceNames SourceSalary);
    reflexivity.
Qed.

Lemma totalIncome_addRow (wordlists : list Wordlist.t) (m : statMap)
    (row : list string) (p : product) :
  p = ProductPL \/ p = ProductSF ->
  totalIncome (addRow wordlists m row) p
  = Add (totalIncome m p)
      (total (map Transaction.Amount (salaryTransactions wordlists [row]))).
Proof.
  intros Hp. unfold salaryTransactions, decodeRow, addRow. cbn [omap list_omap].
  destruct (length row <=? 4)%nat; [now rewrite Add_Zero_r|].
  destruct (NewFromString _) as [amount|]; [|now rewrite Add_Zero_r].
  destruct (GreaterThan amount Zero); cbn [negb]; [|now rewrite Add_Zero_r].
  destruct (String.length (nth 2 row "") =? 0)%nat; [now rewrite Add_Zero_r|].
  destruct (ParseDate _) as [date|]; [|now rewrite Add_Zero_r].
  cbn [List.filter]. unfold isSalary. cbn [Transaction.Noted].
  destruct (matchWordlists (nth 2 row "") wordlists) as [[category title] matched].
  destruct matched; cbn [negb].
  - destruct category; cbn [map total foldr Transaction.Amount];
      rewrite ?Add_Zero_r; try reflexivity.
    + now apply totalIncome_addIncome_salary.
    + destruct Hp as [-> | ->]; unfold totalIncome, addIncome, setAverageMonth;
        now rewrite !lookup_insert_ne by discriminate.
    + destruct Hp as [-> | ->]; unfold totalIncome, addIncome;
        now rewrite !lookup_insert_ne by discriminate.
  - destruct category; cbn [map total foldr]; now rewrite Add_Zero_r.
Qed.

Lemma salaryTransactions_app (wordlists : list Wordlist.t)
    (rows1 rows2 : list (list string)) :
  salaryTransactions wordlists (rows1 ++ rows2)
  = salaryTransactions wordlists rows1 ++ salaryTransactions wordlists rows2.
Proof. unfold salaryTransactions. now rewrite omap_app, List.filter_app. Qed.

Lemma totalIncome_rows (wordlists : list Wordlist.t) (rows : list (list string))
    (m : statMap) (p : product) :
  p = ProductPL \/ p = ProductSF ->
  totalIncome (fold_left (addRow wordlists) rows m) p
  = Add (totalIncome m p)
      (total (map Transaction.Amount (salaryTransactions wordlists rows))).
Proof.
  intros Hp. revert m. induction rows as [|row rows IH]; intros m.
  - cbn. now rewrite Add_Zero_r.
  - cbn [fold_left]. rewrite IH, (totalIncome_addRow _ _ _ _ Hp).
    change (row :: rows) with ([row] ++ rows).
    rewrite salaryTransactions_app, map_app, total_app. apply Add_assoc.
Qed.

Lemma addMonthlySalary_amounts (l : list MonthlySalary.t)
    (st : gmap string (list Transaction.t) * list Decimal) :
  (fold_left addMonthlySalary l st).2
  = st.2 ++ map Transaction.Amount (concat (map MonthlySalary.Transactions l)).
Proof.
  revert st. induction l as [|s l IH]; intros [txs monthly]; cbn [fold_left].
  - cbn. now rewrite app_nil_r.
  - rewrite IH. unfold addMonthlySalary. cbn [map concat].
    destruct (MonthlySalary.Transactions s) as [|t ts]; cbn [snd].
    + reflexivity.
    + now rewrite map_app, app_assoc.
Qed.

Lemma totalIncome_toStateMap (c : Calculation.t) (m : statMap) (p : product) :
  p = ProductPL \/ p = ProductSF ->
  toStateMap c = Ok m ->
  totalIncome m p = total (map Transaction.Amount (suppliedSalaryTransactions c)).
Proof.
  intros Hp. unfold toStateMap, suppliedSalaryTransactions.
  pose proof (addMonthlySalary_amounts
                (SalaryBreakdown.MonthlySalaries (Calculation.SalaryBreakdown c))
                (∅, [])) as Ha.
  destruct (fold_left addAllowance _ _) as [[awnTxs awsMonthly] awsAvg].
  destruct (fold_left addCommission _ _) as [comTxs commMonthly].
  destruct (fold_left addMonthlySalary _ _) as [salTxs salaryMonthly].
  cbn [fst snd app] in Ha. intros [= <-].
  destruct Hp as [-> | ->]; unfold totalIncome; rewrite lookup_insert_eq;
    cbn [statCal.Total]; now rewrite sumAmounts_total, Ha.
Qed.

(** C2: for SA the total income is the sum, over the salary month-buckets,
    of the least single transaction amount of the bucket; for PL and SF it
    is the sum of the amounts of all salary transactions, those of the
    buckets, which are the salary rows of the statement or the salary
    transactions supplied to the recalculation; when there is no salary
    transaction it is 0 for every product. *)
Theorem totalIncome_by_product (m : statMap) :
  aggregated m ->
  totalIncome m ProductSA
  = total (map (fun b => findMinFromTransactions b.2) (salaryBuckets m))
  /\ (forall month tx,
        In (month, tx) (salaryBuckets m) ->
        (exists t, In t tx /\ findMinFromTransactions tx = Transaction.Amount t)
        /\ (forall t, In t tx ->
              (findMinFromTransactions tx <= Transaction.Amount t)%Qc))
  /\ (forall p,
        p = ProductPL \/ p = ProductSF ->
        totalIncome m p
        = total (map Transaction.Amount (bucketTransactions (salaryBuckets m)))
        /\ (forall wordlists rows,
              m = fold_left (addRow wordlists) rows ∅ ->
              totalIncome m p
              = total (map Transaction.Amount (salaryTransactions wordlists rows)))
        /\ (forall c,
              toStateMap c = Ok m ->
              totalIncome m p
              = total (map Transaction.Amount (suppliedSalaryTransactions c))))
  /\ (bucketTransactions (salaryBuckets m) = [] ->
      forall p, totalIncome m p = Zero).
Proof.
  intros Hagg. apply aggregated_salaryConsistent in Hagg.
  assert (Hpaths : forall p,
             p = ProductPL \/ p = ProductSF ->
             (forall wordlists rows,
                 m = fold_left (addRow wordlists) rows ∅ ->
                 totalIncome m p
                 = total (map Transaction.Amount (salaryTransactions wordlists rows)))
             /\ (forall c,
                   toStateMap c = Ok m ->
                   totalIncome m p
                   = total (map Transaction.Amount (suppliedSalaryTransactions c)))).
  { intros p Hp. split.
    - intros wordlists rows ->. rewrite (totalIncome_rows _ _ _ _ Hp).
      destruct Hp as [-> | ->]; cbn; apply Add_Zero_l.
    - intros c Hc. now apply totalIncome_toStateMap. }
  unfold salaryConsistent in Hagg. revert Hpaths. unfold totalIncome, salaryBuckets.
  destruct (m !! sourceNames SourceSalary) as [raw|] eqn:E; intros Hpaths.
  - destruct Hagg as [Hsum Hne].
    assert (Hsa : fold_left
                    (fun total '(_, tx) => Add total (findMinFromTransactions tx))
                    (rangeOrder (statCal.Transactions raw)) Zero
                  = total (map (fun b => findMinFromTransactions b.2)
                             (map_to_list (statCal.Transactions raw))))
      by (rewrite (fold_left_minimums_Permutation _ _
                     (rangeOrder_Permutation (statCal.Transactions raw))),
            fold_left_minimums; apply Add_Zero_l).
    split; [exact Hsa|]. split; [|split].
    + intros month tx Hin. apply findMinFromTransactions_min.
      apply list_elem_of_In, elem_of_map_to_list in Hin. now apply Hne in Hin.
    + intros p Hp. split; [|exact (Hpaths p Hp)].
      destruct Hp as [-> | ->]; exact Hsum.
    + intros Hnone.
      assert (Hnil : map_to_list (statCal.Transactions raw) = []).
      { destruct (map_to_list (statCal.Transactions raw)) as [|[k tx] l] eqn:El;
          [reflexivity|].
        assert (Hin : (k, tx) ∈ map_to_list (statCal.Transactions raw))
          by (rewrite El; left).
        apply elem_of_map_to_list, Hne in Hin.
        unfold bucketTransactions in Hnone. simpl in Hnone.
        apply app_eq_nil in Hnone as [Hnone _]. contradiction. }
      intros [| | |]; [reflexivity| | |].
      * rewrite Hsa, Hnil. reflexivity.
      * rewrite Hsum, Hnil. reflexivity.
      * rewrite Hsum, Hnil. reflexivity.
  - split; [reflexivity|]. split; [intros month tx []|]. split.
    + intros p Hp. split; [|exact (Hpaths p Hp)].
      destruct Hp as [-> | ->]; reflexivity.
    + now intros _ [| | |].
Qed.

End TotalIncome.

Lemma totalIncome_by_product_witness :
  let m := fold_left (addRow (H := Sample.library) Sample.wordlist) Sample.rows ∅ in
  totalIncome (H := Sample.library) m ProductSA
  = total (map (fun b => findMinFromTransactions b.2) (salaryBuckets m))
  /\ totalIncome (H := Sample.library) m ProductPL
     = total (map Transaction.Amount (bucketTransactions (salaryBuckets m))).
Proof.
  intros m.
  destruct (totalIncome_by_product (H := Sample.library) m) as (Hsa & _ & Hpl & _).
  - left. exists Sample.wordlist, Sample.rows. reflexivity.
  - split; [exact Hsa | exact (proj1 (Hpl ProductPL (or_introl eq_refl)))].
Defined.

(** ** The period guards *)

Section PeriodGuards.

Context `{Library}.

Import decimal.

Lemma IsZero_Zero : IsZero Zero = true.
Proof. now apply IsZero_true. Qed.

Lemma returns_Ok {A} (a : A) : returns (Ok a).
Proof. now exists a. Qed.

Lemma returns_Div (d d2 : Decimal) : IsZero d2 = false -> returns (Div d d2).
Proof. intros Hz. unfold Div. rewrite Hz. apply returns_Ok. Qed.

Lemma basicSalary_returns (s : statMap) (p : product) (period : Decimal) :
  returns (basicSalary s p period).
Proof.
  unfold basicSalary. destruct p; try apply returns_Ok.
  destruct (IsZero period) eqn:Hz; [apply returns_Ok|].
  destruct (IsZero (totalIncome s ProductSA)); [apply returns_Ok|].
  now apply returns_Div.
Qed.

Lemma totalBasicSalary_returns (s : statMap) (p : product) (period : Decimal) :
  returns (totalBasicSalary s p period).
Proof.
  unfold totalBasicSalary.
  destruct (IsZero period) eqn:Hz; [apply returns_Ok|].
  destruct p; try apply returns_Ok.
  destruct (IsZero (totalIncome s ProductSA)); [apply returns_Ok|].
  now apply returns_Div.
Qed.

Lemma totalOtherIncome_returns (s : statMap) (period : Decimal) :
  returns (totalOtherIncome s period).
Proof.
  unfold totalOtherIncome.
  destruct (IsZero period) eqn:Hz; [apply returns_Ok|].
  destruct (totalBasicSalary_returns s ProductPL period) as [tb ->]. cbn.
  destruct (LessThan _ _); apply returns_Ok.
Qed.

Lemma averageOtherIncome_returns (s : statMap) (period : Decimal) :
  returns (averageOtherIncome s period).
Proof.
  unfold averageOtherIncome.
  destruct (IsZero period) eqn:Hz; [apply returns_Ok|].
  destruct (totalOtherIncome_returns s period) as [t ->]. cbn.
  destruct (IsZero t); [apply returns_Ok | now apply returns_Div].
Qed.

Lemma toListCommissions_returns (s : statMap) (period : Decimal) :
  returns (toListCommissions s period).
Proof.
  unfold toListCommissions.
  destruct (s !! sourceNames SourceCommission) as [raw|]; [|apply returns_Ok].
  destruct (IsZero period) eqn:Hz; cbn.
  - apply returns_Ok.
  - unfold Div. rewrite Hz. apply returns_Ok.
Qed.

Lemma averageCommission_returns (s : statMap) (period : Decimal) :
  returns (averageCommission s period).
Proof.
  unfold averageCommission.
  destruct (toListCommissions_returns s period) as [c ->]. apply returns_Ok.
Qed.

Lemma toListCommissions_Zero (s : statMap) (c : CommissionBreakdown.t) :
  toListCommissions s Zero = Ok c -> CommissionBreakdown.MonthlyAverage c = Zero.
Proof.
  unfold toListCommissions.
  destruct (s !! sourceNames SourceCommission) as [raw|].
  - rewrite IsZero_Zero. cbn. now intros [= <-].
  - now intros [= <-].
Qed.

Lemma bind_Ok {A B} (o : outcome A) (f : A -> outcome B) (b : B) :
  o ≫= f = Ok b -> exists a, o = Ok a /\ f a = Ok b.
Proof. destruct o as [a| |]; cbn; [eauto | discriminate | discriminate]. Qed.

Lemma averageMonthlyIncome_returns (s : statMap) (p : product) (period : Decimal) :
  returns (toListAllowances s) -> returns (averageMonthlyIncome s p period).
Proof.
  intros [a Ha].
  assert (Haa : averageAllowance s period = Ok (AllowanceBreakdown.Total a))
    by (unfold averageAllowance; now rewrite Ha).
  destruct (averageCommission_returns s period) as [ac Hac].
  destruct (averageOtherIncome_returns s period) as [ao Hao].
  assert (H80 : returns (averageOtherIncomeIn80Percent s period)).
  { unfold averageOtherIncomeIn80Percent. rewrite Hao, Hac, Haa. apply returns_Ok. }
  destruct H80 as [h Hh].
  unfold averageMonthlyIncome. destruct p; [apply returns_Ok| | |].
  - destruct (basicSalary_returns s ProductSA period) as [b ->].
    cbn [mbind outcome_bind].
    destruct (_ && _)%bool; rewrite Haa, Hac; apply returns_Ok.
  - rewrite Hh. destruct (basicSalary_returns s ProductSF period) as [b ->].
    cbn [mbind outcome_bind]. destruct (_ && _)%bool; apply returns_Ok.
  - rewrite Hh. destruct (basicSalary_returns s ProductPL period) as [b ->].
    cbn [mbind outcome_bind]. destruct (_ && _)%bool; apply returns_Ok.
Qed.

Lemma netIncomeMonthly_returns (s : statMap) (p : product)
    (exchangeRate period : Decimal) :
  returns (toListAllowances s) -> returns (netIncomeMonthly s p exchangeRate period).
Proof.
  intros Ha. unfold netIncomeMonthly.
  destruct (IsZero period); [apply returns_Ok|].
  destruct (averageMonthlyIncome_returns s p period Ha) as [mi ->].
  cbn [mbind outcome_bind]. destruct (IsZero mi); apply returns_Ok.
Qed.

(** The only division that can make [populate] fail is the division of an
    allowance by its month-divisor. *)
Lemma populate_returns (c : Calculation.t) (s : statMap) (p : product)
    (period exchangeRate : Decimal) :
  returns (toListAllowances s) -> returns (populate c p period exchangeRate s).
Proof.
  intros Ha. pose proof Ha as [a Hla].
  assert (Haa : averageAllowance s period = Ok (AllowanceBreakdown.Total a))
    by (unfold averageAllowance; now rewrite Hla).
  destruct (toListCommissions_returns s period) as [lc Hlc].
  destruct (averageCommission_returns s period) as [ac Hac].
  destruct (totalBasicSalary_returns s p period) as [tb Htb].
  destruct (basicSalary_returns s p period) as [bs Hbs].
  destruct (totalOtherIncome_returns s period) as [toi Htoi].
  destruct (averageMonthlyIncome_returns s p period Ha) as [mai Hmai].
  destruct (netIncomeMonthly_returns s p exchangeRate period Ha) as [mni Hmni].
  unfold populate, newSourceIncome.
  rewrite Hla, Haa, Hlc, Hac, Htb, Hbs, Htoi, Hmai, Hmni.
  cbn [mbind outcome_bind]. apply returns_Ok.
Qed.

(** C9: with a period of 0 the total basic salary, the average other
    income, the average commission and the monthly net income are 0, and a
    calculation populated with that period carries these zeros; an end date
    before the start date gives the period 0; and for every period each
    function that divides by the period returns a value, because the
    division is only reached with a period that is not zero, so that
    populating a calculation can only fail in the division of an allowance
    by its month-divisor. *)
Theorem period_zero_figures_are_zero (s : statMap) (p : product)
    (exchangeRate : Decimal) :
  (totalBasicSalary s p Zero = Ok Zero
   /\ averageOtherIncome s Zero = Ok Zero
   /\ averageCommission s Zero = Ok Zero
   /\ netIncomeMonthly s p exchangeRate Zero = Ok Zero)
  /\ (forall from to, time.Before to from = true -> countMonth from to = Zero)
  /\ (forall c c',
        populate c p Zero exchangeRate s = Ok c' ->
        Calculation.PeriodInMonth c' = Zero
        /\ Calculation.TotalBasicSalary c' = Zero
        /\ Calculation.TotalOtherIncome c' = Zero
        /\ CommissionBreakdown.MonthlyAverage (Calculation.CommissionBreakdown c') = Zero
        /\ Calculation.MonthlyNetIncome c' = Zero)
  /\ (forall period,
        returns (basicSalary s p period)
        /\ returns (totalBasicSalary s p period)
        /\ returns (totalOtherIncome s period)
        /\ returns (averageOtherIncome s period)
        /\ returns (toListCommissions s period)
        /\ returns (averageCommission s period)
        /\ forall c,
            returns (toListAllowances s) ->
            returns (populate c p period exchangeRate s)).
Proof.
  assert (Hac : averageCommission s Zero = Ok Zero).
  { unfold averageCommission.
    destruct (toListCommissions_returns s Zero) as [c Hc]. rewrite Hc. cbn.
    now rewrite (toListCommissions_Zero s c Hc). }
  split; [|split; [|split]].
  - unfold totalBasicSalary, averageOtherIncome, netIncomeMonthly.
    rewrite IsZero_Zero. repeat split; exact Hac.
  - intros from to HB. unfold countMonth. now rewrite HB.
  - intros c c' Hpop. unfold populate in Hpop.
    apply bind_Ok in Hpop as (src & _ & Hpop).
    apply bind_Ok in Hpop as (ab & _ & Hpop).
    apply bind_Ok in Hpop as (cb & Hcb & Hpop).
    apply bind_Ok in Hpop as (tbs & Htbs & Hpop).
    apply bind_Ok in Hpop as (toi & Htoi & Hpop).
    apply bind_Ok in Hpop as (mai & _ & Hpop).
    apply bind_Ok in Hpop as (mni & Hmni & Hpop).
    injection Hpop as <-. cbn.
    unfold totalBasicSalary in Htbs. unfold totalOtherIncome in Htoi.
    unfold netIncomeMonthly in Hmni. rewrite IsZero_Zero in Htbs, Htoi, Hmni.
    injection Htbs as <-. injection Htoi as <-. injection Hmni as <-.
    rewrite (toListCommissions_Zero s cb Hcb). auto.
  - intros period. split; [apply basicSalary_returns|].
    split; [apply totalBasicSalary_returns|].
    split; [apply totalOtherIncome_returns|].
    split; [apply averageOtherIncome_returns|].
    split; [apply toListCommissions_returns|].
    split; [apply averageCommission_returns|].
    intros c. apply populate_returns.
Qed.

End PeriodGuards.

(** ** The month-divisor of an allowance *)

Section AllowanceDivisor.

Context `{Library} {W : Type} `{Backend W}.

Import decimal.

Lemma allowancesLoop_panics (averageMonth : gmap string Decimal)
    (entries : list (string * list Transaction.t)) :
  (exists title tx,
      In (title, tx) entries /\ tx <> [] /\ averageMonth !! title = Some Zero) ->
  forall allowances totalAllowance months,
    allowancesLoop averageMonth entries allowances totalAllowance months
    = Panic "decimal division by 0".
Proof.
  induction entries as [|[title0 tx0] entries IH];
    intros (title & tx & Hin & Hne & Hm) allowances totalAllowance months.
  - destruct Hin.
  - cbn [allowancesLoop]. destruct tx0 as [|t0 tx0].
    + destruct Hin as [[= <- <-]|Hin]; [contradiction|]. apply IH. eauto.
    + destruct Hin as [[= <- <-]|Hin].
      * rewrite Hm. reflexivity.
      * destruct (Div _ _) as [average| |msg] eqn:Ed; cbn.
        -- apply IH. eauto.
        -- unfold Div in Ed. destruct (IsZero _); discriminate Ed.
        -- unfold Div in Ed. destruct (IsZero _); [now injection Ed as <- | discriminate Ed].
Qed.

(** Conversely, when every bucket that holds a transaction has a divisor
    that is not zero, the allowances are listed without a fault. *)
Lemma allowancesLoop_returns (averageMonth : gmap string Decimal)
    (entries : list (string * list Transaction.t)) :
  (forall title tx,
      In (title, tx) entries -> tx <> [] ->
      exists m, averageMonth !! title = Some m /\ m <> Zero) ->
  forall allowances totalAllowance months,
    returns (allowancesLoop averageMonth entries allowances totalAllowance months).
Proof.
  induction entries as [|[title0 tx0] entries IH];
    intros Hall allowances totalAllowance months; cbn [allowancesLoop].
  - now eexists.
  - assert (Hrest : forall title tx,
               In (title, tx) entries -> tx <> [] ->
               exists m, averageMonth !! title = Some m /\ m <> Zero)
      by (intros title tx Hin; apply Hall; now right).
    destruct tx0 as [|t0 tx0]; [now apply IH|].
    destruct (Hall title0 (t0 :: tx0)) as (m & -> & Hm); [now left | discriminate|].
    rewrite Div_Ok by exact Hm. cbn [mbind outcome_bind]. now apply IH.
Qed.

Lemma zeroDivisorBucket_addAllowance
    (st : gmap string (list Transaction.t) * list Decimal * gmap string Decimal)
    (b : Allowance.t) (title : string) :
  (Allowance.Transactions b <> [] -> Allowance.Title b <> title) ->
  zeroDivisorBucket st.1.1 st.2 title ->
  zeroDivisorBucket (addAllowance st b).1.1 (addAllowance st b).2 title.
Proof.
  destruct st as [[txs monthly] months]. unfold addAllowance. cbn [fst snd].
  intros Hb Hz. destruct (Allowance.Transactions b) as [|t ts] eqn:Et; [exact Hz|].
  cbn [fst snd]. assert (Hne : Allowance.Title b <> title) by (apply Hb; discriminate).
  destruct Hz as [(tx & Htx & Hnil) Hm]. split.
  - exists tx. unfold appendAt. now rewrite lookup_insert_ne.
  - now rewrite lookup_insert_ne.
Qed.

Lemma zeroDivisorBucket_fold (post : list Allowance.t) (title : string) :
  (forall b, In b post -> Allowance.Transactions b <> [] -> Allowance.Title b <> title) ->
  forall st,
    zeroDivisorBucket st.1.1 st.2 title ->
    zeroDivisorBucket (fold_left addAllowance post st).1.1
      (fold_left addAllowance post st).2 title.
Proof.
  induction post as [|b post IH]; intros Hpost st Hst; simpl; [exact Hst|].
  apply IH.
  - intros b' Hb'. apply Hpost. now right.
  - apply zeroDivisorBucket_addAllowance; [|exact Hst]. apply Hpost. now left.
Qed.

Lemma zeroDivisorBucket_allowances (pre post : list Allowance.t) (a : Allowance.t) :
  Allowance.Transactions a <> [] ->
  Allowance.Months a = Zero ->
  (forall b, In b post -> Allowance.Transactions b <> [] ->
             Allowance.Title b <> Allowance.Title a) ->
  zeroDivisorBucket
    (fold_left addAllowance (pre ++ a :: post) (∅, [], ∅)).1.1
    (fold_left addAllowance (pre ++ a :: post) (∅, [], ∅)).2
    (Allowance.Title a).
Proof.
  intros Hne Hz Hpost. rewrite fold_left_app. cbn [fold_left].
  apply zeroDivisorBucket_fold; [exact Hpost|].
  destruct (fold_left addAllowance pre (∅, [], ∅)) as [[txs monthly] months].
  unfold addAllowance.
  destruct (Allowance.Transactions a) as [|t ts] eqn:Et; [contradiction|].
  cbn [fst snd]. split.
  - exists (default [] (txs !! Allowance.Title a) ++ t :: ts). unfold appendAt.
    rewrite lookup_insert_eq. split; [reflexivity|].
    intros E. apply app_eq_nil in E as [_ E]. discriminate E.
  - now rewrite lookup_insert_eq, Hz.
Qed.

Lemma toListAllowances_panics (m : statMap) (raw : statCal.t) (title : string) :
  m !! sourceNames SourceAllowance = Some raw ->
  zeroDivisorBucket (statCal.Transactions raw) (statCal.AverageMonth raw) title ->
  toListAllowances m = Panic "decimal division by 0".
Proof.
  intros Hraw [(tx & Htx & Hne) Hm]. unfold toListAllowances. rewrite Hraw.
  rewrite allowancesLoop_panics; [reflexivity|].
  exists title, tx. split; [|split; assumption].
  now apply list_elem_of_In, elem_of_rangeOrder.
Qed.

Lemma populate_panics (c : Calculation.t) (p : product)
    (period exchangeRate : Decimal) (m : statMap) (msg : string) :
  toListAllowances m = Panic msg ->
  populate c p period exchangeRate m = Panic msg.
Proof. intros E. unfold populate, newSourceIncome. now rewrite E. Qed.

(** C10, as the code has it: when the allowances of a recalculation
    request hold an entry with transactions and a month-divisor of 0, and no
    later entry with transactions has the same title, the re-aggregation
    divides by zero: [ReCalculate] panics, and so does the service operation
    on a pending calculation, which saves nothing. *)
Theorem recalculate_zero_months_panics (c : Calculation.t) (by_ : string)
    (now : Time) (req : RecalculateReq.t) (pre post : list Allowance.t)
    (a : Allowance.t) :
  RecalculateReq.Allowances req = pre ++ a :: post ->
  Allowance.Transactions a <> [] ->
  Allowance.Months a = Zero ->
  (forall b, In b post -> Allowance.Transactions b <> [] ->
             Allowance.Title b <> Allowance.Title a) ->
  ReCalculate c by_ now req = Panic "decimal division by 0"
  /\ forall w : W,
      getCalculation w (RecalculateReq.Number req) = Ok c ->
      IsCompleted c = false ->
      ReCalculateIncome w by_ now req = (Panic "decimal division by 0", w).
Proof.
  intros Hreq Hne Hz Hpost.
  assert (HR : ReCalculate c by_ now req = Panic "decimal division by 0").
  { unfold ReCalculate.
    pose proof (zeroDivisorBucket_allowances pre post a Hne Hz Hpost) as Hbucket.
    rewrite <- Hreq in Hbucket.
    unfold toStateMap.
    cbn [setBreakdowns Calculation.AllowanceBreakdown Calculation.SalaryBreakdown
         Calculation.CommissionBreakdown newAllowanceBreakdown newSalaryBreakdown
         newCommissionBreakdown AllowanceBreakdown.Allowances
         SalaryBreakdown.MonthlySalaries CommissionBreakdown.Commissions].
    destruct (fold_left addAllowance _ _) as [[awnTxs awsMonthly] awsAvg].
    destruct (fold_left addCommission _ _) as [comTxs commMonthly].
    destruct (fold_left addMonthlySalary _ _) as [salTxs salaryMonthly].
    cbn [mbind outcome_bind]. cbn [fst snd] in Hbucket.
    apply populate_panics.
    apply (toListAllowances_panics _
             (statCal.mk awnTxs awsMonthly (sumAmounts awsMonthly) awsAvg)
             (Allowance.Title a)); [|exact Hbucket].
    rewrite !lookup_insert_ne by discriminate. now rewrite lookup_insert_eq. }
  split; [exact HR|].
  intros w Hget Hpending. unfold ReCalculateIncome.
  now rewrite Hget, Hpending, HR.
Qed.

End AllowanceDivisor.

Lemma recalculate_zero_months_panics_witness :
  ReCalculate (H := Sample.library) Sample.pending "officer" (time.Date 2025 4 3)
    Sample.reqZeroMonths
  = Panic "decimal division by 0".
Proof.
  apply (proj1 (recalculate_zero_months_panics (H := Sample.library)
                  (H0 := Sample.backend) Sample.pending "officer" (time.Date 2025 4 3)
                  Sample.reqZeroMonths [] [] Sample.zeroMonths
                  eq_refl ltac:(discriminate) eq_refl ltac:(intros b []))).
Defined.

(** C10, as stated, fails: the request below holds an allowance entry with
    a transaction and a month-divisor of 0, and the recalculation returns a
    result, because a later entry of the same title replaced the divisor. *)
Lemma recalculate_zero_months_overridden :
  In Sample.zeroMonths (RecalculateReq.Allowances Sample.reqDuplicateTitle)
  /\ Allowance.Transactions Sample.zeroMonths <> []
  /\ Allowance.Months Sample.zeroMonths = decimal.Zero
  /\ exists c',
      ReCalculate (H := Sample.library) Sample.pending "officer"
        (time.Date 2025 4 3) Sample.reqDuplicateTitle = Ok c'
      /\ AllowanceBreakdown.Total (Calculation.AllowanceBreakdown c')
         = decimal.NewFromInt 15000.
Proof.
  split; [now left|]. split; [discriminate|]. split; [reflexivity|].
  eexists. split; [vm_compute; reflexivity|]. apply Qc_is_canon. reflexivity.
Qed.

(** ** The declared interview salary *)

Section Interview.

Context `{Library}.

Import decimal.

(** The formula itself prefers a declared interview salary that is
    positive and below the basic salary, when the [statMap] carries one. *)
Lemma averageMonthlyIncome_interview (s : statMap) (p : product)
    (period b h : Decimal) :
  p = ProductPL \/ p = ProductSF ->
  averageOtherIncomeIn80Percent s period = Ok h ->
  basicSalary s p period = Ok b ->
  averageMonthlyIncome s p period
  = Ok (if (GreaterThan (basicSalaryFromInterview s) Zero
            && LessThan (basicSalaryFromInterview s) b)%bool
        then Add (basicSalaryFromInterview s) h
        else Add b h).
Proof.
  intros [-> | ->] Hh Hb; unfold averageMonthlyIncome; rewrite Hh;
    cbn [mbind outcome_bind]; rewrite Hb; cbn [mbind outcome_bind];
    now destruct (_ && _)%bool.
Qed.

Lemma noInterview_addRow (wordlists : list Wordlist.t) (m : statMap)
    (row : list string) :
  noInterview m -> noInterview (addRow wordlists m row).
Proof.
  intros Hm. unfold addRow.
  destruct (length row <=? 4)%nat; [exact Hm|].
  destruct (NewFromString _) as [amount|]; [|exact Hm].
  destruct (negb _); [exact Hm|].
  destruct (String.length (nth 2 row "") =? 0)%nat; [exact Hm|].
  destruct (ParseDate _) as [date|]; [|exact Hm].
  destruct (matchWordlists (nth 2 row "") wordlists) as [[category title] matched].
  destruct (negb matched); [exact Hm|].
  unfold noInterview in *.
  destruct category; try exact Hm; unfold addIncome, setAverageMonth;
    now rewrite !lookup_insert_ne by discriminate.
Qed.

Lemma noInterview_toStateMap (c : Calculation.t) (m : statMap) :
  toStateMap c = Ok m -> noInterview m.
Proof.
  unfold toStateMap.
  destruct (fold_left addAllowance _ _) as [[awnTxs awsMonthly] awsAvg].
  destruct (fold_left addCommission _ _) as [comTxs commMonthly].
  destruct (fold_left addMonthlySalary _ _) as [salTxs salaryMonthly].
  intros [= <-]. unfold noInterview.
  now rewrite !lookup_insert_ne by discriminate.
Qed.

(** C5 on the code: no [statMap] the package builds carries a declared
    interview salary, so the formula always reads 0 for it; the interview
    salary of a recalculation request has no effect on the result; with a
    declared 900,000 and a basic salary of 1,000,000 the monthly average
    income of the PL calculation is 1,000,000 plus the haircut of 80,000,
    not 900,000 plus the haircut. *)
Theorem declared_interview_salary_is_ignored :
  (forall m, aggregated m -> basicSalaryFromInterview m = Zero)
  /\ (forall c by_ now req s,
        ReCalculate c by_ now (withInterview req s) = ReCalculate c by_ now req)
  /\ exists c',
      ReCalculate (H := Sample.library) Sample.pending "officer"
        (time.Date 2025 4 3) Sample.reqInterview = Ok c'
      /\ Breakdown.MonthlyAverage (Source.BasicSalary (Calculation.Source c'))
         = NewFromInt 1000000
      /\ Calculation.MonthlyAverageIncome c' = NewFromInt 1080000.
Proof.
  split; [|split].
  - intros m Hm.
    assert (Hno : noInterview m).
    { destruct Hm as [(wordlists & rows & ->) | (c & Hc)].
      - apply fold_left_invariant; [apply lookup_empty|].
        intros acc row. apply noInterview_addRow.
      - now apply noInterview_toStateMap with c. }
    unfold basicSalaryFromInterview. now rewrite Hno.
  - intros c by_ now req s. reflexivity.
  - eexists. split; [vm_compute; reflexivity|].
    split; apply Qc_is_canon; reflexivity.
Qed.

End Interview.

(** ** Completion *)

Section Lifecycle.

Context `{Library} {W : Type} `{Backend W}.

Lemma IsCompleted_Complete (c : Calculation.t) (by_ : string) (now : Time) :
  IsCompleted (Complete c by_ now) = true.
Proof. reflexivity. Qed.

(** C7: on a completed calculation the recalculation fails with the
    already-completed error and the completion returns the calculation as
    it is; in both cases nothing is written, so no field of the stored
    calculation changes.  A calculation returned by the completion is
    completed, and completing it again, once the store returns it, gives
    the same calculation and the same store. *)
Theorem completed_calculation_is_immutable (w : W) (by_ : string) (now : Time) :
  (forall c req,
      getCalculation w (RecalculateReq.Number req) = Ok c ->
      IsCompleted c = true ->
      ReCalculateIncome w by_ now req
      = (Err (RpcStatus FailedPrecondition
                "This calculation is already completed and cannot be recalculated"),
         w))
  /\ (forall c number,
        getCalculation w number = Ok c ->
        IsCompleted c = true ->
        CompleteCalculation w by_ now number = (Ok c, w))
  /\ (forall number c1 w1,
        CompleteCalculation w by_ now number = (Ok c1, w1) ->
        IsCompleted c1 = true
        /\ forall by' now',
            getCalculation w1 number = Ok c1 ->
            CompleteCalculation w1 by' now' number = (Ok c1, w1)).
Proof.
  split; [|split].
  - intros c req Hget Hc. unfold ReCalculateIncome. now rewrite Hget, Hc.
  - intros c number Hget Hc. unfold CompleteCalculation. now rewrite Hget, Hc.
  - intros number c1 w1 Hcomplete.
    assert (Hc1 : IsCompleted c1 = true).
    { unfold CompleteCalculation in Hcomplete.
      destruct (getCalculation w number) as [c| [] |]; try discriminate Hcomplete.
      destruct (IsCompleted c) eqn:Hc.
      - now injection Hcomplete as <- <-.
      - destruct (saveCalculationIncome w _) as [[w' id]| |]; try discriminate Hcomplete.
        injection Hcomplete as <- <-. now destruct id. }
    split; [exact Hc1|].
    intros by' now' Hget. unfold CompleteCalculation. now rewrite Hget, Hc1.
Qed.

End Lifecycle.

Lemma completed_calculation_is_immutable_witness :
  ReCalculateIncome (H := Sample.library) (H0 := Sample.backend) Sample.world
    "officer" (time.Date 2025 4 4)
    (RecalculateReq.mk "N-000" decimal.Zero Sample.salaries [] [])
  = (Err (RpcStatus FailedPrecondition
            "This calculation is already completed and cannot be recalculated"),
     Sample.world)
  /\ CompleteCalculation (H0 := Sample.backend) Sample.world
       "officer" (time.Date 2025 4 4) "N-000"
     = (Ok Sample.completed, Sample.world).
Proof.
  destruct (completed_calculation_is_immutable (H := Sample.library)
              (H0 := Sample.backend) Sample.world "officer" (time.Date 2025 4 4))
    as (Hre & Hco & _).
  split.
  - apply (Hre Sample.completed); reflexivity.
  - apply (Hco Sample.completed); reflexivity.
Defined.

(** ** Rejected statements *)

Section Header.

Context `{Library} {W : Type} `{Backend W}.

(** Whatever the reason, a computation that does not return a calculation
    leaves the store as it was. *)
Lemma CalculateIncome_failure_writes_nothing (w : W) (by_ : string) (now : Time)
    (req : CalculateReq.t) :
  isOk (CalculateIncome w by_ now req).1 = false ->
  (CalculateIncome w by_ now req).2 = w.
Proof.
  unfold CalculateIncome.
  destruct (CalculateReq_Validate req); [reflexivity|].
  destruct (isCalculationExists w _) as [[|]|e|]; try reflexivity.
  destruct (getStatementFileByName w _) as [sf|[]|]; try reflexivity.
  destruct (listWordlists w) as [wl|e|]; try reflexivity.
  destruct (calculateIncomeFromStatementFile _ _ _ _ _ _) as [c|e|]; try reflexivity.
  destruct (saveCalculationIncome w c) as [[w' id]|e|]; try reflexivity.
  discriminate.
Qed.

End Header.

(** ** Allowances of a statement *)

Section StatementAllowances.

Context `{Library}.

Import decimal.

Lemma dividedByTwelve_addIncome_other (m : statMap) (key bucket : string)
    (amount : Decimal) (t : Transaction.t) :
  key <> sourceNames SourceAllowance ->
  dividedByTwelve m -> dividedByTwelve (addIncome m key bucket amount t).
Proof.
  intros Hk Hm raw title tx. unfold addIncome.
  rewrite lookup_insert_ne by exact Hk. apply Hm.
Qed.

Lemma dividedByTwelve_addAllowance (m : statMap) (title : string)
    (amount : Decimal) (t : Transaction.t) :
  dividedByTwelve m ->
  dividedByTwelve
    (addIncome (setAverageMonth m (sourceNames SourceAllowance) title (NewFromInt 12))
       (sourceNames SourceAllowance) title amount t).
Proof.
  unfold dividedByTwelve, addIncome, setAverageMonth.
  generalize (sourceNames SourceAllowance). intros k Hm raw title' tx.
  rewrite !lookup_insert_eq. cbn [default]. intros [= <-]. cbn.
  destruct (decide (title' = title)) as [->|Hne].
  - intros _. apply lookup_insert_eq.
  - unfold appendAt. rewrite !lookup_insert_ne by congruence.
    destruct (m !! k) as [raw|] eqn:E; cbn.
    + intros Htx. now apply (Hm raw title' tx).
    + now rewrite lookup_empty.
Qed.

Lemma dividedByTwelve_addRow (wordlists : list Wordlist.t) (m : statMap)
    (row : list string) :
  dividedByTwelve m -> dividedByTwelve (addRow wordlists m row).
Proof.
  intros Hm. unfold addRow.
  destruct (length row <=? 4)%nat; [exact Hm|].
  destruct (NewFromString _) as [amount|]; [|exact Hm].
  destruct (negb _); [exact Hm|].
  destruct (String.length _ =? 0)%nat; [exact Hm|].
  destruct (ParseDate _) as [date|]; [|exact Hm].
  destruct (matchWordlists _ _) as [[category title] matched].
  destruct (negb matched); [exact Hm|].
  destruct category; try exact Hm.
  - now apply dividedByTwelve_addIncome_other.
  - now apply dividedByTwelve_addAllowance.
  - now apply dividedByTwelve_addIncome_other.
Qed.

Lemma dividedByTwelve_rows (wordlists : list Wordlist.t) (rows : list (list string)) :
  dividedByTwelve (fold_left (addRow wordlists) rows ∅).
Proof.
  apply fold_left_invariant.
  - intros raw title tx. now rewrite lookup_empty.
  - intros acc row. apply dividedByTwelve_addRow.
Qed.

Lemma twelve_nonzero : NewFromInt 12 <> Zero.
Proof. discriminate. Qed.

Lemma toListAllowances_dividedByTwelve (m : statMap) :
  dividedByTwelve m -> returns (toListAllowances m).
Proof.
  intros Hm. unfold toListAllowances.
  destruct (m !! sourceNames SourceAllowance) as [raw|] eqn:E; [|apply returns_Ok].
  destruct (allowancesLoop_returns (statCal.AverageMonth raw)
              (rangeOrder (statCal.Transactions raw))) with
    (allowances := @nil Allowance.t) (totalAllowance := Zero)
    (months := NewFromInt 12) as [r Hr].
  - intros title tx Hin _. exists (NewFromInt 12). split; [|apply twelve_nonzero].
    apply list_elem_of_In, elem_of_rangeOrder in Hin. now apply (Hm raw title tx).
  - rewrite Hr. apply returns_Ok.
Qed.

(** X1: the figures of a calculation made from a statement are always
    produced: whatever the rows, the wordlists, the product, the period and
    the exchange rate, no division by zero stops the computation over the
    rows of the statement. *)
Theorem statement_figures_are_produced (wordlists : list Wordlist.t)
    (rows : list (list string)) (c : Calculation.t) (p : product)
    (period exchangeRate : Decimal) :
  returns (populate c p period exchangeRate (fold_left (addRow wordlists) rows ∅)).
Proof.
  apply populate_returns, toListAllowances_dividedByTwelve, dividedByTwelve_rows.
Qed.


Lemma allowancesLoop_spec (averageMonth : gmap string Decimal)
    (entries : list (string * list Transaction.t)) :
  forall allowances totalAllowance months r,
    allowancesLoop averageMonth entries allowances totalAllowance months = Ok r ->
    exists new,
      r.1 = allowances ++ new
      /\ r.2 = Add totalAllowance (total (map Allowance.MonthlyAverage new))
      /\ map (fun a => (Allowance.Title a, Allowance.Transactions a)) new
         = List.filter (fun e => negb (Nat.eqb (length e.2) 0)) entries
      /\ Forall
           (fun a =>
              Allowance.Total a = sumTransactions (Allowance.Transactions a)
              /\ Allowance.Months a <> Zero
              /\ Allowance.MonthlyAverage a
                 = DivRound (Allowance.Total a) (Allowance.Months a) DivisionPrecision
              /\ (forall m, averageMonth !! Allowance.Title a = Some m ->
                            Allowance.Months a = m))
           new.
Proof.
  induction entries as [|[title tx] rest IH]; intros allowances totalAllowance months r.
  - cbn. intros [= <-]. exists []. cbn. rewrite app_nil_r, Add_Zero_r. auto.
  - cbn [allowancesLoop]. destruct tx as [|t tx].
    + intros Hr. destruct (IH _ _ _ _ Hr) as (new & E1 & E2 & E3 & HF).
      exists new. repeat split; auto.
    + set (ms := match averageMonth !! title with Some m => m | None => months end).
      intros Hr. apply bind_Ok in Hr. destruct Hr as (average & Hdiv & Hr).
      unfold Div in Hdiv. destruct (IsZero ms) eqn:Hz; [discriminate|].
      injection Hdiv as <-.
      destruct (IH _ _ _ _ Hr) as (new & E1 & E2 & E3 & HF).
      eexists (_ :: new). split; [|split; [|split]].
      * rewrite E1, <- app_assoc. reflexivity.
      * rewrite E2. cbn [map total foldr Allowance.MonthlyAverage].
        fold (total (map Allowance.MonthlyAverage new)). apply Add_assoc.
      * cbn. now rewrite E3.
      * constructor; [|exact HF]. cbn. repeat split.
        -- now apply IsZero_false.
        -- intros m Em. subst ms. now rewrite Em.
Qed.


(** X2: in a calculation made from a statement every listed allowance holds
    at least one transaction, its total is the sum of their amounts, and its
    monthly average is that total divided by 12 (rounded to 16 places),
    whatever the period of the statement; the total of the allowance
    breakdown is the sum of these monthly averages. *)
Theorem statement_allowances_are_averaged_over_twelve_months
    (wordlists : list Wordlist.t) (rows : list (list string)) :
  exists ab,
    toListAllowances (fold_left (addRow wordlists) rows ∅) = Ok ab
    /\ AllowanceBreakdown.Total ab
       = total (map Allowance.MonthlyAverage (AllowanceBreakdown.Allowances ab))
    /\ Forall
         (fun a =>
            Allowance.Transactions a <> []
            /\ Allowance.Total a = total (map Transaction.Amount (Allowance.Transactions a))
            /\ Allowance.Months a = NewFromInt 12
            /\ Allowance.MonthlyAverage a
               = DivRound (Allowance.Total a) (NewFromInt 12) DivisionPrecision)
         (AllowanceBreakdown.Allowances ab).
Proof.
  pose proof (dividedByTwelve_rows wordlists rows) as H12.
  destruct (toListAllowances_dividedByTwelve _ H12) as [ab Hab].
  exists ab. split; [exact Hab|]. unfold toListAllowances in Hab.
  destruct (fold_left (addRow wordlists) rows ∅ !! sourceNames SourceAllowance)
    as [raw|] eqn:E.
  - apply bind_Ok in Hab. destruct Hab as (r & Hr & [= <-]).
    apply allowancesLoop_spec in Hr. destruct Hr as (new & E1 & E2 & E3 & HF).
    cbn [AllowanceBreakdown.Total AllowanceBreakdown.Allowances].
    rewrite E1, E2, Add_Zero_l. cbn [app]. split; [reflexivity|].
    apply List.Forall_forall. intros a Ha.
    assert (Hin : In (Allowance.Title a, Allowance.Transactions a)
                    (List.filter (fun e => negb (Nat.eqb (length e.2) 0))
                       (rangeOrder (statCal.Transactions raw)))).
    { rewrite <- E3.
      exact (in_map (fun a => (Allowance.Title a, Allowance.Transactions a)) _ _ Ha). }
    apply filter_In in Hin. destruct Hin as [Hin Hlen]. cbn in Hlen.
    apply list_elem_of_In, elem_of_rangeOrder in Hin.
    rewrite List.Forall_forall in HF. destruct (HF a Ha) as (Ht & _ & Havg & Hm).
    specialize (Hm _ (H12 raw _ _ E Hin)).
    split; [|split; [|split]].
    + intros E0. rewrite E0 in Hlen. discriminate.
    + now rewrite Ht, sumTransactions_total.
    + exact Hm.
    + now rewrite Havg, Hm.
  - injection Hab as <-. cbn. split; [reflexivity | constructor].
Qed.

End StatementAllowances.

(** ** Recalculation *)

Section Recalculation.

Context `{Library}.

Import decimal.

Lemma toStateMap_setBreakdowns (c d : Calculation.t) (sb : SalaryBreakdown.t)
    (ab : AllowanceBreakdown.t) (cb : CommissionBreakdown.t) :
  toStateMap (setBreakdowns c sb ab cb) = toStateMap (setBreakdowns d sb ab cb).
Proof. reflexivity. Qed.

Lemma populate_Ok (c c' : Calculation.t) (p : product)
    (period exchangeRate : Decimal) (m : statMap) :
  populate c p period exchangeRate m = Ok c' ->
  exists src ab cb tbs toi mai mni,
    newSourceIncome m p period = Ok src
    /\ toListAllowances m = Ok ab
    /\ toListCommissions m period = Ok cb
    /\ totalBasicSalary m p period = Ok tbs
    /\ totalOtherIncome m period = Ok toi
    /\ averageMonthlyIncome m p period = Ok mai
    /\ netIncomeMonthly m p exchangeRate period = Ok mni
    /\ c' = {| Calculation.ID := Calculation.ID c;
               Calculation.StatementFileName := Calculation.StatementFileName c;
               Calculation.Number := Calculation.Number c;
               Calculation.Product := Calculation.Product c;
               Calculation.Account := Calculation.Account c;
               Calculation.ExchangeRate := exchangeRate;
               Calculation.MonthlyAverageIncome := mai;
               Calculation.MonthlyNetIncome := mni;
               Calculation.TotalOtherIncome := toi;
               Calculation.TotalBasicSalary := tbs;
               Calculation.TotalIncome := totalIncome m p;
               Calculation.PeriodInMonth := period;
               Calculation.StartedAt := Calculation.StartedAt c;
               Calculation.EndedAt := Calculation.EndedAt c;
               Calculation.Status := Calculation.Status c;
               Calculation.CreatedBy := Calculation.CreatedBy c;
               Calculation.UpdatedBy := Calculation.UpdatedBy c;
               Calculation.CreatedAt := Calculation.CreatedAt c;
               Calculation.UpdatedAt := Calculation.UpdatedAt c;
               Calculation.SalaryBreakdown := toListMonthlySalaries m;
               Calculation.AllowanceBreakdown := ab;
               Calculation.CommissionBreakdown := cb;
               Calculation.Source := src |}.
Proof.
  unfold populate. intros Hp.
  apply bind_Ok in Hp. destruct Hp as (src & E1 & Hp).
  apply bind_Ok in Hp. destruct Hp as (ab & E2 & Hp).
  apply bind_Ok in Hp. destruct Hp as (cb & E3 & Hp).
  apply bind_Ok in Hp. destruct Hp as (tbs & E4 & Hp).
  apply bind_Ok in Hp. destruct Hp as (toi & E5 & Hp).
  apply bind_Ok in Hp. destruct Hp as (mai & E6 & Hp).
  apply bind_Ok in Hp. destruct Hp as (mni & E7 & Hp).
  injection Hp as <-. exists src, ab, cb, tbs, toi, mai, mni. auto 10.
Qed.

(** A recalculation keeps the identity, the product, the account, the
    period, the exchange rate, the status and the creation stamp of the
    stored calculation and stamps the update. *)
Lemma ReCalculate_keeps (c c' : Calculation.t) (by_ : string)
    (now : Time) (req : RecalculateReq.t) :
  ReCalculate c by_ now req = Ok c' ->
  Calculation.ID c' = Calculation.ID c
  /\ Calculation.StatementFileName c' = Calculation.StatementFileName c
  /\ Calculation.Number c' = Calculation.Number c
  /\ Calculation.Product c' = Calculation.Product c
  /\ Calculation.Account c' = Calculation.Account c
  /\ Calculation.PeriodInMonth c' = Calculation.PeriodInMonth c
  /\ Calculation.ExchangeRate c' = Calculation.ExchangeRate c
  /\ Calculation.StartedAt c' = Calculation.StartedAt c
  /\ Calculation.EndedAt c' = Calculation.EndedAt c
  /\ Calculation.Status c' = Calculation.Status c
  /\ Calculation.CreatedBy c' = Calculation.CreatedBy c
  /\ Calculation.CreatedAt c' = Calculation.CreatedAt c
  /\ Calculation.UpdatedBy c' = by_
  /\ Calculation.UpdatedAt c' = now.
Proof.
  unfold ReCalculate.
  destruct (toStateMap _) as [m| |]; cbn [mbind outcome_bind]; try discriminate.
  cbn [setBreakdowns setStatusUpdated Calculation.Status Calculation.Product
       Calculation.PeriodInMonth Calculation.ExchangeRate].
  intros Hp. apply populate_Ok in Hp.
  destruct Hp as (src & ab & cb & tbs & toi & mai & mni
                  & E1 & E2 & E3 & E4 & E5 & E6 & E7 & ->).
  cbn. repeat split.
Qed.

(** With the buckets visited in the same order, a second recalculation
    with the same request changes the update stamp only. *)
Lemma ReCalculate_again (c c' : Calculation.t) (by_ : string)
    (now : Time) (req : RecalculateReq.t) (by' : string) (now' : Time) :
  ReCalculate c by_ now req = Ok c' ->
  ReCalculate c' by' now' req
  = Ok (setStatusUpdated c' (Calculation.Status c') now' by').
Proof.
  unfold ReCalculate.
  rewrite (toStateMap_setBreakdowns c' c).
  destruct (toStateMap _) as [m| |]; cbn [mbind outcome_bind]; try discriminate.
  cbn [setBreakdowns setStatusUpdated Calculation.Status Calculation.Product
       Calculation.PeriodInMonth Calculation.ExchangeRate].
  intros Hp. apply populate_Ok in Hp.
  destruct Hp as (src & ab & cb & tbs & toi & mai & mni
                  & E1 & E2 & E3 & E4 & E5 & E6 & E7 & ->).
  cbn. unfold populate. rewrite E1, E2, E3, E4, E5, E6, E7. reflexivity.
Qed.

End Recalculation.

(** ** Commissions of a recalculation *)

Section SuppliedCommissions.

Context `{Library}.

Import decimal.

Lemma addCommission_totals (l : list Commission.t)
    (st : gmap string (list Transaction.t) * list Decimal) :
  (fold_left addCommission l st).2
  = st.2 ++ map Commission.Total
              (List.filter
                 (fun k => negb (Nat.eqb (length (Commission.Transactions k)) 0)) l).
Proof.
  revert st. induction l as [|k l IH]; intros [txs monthly]; cbn [fold_left].
  - cbn. now rewrite app_nil_r.
  - rewrite IH. unfold addCommission. cbn [List.filter].
    destruct (Commission.Transactions k) as [|t ts]; cbn; [reflexivity|].
    now rewrite <- app_assoc.
Qed.

Lemma toStateMap_commission (c : Calculation.t) (m : statMap) :
  toStateMap c = Ok m ->
  exists raw,
    m !! sourceNames SourceCommission = Some raw
    /\ statCal.Total raw
       = total (map Commission.Total
                  (List.filter
                     (fun k => negb (Nat.eqb (length (Commission.Transactions k)) 0))
                     (CommissionBreakdown.Commissions (Calculation.CommissionBreakdown c)))).
Proof.
  unfold toStateMap.
  destruct (fold_left addAllowance _ _) as [[awnTxs awsMonthly] awsAvg].
  pose proof (addCommission_totals
                (CommissionBreakdown.Commissions (Calculation.CommissionBreakdown c))
                (∅, [])) as Hc.
  destruct (fold_left addCommission _ _) as [comTxs commMonthly].
  destruct (fold_left addMonthlySalary _ _) as [salTxs salaryMonthly].
  intros [= <-]. eexists. split.
  - rewrite lookup_insert_ne by discriminate. apply lookup_insert_eq.
  - cbn in *. now rewrite sumAmounts_total, Hc.
Qed.

Lemma toListCommissions_Ok (m : statMap) (period : Decimal) (raw : statCal.t)
    (cb : CommissionBreakdown.t) :
  m !! sourceNames SourceCommission = Some raw ->
  toListCommissions m period = Ok cb ->
  CommissionBreakdown.Total cb = statCal.Total raw
  /\ (period <> Zero ->
      CommissionBreakdown.MonthlyAverage cb
      = DivRound (statCal.Total raw) period DivisionPrecision)
  /\ Forall (fun k => Commission.Transactions k <> []
                      /\ Commission.Total k
                         = total (map Transaction.Amount (Commission.Transactions k)))
       (CommissionBreakdown.Commissions cb).
Proof.
  intros E. unfold toListCommissions. rewrite E. intros Hc.
  apply bind_Ok in Hc. destruct Hc as (avg & Havg & [= <-]).
  cbn [CommissionBreakdown.Total CommissionBreakdown.MonthlyAverage
       CommissionBreakdown.Commissions].
  split; [reflexivity|]. split.
  - intros Hp. apply IsZero_false in Hp. rewrite Hp in Havg. cbn in Havg.
    unfold Div in Havg. rewrite Hp in Havg. now injection Havg as <-.
  - apply List.Forall_forall. intros k Hk.
    apply list_elem_of_In in Hk. rewrite sortSlice_Permutation in Hk.
    apply list_elem_of_omap in Hk. destruct Hk as ([month tx] & _ & Hk).
    destruct tx as [|t tx]; [discriminate|]. injection Hk as <-. cbn [Commission.Transactions Commission.Total].
    split; [discriminate | apply sumTransactions_total].
Qed.

(** X4: after a recalculation the total of the commission breakdown is the
    sum of the totals the request states for its commissions that hold a
    transaction; the amounts of the transactions are not consulted for it.
    The monthly average of the breakdown is that total divided by the
    period, while each listed commission carries the sum of its own
    transactions. *)
Theorem recalculated_commission_total_is_the_stated_one (c c' : Calculation.t)
    (by_ : string) (now : Time) (req : RecalculateReq.t) :
  ReCalculate c by_ now req = Ok c' ->
  CommissionBreakdown.Total (Calculation.CommissionBreakdown c')
  = total (map Commission.Total (statedCommissions req))
  /\ Breakdown.Total (Source.Commission (Calculation.Source c'))
     = total (map Commission.Total (statedCommissions req))
  /\ (Calculation.PeriodInMonth c <> Zero ->
      CommissionBreakdown.MonthlyAverage (Calculation.CommissionBreakdown c')
      = DivRound (total (map Commission.Total (statedCommissions req)))
          (Calculation.PeriodInMonth c) DivisionPrecision)
  /\ Forall (fun k => Commission.Transactions k <> []
                      /\ Commission.Total k
                         = total (map Transaction.Amount (Commission.Transactions k)))
       (CommissionBreakdown.Commissions (Calculation.CommissionBreakdown c')).
Proof.
  unfold ReCalculate.
  destruct (toStateMap _) as [m| |] eqn:Em; cbn [mbind outcome_bind]; try discriminate.
  apply toStateMap_commission in Em. destruct Em as (raw & Eraw & Htot).
  cbn [setBreakdowns setStatusUpdated Calculation.Status Calculation.Product
       Calculation.PeriodInMonth Calculation.ExchangeRate
       Calculation.CommissionBreakdown newCommissionBreakdown
       CommissionBreakdown.Commissions] in *.
  fold (statedCommissions req) in Htot.
  intros Hp. apply populate_Ok in Hp.
  destruct Hp as (src & ab & cb & tbs & toi & mai & mni
                  & E1 & E2 & E3 & E4 & E5 & E6 & E7 & ->).
  cbn [Calculation.CommissionBreakdown Calculation.Source].
  destruct (toListCommissions_Ok _ _ _ _ Eraw E3) as (Ht & Ha & Hl).
  rewrite <- Htot. split; [exact Ht|]. split; [|split; [exact Ha | exact Hl]].
  unfold newSourceIncome in E1. rewrite E2, E3 in E1. cbn in E1.
  unfold averageAllowance, averageCommission in E1. rewrite E2, E3 in E1. cbn in E1.
  rewrite E4 in E1. cbn in E1.
  apply bind_Ok in E1. destruct E1 as (bs & _ & [= <-]). exact Ht.
Qed.

End SuppliedCommissions.

Lemma recalculated_commission_total_is_the_stated_one_witness :
  let req :=
    RecalculateReq.mk "N-001" decimal.Zero Sample.salaries []
      [Commission.mk "January-2025" [Sample.tx 100] (decimal.NewFromInt 999)] in
  exists c',
    ReCalculate (H := Sample.library) Sample.pending "officer" (time.Date 2025 4 3) req
    = Ok c'
    /\ CommissionBreakdown.Total (Calculation.CommissionBreakdown c')
       = total (map Commission.Total (statedCommissions req))
    /\ total (map Commission.Total (statedCommissions req)) = decimal.NewFromInt 999
    /\ map Commission.Total
         (CommissionBreakdown.Commissions (Calculation.CommissionBreakdown c'))
       = [decimal.NewFromInt 100].
Proof.
  intros req. eexists. split; [vm_compute; reflexivity|].
  split; [|split].
  - refine (proj1 (recalculated_commission_total_is_the_stated_one
                     (H := Sample.library) Sample.pending _ "officer"
                     (time.Date 2025 4 3) req _)).
    vm_compute; reflexivity.
  - apply Qc_is_canon; reflexivity.
  - cbn. f_equal; try (apply Qc_is_canon; reflexivity).
Defined.

(** ** The summary of a calculation *)

Section Summary.

Context `{Library}.

Import decimal.

Lemma Mul_Zero_l (d : Decimal) : Mul Zero d = Zero.
Proof. unfold Mul, Zero. apply Qcmult_0_l. Qed.

Lemma totalOtherIncome_nonneg (m : statMap) (period o : Decimal) :
  totalOtherIncome m period = Ok o -> (Zero <= o)%Qc.
Proof.
  unfold totalOtherIncome. destruct (IsZero period).
  - intros [= <-]. apply Qcle_refl.
  - intros Ho. apply bind_Ok in Ho. destruct Ho as (tb & _ & Ho).
    destruct (LessThan _ Zero) eqn:E; injection Ho as <-.
    + apply Qcle_refl.
    + now apply LessThan_false.
Qed.

Lemma netIncomeMonthly_Ok (m : statMap) (p : product)
    (exchangeRate period mai mni : Decimal) :
  averageMonthlyIncome m p period = Ok mai ->
  netIncomeMonthly m p exchangeRate period = Ok mni ->
  mni = if IsZero period then Zero else Mul mai exchangeRate.
Proof.
  intros Ea. unfold netIncomeMonthly. destruct (IsZero period); [now intros [= <-]|].
  rewrite Ea. cbn. destruct (IsZero mai) eqn:Ez; intros [= <-].
  - apply IsZero_true in Ez. subst mai. now rewrite Mul_Zero_l.
  - reflexivity.
Qed.

(** X5: the summary a computation writes agrees with its breakdowns: the
    source block repeats the total basic salary, the allowance total (as
    both its average and its total) and the commission average and total,
    and leaves the other-income entry at zero; the total other income is
    never negative; the monthly net income is the monthly average income
    times the exchange rate, or 0 when the period is 0; for PL and SF the
    total income is the total of the salary breakdown. *)
Theorem populate_summary_agrees_with_breakdowns (c c' : Calculation.t)
    (p : product) (period exchangeRate : Decimal) (m : statMap) :
  populate c p period exchangeRate m = Ok c' ->
  Breakdown.Total (Source.BasicSalary (Calculation.Source c'))
  = Calculation.TotalBasicSalary c'
  /\ Breakdown.MonthlyAverage (Source.Allowance (Calculation.Source c'))
     = AllowanceBreakdown.Total (Calculation.AllowanceBreakdown c')
  /\ Breakdown.Total (Source.Allowance (Calculation.Source c'))
     = AllowanceBreakdown.Total (Calculation.AllowanceBreakdown c')
  /\ Breakdown.MonthlyAverage (Source.Commission (Calculation.Source c'))
     = CommissionBreakdown.MonthlyAverage (Calculation.CommissionBreakdown c')
  /\ Breakdown.Total (Source.Commission (Calculation.Source c'))
     = CommissionBreakdown.Total (Calculation.CommissionBreakdown c')
  /\ Source.Other (Calculation.Source c') = Breakdown.empty
  /\ (Zero <= Calculation.TotalOtherIncome c')%Qc
  /\ Calculation.MonthlyNetIncome c'
     = (if IsZero period then Zero
        else Mul (Calculation.MonthlyAverageIncome c') exchangeRate)
  /\ Calculation.PeriodInMonth c' = period
  /\ Calculation.ExchangeRate c' = exchangeRate
  /\ (p = ProductPL \/ p = ProductSF ->
      Calculation.TotalIncome c'
      = SalaryBreakdown.Total (Calculation.SalaryBreakdown c')).
Proof.
  intros Hp. apply populate_Ok in Hp.
  destruct Hp as (src & ab & cb & tbs & toi & mai & mni
                  & E1 & E2 & E3 & E4 & E5 & E6 & E7 & ->).
  cbn [Calculation.Source Calculation.TotalBasicSalary Calculation.AllowanceBreakdown
       Calculation.CommissionBreakdown Calculation.TotalOtherIncome
       Calculation.MonthlyNetIncome Calculation.MonthlyAverageIncome
       Calculation.PeriodInMonth Calculation.ExchangeRate Calculation.TotalIncome
       Calculation.SalaryBreakdown].
  unfold newSourceIncome, averageAllowance, averageCommission in E1.
  rewrite E2, E3 in E1. cbn [mbind outcome_bind] in E1. rewrite E4 in E1.
  cbn [mbind outcome_bind] in E1.
  apply bind_Ok in E1. destruct E1 as (bs & _ & [= <-]). cbn.
  repeat split.
  - now apply totalOtherIncome_nonneg with m period.
  - now apply netIncomeMonthly_Ok with m p.
  - intros Hpl. unfold toListMonthlySalaries, totalIncome.
    destruct Hpl as [-> | ->];
      now destruct (m !! sourceNames SourceSalary).
Qed.

End Summary.

Lemma populate_summary_agrees_with_breakdowns_witness :
  exists c',
    populate (H := Sample.library) Sample.pending ProductPL (decimal.NewFromInt 3)
      (decimal.NewFromInt 1) Sample.threeMonths = Ok c'
    /\ Breakdown.Total (Source.BasicSalary (Calculation.Source c'))
       = Calculation.TotalBasicSalary c'
    /\ Calculation.TotalIncome c'
       = SalaryBreakdown.Total (Calculation.SalaryBreakdown c').
Proof.
  eexists. split; [vm_compute; reflexivity|].
  assert (Hp : populate (H := Sample.library) Sample.pending ProductPL
                 (decimal.NewFromInt 3) (decimal.NewFromInt 1) Sample.threeMonths
               = Ok _) by (vm_compute; reflexivity).
  pose proof (populate_summary_agrees_with_breakdowns (H := Sample.library)
                _ _ _ _ _ _ Hp) as Hs.
  split; [exact (proj1 Hs)|].
  apply (proj2 (proj2 (proj2 (proj2 (proj2 (proj2 (proj2 (proj2 (proj2 (proj2 Hs)))))))))).
  now left.
Defined.

(** ** What a successful calculation guarantees *)

Section Postconditions.

Context `{Library} {W : Type} `{Backend W}.

Import decimal.

Lemma wrap_Ok {A} (msg : string) (o : outcome A) (a : A) :
  wrap msg o = Ok a -> o = Ok a.
Proof. now destruct o. Qed.

Lemma calculateIncomeFromStatementFile_Ok (w : W) (by_ : string) (now : Time)
    (cal : CalculateReq.t) (wordlists : list Wordlist.t)
    (statement : StatementFile.t) (c : Calculation.t) :
  calculateIncomeFromStatementFile w by_ now cal wordlists statement = Ok c ->
  exists f a7 a9 a10 a11 from to currency rows,
    OpenFile w (StatementFile.Location statement) = Ok f
    /\ GetCellValue f sheetName "A7" = Ok a7
    /\ extractPeriod a7 = Ok (from, to)
    /\ GetCellValue f sheetName "A9" = Ok a9
    /\ GetCellValue f sheetName "A10" = Ok a10
    /\ GetCellValue f sheetName "A11" = Ok a11
    /\ extractAccount a9 <> ""
    /\ extractAccount a10 <> ""
    /\ String.length (strings.TrimSpace (extractAccount a11)) = 3%nat
    /\ GetCurrencyByCode w (extractAccount a11) = Ok currency
    /\ Rows f sheetName = Ok rows
    /\ populate
         (setHeader
            (newCalculation by_ now (CalculateReq.Number cal)
               (StatementFile.Name statement) (CalculateReq.Product cal))
            from to
            (Account.mk (extractAccount a9) (extractAccount a10) (extractAccount a11)))
         (CalculateReq.Product cal) (countMonth from to)
         (Currency.ExchangeRate currency)
         (fold_left (addRow wordlists) rows ∅)
       = Ok c.
Proof.
  unfold calculateIncomeFromStatementFile. intros Hc.
  apply bind_Ok in Hc. destruct Hc as (f & Ef & Hc). apply wrap_Ok in Ef.
  apply bind_Ok in Hc. destruct Hc as (a7 & E7 & Hc). apply wrap_Ok in E7.
  apply bind_Ok in Hc. destruct Hc as ([from to] & Ep & Hc).
  apply bind_Ok in Hc. destruct Hc as (a9 & E9 & Hc). apply wrap_Ok in E9.
  apply bind_Ok in Hc. destruct Hc as (a10 & E10 & Hc). apply wrap_Ok in E10.
  apply bind_Ok in Hc. destruct Hc as (a11 & E11 & Hc). apply wrap_Ok in E11.
  cbn [Account.Number Account.DisplayName Account.Currency] in Hc.
  destruct (String.length (extractAccount a9) =? 0)%nat eqn:H9; [discriminate|].
  destruct (String.length (extractAccount a10) =? 0)%nat eqn:H10; [discriminate|].
  destruct (String.length (strings.TrimSpace (extractAccount a11)) =? 3)%nat eqn:H11;
    [|discriminate].
  cbn [orb negb] in Hc.
  apply bind_Ok in Hc. destruct Hc as (currency & Ec & Hc).
  apply bind_Ok in Hc. destruct Hc as (rows & Er & Hc). apply wrap_Ok in Er.
  exists f, a7, a9, a10, a11, from, to, currency, rows.
  repeat split; try assumption.
  - intros E0. rewrite E0 in H9. discriminate.
  - intros E0. rewrite E0 in H10. discriminate.
  - now apply Nat.eqb_eq.
Qed.

Lemma CalculateReq_Validate_None (req : CalculateReq.t) :
  CalculateReq_Validate req = None ->
  CalculateReq.Number req <> ""
  /\ CalculateReq.Product req <> ProductUnSpecified
  /\ CalculateReq.StatementFileName req <> "".
Proof.
  unfold CalculateReq_Validate.
  destruct (String.length (CalculateReq.Number req) =? 0)%nat eqn:E1; [discriminate|].
  destruct (bool_decide (CalculateReq.Product req = ProductUnSpecified)) eqn:E2;
    [discriminate|].
  destruct (String.length (CalculateReq.StatementFileName req) =? 0)%nat eqn:E3;
    [discriminate|].
  intros _. repeat split.
  - intros E. rewrite E in E1. discriminate.
  - now apply bool_decide_eq_false in E2.
  - intros E. rewrite E in E3. discriminate.
Qed.

(** X6: a calculation that [CalculateIncome] returns was requested under a
    number that was not taken, for a named product and an existing
    statement file; it is pending, stamped with the caller and the time of
    the call, carries the number, the product and the file name of the
    request, an account whose number and display name are not empty and
    whose currency code is 3 bytes long and known to the currency service,
    whose rate it uses; its period is the month count between its start and
    end dates; and it is the calculation that was handed to the store. *)
Theorem CalculateIncome_postconditions (w w' : W) (by_ : string) (now : Time)
    (req : CalculateReq.t) (c : Calculation.t) :
  CalculateIncome w by_ now req = (Ok c, w') ->
  isCalculationExists w (CalculateReq.Number req) = Ok false
  /\ CalculateReq.Number req <> ""
  /\ CalculateReq.Product req <> ProductUnSpecified
  /\ (exists statementFile,
        getStatementFileByName w (CalculateReq.StatementFileName req)
        = Ok statementFile
        /\ Calculation.StatementFileName c = StatementFile.Name statementFile)
  /\ Calculation.Number c = CalculateReq.Number req
  /\ Calculation.Product c = CalculateReq.Product req
  /\ Calculation.Status c = StatusPending
  /\ Calculation.CreatedBy c = by_
  /\ Calculation.UpdatedBy c = by_
  /\ Calculation.CreatedAt c = now
  /\ Calculation.UpdatedAt c = now
  /\ Account.Number (Calculation.Account c) <> ""
  /\ Account.DisplayName (Calculation.Account c) <> ""
  /\ String.length (strings.TrimSpace (Account.Currency (Calculation.Account c)))
     = 3%nat
  /\ (exists currency,
        GetCurrencyByCode w (Account.Currency (Calculation.Account c)) = Ok currency
        /\ Calculation.ExchangeRate c = Currency.ExchangeRate currency)
  /\ Calculation.PeriodInMonth c
     = countMonth (Calculation.StartedAt c) (Calculation.EndedAt c)
  /\ exists c0 id,
      saveCalculationIncome w c0 = Ok (w', id) /\ c = scanID c0 id.
Proof.
  unfold CalculateIncome.
  destruct (CalculateReq_Validate req) as [e|] eqn:Ev; [discriminate|].
  apply CalculateReq_Validate_None in Ev. destruct Ev as (Hn & Hp & _).
  destruct (isCalculationExists w _) as [[|]| |] eqn:Ex; try discriminate.
  destruct (getStatementFileByName w _) as [sf|e|] eqn:Es;
    [|destruct e; discriminate|discriminate].
  destruct (listWordlists w) as [wordlists| |]; try discriminate.
  destruct (calculateIncomeFromStatementFile _ _ _ _ _ _) as [c0| |] eqn:Ec;
    try discriminate.
  destruct (saveCalculationIncome w c0) as [[w1 id]| |] eqn:Esave; try discriminate.
  intros [= <- <-].
  apply calculateIncomeFromStatementFile_Ok in Ec.
  destruct Ec as (f & a7 & a9 & a10 & a11 & from & to & currency & rows
                  & _ & _ & _ & _ & _ & _ & H9 & H10 & H11 & Hcur & _ & Hpop).
  apply populate_Ok in Hpop.
  destruct Hpop as (src & ab & cb & tbs & toi & mai & mni
                    & _ & _ & _ & _ & _ & _ & _ & ->).
  destruct id as [i|]; cbn [scanID];
    cbn [Calculation.StatementFileName Calculation.Number Calculation.Product
         Calculation.Status Calculation.CreatedBy Calculation.UpdatedBy
         Calculation.CreatedAt Calculation.UpdatedAt Calculation.Account
         Calculation.ExchangeRate Calculation.PeriodInMonth Calculation.StartedAt
         Calculation.EndedAt setHeader newCalculation Account.Number
         Account.DisplayName Account.Currency];
    repeat match goal with |- _ /\ _ => split end;
    try reflexivity; try assumption;
    try (now exists sf); try (now exists currency);
    (eexists _, _; split; [exact Esave | reflexivity]).
Qed.

End Postconditions.

Lemma CalculateIncome_postconditions_witness :
  exists c w',
    CalculateIncome (H := Sample.library) (H0 := Sample.backend) Sample.world
      "officer" (time.Date 2025 4 2) (CalculateReq.mk "N-002" ProductPL "statement.xlsx")
    = (Ok c, w')
    /\ Calculation.Status c = StatusPending
    /\ Calculation.PeriodInMonth c
       = countMonth (Calculation.StartedAt c) (Calculation.EndedAt c).
Proof.
  eexists. eexists. split; [vm_compute; reflexivity|].
  assert (Hc : CalculateIncome (H := Sample.library) (H0 := Sample.backend)
                 Sample.world "officer" (time.Date 2025 4 2)
                 (CalculateReq.mk "N-002" ProductPL "statement.xlsx")
               = (Ok _, _)) by (vm_compute; reflexivity).
  pose proof (CalculateIncome_postconditions (H := Sample.library)
                (H0 := Sample.backend) _ _ _ _ _ _ Hc) as Hs.
  split; [apply Hs|].
  apply (proj1 (proj2 (proj2 (proj2 (proj2 (proj2 (proj2 (proj2 (proj2 (proj2
           (proj2 (proj2 (proj2 (proj2 (proj2 (proj2 Hs)))))))))))))))).
Defined.

(** ** Statements within one calendar month *)

Section SingleMonth.

Context `{Library}.

Import decimal.

Lemma NewFromInt_Zero_iff (n : Z) : NewFromInt n = Zero <-> n = 0.
Proof.
  unfold NewFromInt, Zero. rewrite Q2Qc_eq_iff. unfold Qeq, inject_Z. cbn. lia.
Qed.

Lemma NewFromInt_nonneg (n : Z) : 0 <= n -> (Zero <= NewFromInt n)%Qc.
Proof.
  intros Hn. unfold NewFromInt, Zero, Qcle. cbn [this Q2Qc].
  rewrite !Qred_correct. unfold Qle, inject_Z. cbn. lia.
Qed.

Lemma countMonth_Zero_iff (from to : Time) :
  validMonth from -> validMonth to ->
  countMonth from to = Zero
  <-> time.Before to from = true
      \/ (time.Year to = time.Year from /\ time.Month to = time.Month from).
Proof.
  unfold validMonth. intros Hf Ht. unfold countMonth.
  destruct (time.Before to from) eqn:Eb.
  - split; auto.
  - apply Before_false_months in Eb. rewrite NewFromInt_Zero_iff. split.
    + intros E. right. lia.
    + intros [E | [-> ->]]; [discriminate | lia].
Qed.

(** X7: the month count of a period is never negative, and it is 0 exactly
    when the end date is before the start date or lies in the calendar
    month of the start date; so for a statement whose period stays within
    one calendar month the total basic salary, the total other income and
    the monthly net income are all 0, whatever its rows hold. *)
Theorem single_month_period_counts_zero (from to : Time) :
  validMonth from -> validMonth to ->
  (Zero <= countMonth from to)%Qc
  /\ (countMonth from to = Zero
      <-> time.Before to from = true
          \/ (time.Year to = time.Year from /\ time.Month to = time.Month from))
  /\ (time.Year to = time.Year from -> time.Month to = time.Month from ->
      forall c c' p exchangeRate m,
        populate c p (countMonth from to) exchangeRate m = Ok c' ->
        Calculation.PeriodInMonth c' = Zero
        /\ Calculation.TotalBasicSalary c' = Zero
        /\ Calculation.TotalOtherIncome c' = Zero
        /\ Calculation.MonthlyNetIncome c' = Zero).
Proof.
  intros Hf Ht. pose proof (countMonth_Zero_iff from to Hf Ht) as Hz.
  split; [|split; [exact Hz|]].
  - unfold countMonth. destruct (time.Before to from) eqn:Eb; [apply Qcle_refl|].
    apply Before_false_months in Eb. unfold validMonth in *.
    apply NewFromInt_nonneg. lia.
  - intros Ey Em c c' p exchangeRate m.
    rewrite (proj2 Hz (or_intror (conj Ey Em))). intros Hp.
    apply populate_Ok in Hp.
    destruct Hp as (src & ab & cb & tbs & toi & mai & mni
                    & _ & _ & _ & E4 & E5 & _ & E7 & ->).
    cbn [Calculation.PeriodInMonth Calculation.TotalBasicSalary
         Calculation.TotalOtherIncome Calculation.MonthlyNetIncome].
    unfold totalBasicSalary in E4. unfold totalOtherIncome in E5.
    unfold netIncomeMonthly in E7. rewrite IsZero_Zero in E4, E5, E7.
    injection E4 as <-. injection E5 as <-. injection E7 as <-. auto.
Qed.

End SingleMonth.

Lemma single_month_period_counts_zero_witness :
  countMonth (time.Date 2025 1 1) (time.Date 2025 1 31) = decimal.Zero
  /\ forall c c' p exchangeRate m,
      populate (H := Sample.library) c p
        (countMonth (time.Date 2025 1 1) (time.Date 2025 1 31)) exchangeRate m = Ok c' ->
      Calculation.MonthlyNetIncome c' = decimal.Zero.
Proof.
  assert (Hf : validMonth (time.Date 2025 1 1)) by (unfold validMonth; cbn; lia).
  assert (Ht : validMonth (time.Date 2025 1 31)) by (unfold validMonth; cbn; lia).
  pose proof (single_month_period_counts_zero (H := Sample.library) _ _ Hf Ht) as Hs.
  split.
  - apply (proj1 (proj2 Hs)). right. split; reflexivity.
  - intros c c' p exchangeRate m Hp.
    apply (proj2 (proj2 Hs) eq_refl eq_refl c c' p exchangeRate m Hp).
Defined.

(** ** The buckets of a statement *)

Section Buckets.

Context `{Library}.

Import decimal.

Lemma bucket_addIncome (m : statMap) (key0 b0 key b : string) (amount : Decimal)
    (t : Transaction.t) :
  bucket (addIncome m key0 b0 amount t) key b
  = bucket m key b
    ++ (if bool_decide ((key0, b0) = (key, b)) then [t] else []).
Proof.
  unfold bucket, addIncome.
  destruct (decide (key0 = key)) as [->|Hk].
  - rewrite lookup_insert_eq. cbn [statCal.Transactions]. unfold appendAt.
    destruct (decide (b0 = b)) as [->|Hb].
    + rewrite lookup_insert_eq, bool_decide_eq_true_2 by reflexivity. cbn [default].
      now destruct (m !! key) as [raw|]; cbn [default statCal.Transactions emptyStatCal];
        rewrite ?lookup_empty.
    + rewrite lookup_insert_ne by exact Hb.
      rewrite bool_decide_eq_false_2 by congruence. rewrite app_nil_r.
      now destruct (m !! key) as [raw|]; cbn [default statCal.Transactions emptyStatCal];
        rewrite ?lookup_empty.
  - rewrite lookup_insert_ne by exact Hk.
    rewrite bool_decide_eq_false_2 by congruence. now rewrite app_nil_r.
Qed.

Lemma bucket_setAverageMonth (m : statMap) (key0 title key b : string)
    (months : Decimal) :
  bucket (setAverageMonth m key0 title months) key b = bucket m key b.
Proof.
  unfold bucket, setAverageMonth.
  destruct (decide (key0 = key)) as [->|Hk].
  - rewrite lookup_insert_eq. cbn [statCal.Transactions].
    now destruct (m !! key) as [raw|]; cbn [default statCal.Transactions emptyStatCal];
      rewrite ?lookup_empty.
  - now rewrite lookup_insert_ne by exact Hk.
Qed.

Lemma bucket_addRow (wordlists : list Wordlist.t) (m : statMap) (row : list string)
    (key b : string) :
  bucket (addRow wordlists m row) key b
  = bucket m key b
    ++ List.filter (fun t => bool_decide (filedUnder wordlists t = Some (key, b)))
         (omap decodeRow [row]).
Proof.
  unfold addRow, decodeRow. cbn [omap list_omap].
  destruct (length row <=? 4)%nat; [now rewrite app_nil_r|].
  destruct (NewFromString _) as [amount|]; [|now rewrite app_nil_r].
  destruct (GreaterThan amount Zero); cbn [negb]; [|now rewrite app_nil_r].
  destruct (String.length _ =? 0)%nat; [now rewrite app_nil_r|].
  unfold getMonthWithYYYYMM.
  destruct (ParseDate _) as [date|]; [|now rewrite app_nil_r].
  cbn [List.filter app]. unfold filedUnder.
  cbn [Transaction.Noted Transaction.Date].
  destruct (matchWordlists _ _) as [[category title] matched].
  destruct matched; cbn [negb].
  - destruct category.
    + rewrite bool_decide_eq_false_2 by discriminate. now rewrite app_nil_r.
    + rewrite bucket_addIncome. f_equal.
      destruct (decide ((sourceNames SourceSalary, FormatMonth date) = (key, b)))
        as [E|E].
      * rewrite !bool_decide_eq_true_2; congruence.
      * rewrite !bool_decide_eq_false_2; congruence.
    + rewrite bucket_addIncome, bucket_setAverageMonth. f_equal.
      destruct (decide ((sourceNames SourceAllowance, title) = (key, b))) as [E|E].
      * rewrite !bool_decide_eq_true_2; congruence.
      * rewrite !bool_decide_eq_false_2; congruence.
    + rewrite bucket_addIncome. f_equal.
      destruct (decide ((sourceNames SourceCommission, FormatMonth date) = (key, b)))
        as [E|E].
      * rewrite !bool_decide_eq_true_2; congruence.
      * rewrite !bool_decide_eq_false_2; congruence.
    + rewrite bool_decide_eq_false_2 by discriminate. now rewrite app_nil_r.
  - rewrite bool_decide_eq_false_2; [now rewrite app_nil_r|].
    now destruct category.
Qed.

Lemma bucket_rows (wordlists : list Wordlist.t) (rows : list (list string))
    (m : statMap) (key b : string) :
  bucket (fold_left (addRow wordlists) rows m) key b
  = bucket m key b
    ++ List.filter (fun t => bool_decide (filedUnder wordlists t = Some (key, b)))
         (omap decodeRow rows).
Proof.
  revert m. induction rows as [|row rows IH]; intros m.
  - cbn. now rewrite app_nil_r.
  - cbn [fold_left]. rewrite IH, bucket_addRow, <- app_assoc, <- List.filter_app.
    do 2 f_equal. change (row :: rows) with ([row] ++ rows).
    now rewrite omap_app.
Qed.

(** X8: the pass over a statement files every transaction it reads in
    exactly the bucket its classification names and nowhere else: each
    bucket of the result holds, in the order of the rows, the transactions
    of the statement (rows of five cells or more with a positive amount, a
    memo and a date) that the wordlists file under it. *)
Theorem statement_buckets_hold_the_filed_transactions
    (wordlists : list Wordlist.t) (rows : list (list string)) (key b : string) :
  bucket (fold_left (addRow wordlists) rows ∅) key b
  = List.filter (fun t => bool_decide (filedUnder wordlists t = Some (key, b)))
      (omap decodeRow rows).
Proof.
  rewrite bucket_rows. unfold bucket. now rewrite lookup_empty.
Qed.

End Buckets.

(** ** Listing the transactions of a statement *)

Section Listing.

Context `{Library} {W : Type} `{Backend W}.

Import decimal.

Lemma listRow_spec (month : string) (wordlists : list Wordlist.t)
    (txs : list Transaction.t) (row : list string) :
  listRow month wordlists txs row
  = txs
    ++ List.filter
         (fun t => (matchWordlists (Transaction.Noted t) wordlists).2
                   && String.eqb (FormatMonth (Transaction.Date t)) month)
         (omap decodeRow [row]).
Proof.
  unfold listRow, decodeRow. cbn [omap list_omap].
  replace (4 <? length row)%nat with (negb (length row <=? 4)%nat)
    by (destruct (Nat.leb_spec (length row) 4), (Nat.ltb_spec 4 (length row));
        try reflexivity; lia).
  destruct (length row <=? 4)%nat; cbn [negb]; [now rewrite app_nil_r|].
  destruct (NewFromString _) as [amount|]; [|now rewrite app_nil_r].
  destruct (GreaterThan amount Zero); cbn [andb]; [|now rewrite app_nil_r].
  replace (0 <? String.length (nth 2 row ""))%nat
    with (negb (String.length (nth 2 row "") =? 0)%nat)
    by (now destruct (String.length (nth 2 row ""))).
  destruct (String.length (nth 2 row "") =? 0)%nat; cbn [negb];
    [now rewrite app_nil_r|].
  destruct (ParseDate _) as [date|].
  - cbn [List.filter Transaction.Noted Transaction.Date].
    destruct (matchWordlists (nth 2 row "") wordlists).2; cbn [andb];
      [|now rewrite app_nil_r].
    destruct (String.eqb _ _); [reflexivity | now rewrite app_nil_r].
  - now destruct (matchWordlists (nth 2 row "") wordlists).2; rewrite app_nil_r.
Qed.

Lemma listRows_spec (month : string) (wordlists : list Wordlist.t)
    (rows : list (list string)) (txs : list Transaction.t) :
  fold_left (listRow month wordlists) rows txs
  = txs
    ++ List.filter
         (fun t => (matchWordlists (Transaction.Noted t) wordlists).2
                   && String.eqb (FormatMonth (Transaction.Date t)) month)
         (omap decodeRow rows).
Proof.
  revert txs. induction rows as [|row rows IH]; intros txs.
  - cbn. now rewrite app_nil_r.
  - cbn [fold_left]. rewrite IH, listRow_spec, <- app_assoc, <- List.filter_app.
    do 2 f_equal. change (row :: rows) with ([row] ++ rows).
    now rewrite omap_app.
Qed.

Lemma matchLoop_ofCategory (target : string) (wordlists : list Wordlist.t)
    (category : source) (title : string) :
  matchLoop target wordlists = (category, title, true) ->
  matchLoop target (ofCategory category wordlists) = (category, title, true).
Proof.
  induction wordlists as [|w rest IH]; cbn [matchLoop ofCategory List.filter].
  - discriminate.
  - destruct (matchWord target (strings.TrimSpace (Wordlist.Word w))) eqn:Em.
    + intros [= <- <-]. rewrite bool_decide_eq_true_2 by reflexivity.
      cbn [matchLoop]. now rewrite Em.
    + intros Hr. specialize (IH Hr). unfold ofCategory in IH.
      destruct (bool_decide _); [|exact IH].
      cbn [matchLoop]. now rewrite Em.
Qed.

Lemma filedUnder_category (wordlists : list Wordlist.t) (t : Transaction.t)
    (category : source) (b : string) :
  filedUnder wordlists t = Some (sourceNames category, b) ->
  exists title,
    matchWordlists (Transaction.Noted t) wordlists = (category, title, true).
Proof.
  unfold filedUnder.
  destruct (matchWordlists _ _) as [[c title] matched].
  destruct c, matched; try discriminate; destruct category; try discriminate;
    intros _; now exists title.
Qed.

Lemma filter_filter_implied {A} (P Q : A -> bool) (l : list A) :
  (forall x, P x = true -> Q x = true) ->
  List.filter P (List.filter Q l) = List.filter P l.
Proof.
  intros HPQ. induction l as [|x l IH]; [reflexivity|]. cbn.
  destruct (Q x) eqn:Eq; cbn.
  - now rewrite IH.
  - destruct (P x) eqn:Ep; [|exact IH]. apply HPQ in Ep. congruence.
Qed.

(** X9: the listing of a statement for a category and a month returns, in
    the order of the rows, the transactions of that month whose memo
    matches an entry of the category; it shows every transaction that the
    calculation over the same rows filed under the category in that month,
    and the salary or commission bucket of the month is the listing
    restricted to the transactions the whole wordlist files there. *)
Theorem listing_shows_the_aggregated_transactions (w : W)
    (txReq : TransactionReq.t) (wordlists : list Wordlist.t) (category : source)
    (statement : StatementFile.t) (f : File) (rows : list (list string)) :
  OpenFile w (StatementFile.Location statement) = Ok f ->
  Rows f sheetName = Ok rows ->
  exists txs,
    listTransactionFromStatementFile w txReq (ofCategory category wordlists) statement
    = Ok txs
    /\ txs
       = List.filter
           (fun t =>
              (matchWordlists (Transaction.Noted t) (ofCategory category wordlists)).2
              && String.eqb (FormatMonth (Transaction.Date t))
                   (mmyyyy_String (TransactionReq.Month txReq)))
           (omap decodeRow rows)
    /\ (forall b t,
          In t (bucket (fold_left (addRow wordlists) rows ∅) (sourceNames category) b) ->
          FormatMonth (Transaction.Date t) = mmyyyy_String (TransactionReq.Month txReq) ->
          In t txs)
    /\ (category = SourceSalary \/ category = SourceCommission ->
        bucket (fold_left (addRow wordlists) rows ∅) (sourceNames category)
          (mmyyyy_String (TransactionReq.Month txReq))
        = List.filter
            (fun t =>
               bool_decide
                 (filedUnder wordlists t
                  = Some (sourceNames category,
                          mmyyyy_String (TransactionReq.Month txReq))))
            txs).
Proof.
  intros Ef Er. eexists. split; [|split; [reflexivity|split]].
  - unfold listTransactionFromStatementFile. rewrite Ef. cbn. rewrite Er. cbn.
    now rewrite listRows_spec.
  - intros b t. rewrite bucket_rows. unfold bucket at 1. rewrite lookup_empty.
    cbn [app]. rewrite !filter_In. intros [Hin Hf] Hm. split; [exact Hin|].
    apply bool_decide_eq_true in Hf. apply filedUnder_category in Hf.
    destruct Hf as [title Hf]. apply matchLoop_ofCategory in Hf.
    unfold matchWordlists. rewrite Hf. cbn. now apply String.eqb_eq.
  - intros Hc. rewrite bucket_rows. unfold bucket at 1. rewrite lookup_empty.
    cbn [app]. symmetry. apply filter_filter_implied. intros t Hf.
    apply bool_decide_eq_true in Hf.
    assert (Hm : FormatMonth (Transaction.Date t)
                 = mmyyyy_String (TransactionReq.Month txReq)).
    { unfold filedUnder in Hf.
      destruct (matchWordlists _ wordlists) as [[c title] matched].
      destruct Hc as [-> | ->]; destruct c, matched; try discriminate;
        now injection Hf. }
    apply filedUnder_category in Hf. destruct Hf as [title Hf].
    apply matchLoop_ofCategory in Hf.
    unfold matchWordlists. rewrite Hf. cbn. now apply String.eqb_eq.
Qed.

End Listing.

Lemma listing_shows_the_aggregated_transactions_witness :
  let txReq := TransactionReq.mk "N-001" SourceSalary (time.Date 2025 2 1) in
  exists txs,
    listTransactionFromStatementFile (H := Sample.library) (H0 := Sample.backend)
      Sample.world txReq (ofCategory SourceSalary Sample.wordlist)
      (StatementFile.mk "statement.xlsx" "/files/1")
    = Ok txs
    /\ bucket (fold_left (addRow (H := Sample.library) Sample.wordlist) Sample.rows ∅)
         (sourceNames SourceSalary) "February-2025"
       = List.filter
           (fun t =>
              bool_decide
                (filedUnder (H := Sample.library) Sample.wordlist t
                 = Some (sourceNames SourceSalary, "February-2025")))
           txs.
Proof.
  intros txReq.
  destruct (listing_shows_the_aggregated_transactions (H := Sample.library)
              (H0 := Sample.backend) Sample.world txReq Sample.wordlist SourceSalary
              (StatementFile.mk "statement.xlsx" "/files/1") Sample.sheet Sample.rows
              eq_refl eq_refl) as (txs & E & _ & _ & Hb).
  exists txs. split; [exact E|]. apply Hb. now left.
Defined.

(** ** Looking a transaction up by its bill number *)

Section BillNumber.

Context `{Library} {W : Type} `{Backend W}.

Import decimal.

Lemma findByBillNumber_spec (billNumber : string) (rows : list (list string)) :
  findByBillNumber billNumber rows
  = List.find (billMatches billNumber) (omap decodeRow rows).
Proof.
  induction rows as [|row rows IH]; [reflexivity|].
  change (row :: rows) with ([row] ++ rows) at 2. rewrite omap_app.
  cbn [findByBillNumber]. unfold decodeRow at 1. cbn [omap list_omap].
  replace (4 <? length row)%nat with (negb (length row <=? 4)%nat)
    by (destruct (Nat.leb_spec (length row) 4), (Nat.ltb_spec 4 (length row));
        try reflexivity; lia).
  destruct (length row <=? 4)%nat; cbn [negb]; [exact IH|].
  destruct (NewFromString _) as [amount|]; [|exact IH].
  destruct (GreaterThan amount Zero); cbn [andb]; [|exact IH].
  replace (0 <? String.length (nth 2 row ""))%nat
    with (negb (String.length (nth 2 row "") =? 0)%nat)
    by (now destruct (String.length (nth 2 row ""))).
  destruct (String.length (nth 2 row "") =? 0)%nat; cbn [negb]; [exact IH|].
  destruct (ParseDate _) as [date|].
  - cbn [app find]. unfold billMatches at 1. cbn [Transaction.BillNumber].
    destruct (String.eqb _ _); [reflexivity | exact IH].
  - cbn [app]. now destruct (String.eqb _ _).
Qed.

Lemma billMatches_refl (t : Transaction.t) :
  billMatches (Transaction.BillNumber t) t = true.
Proof. unfold billMatches. apply String.eqb_refl. Qed.

Lemma find_first {A} (P : A -> bool) (l : list A) (x : A) :
  In x l -> P x = true ->
  exists pre y post,
    l = pre ++ y :: post /\ find P l = Some y /\ P y = true
    /\ Forall (fun z => P z = false) pre.
Proof.
  induction l as [|z l IH]; [intros []|]. intros Hin Hx. cbn [find].
  destruct (P z) eqn:Ez.
  - exists [], z, l. repeat split; auto.
  - destruct Hin as [-> | Hin]; [congruence|].
    destruct (IH Hin Hx) as (pre & y & post & -> & Ef & Ey & Hpre).
    exists (z :: pre), y, post. repeat split; auto.
Qed.

(** X10: the lookup by bill number returns the first transaction of the
    statement (a row of five cells or more with a positive amount, a memo
    and a date) whose bill number is the one asked for up to letter case
    and surrounding white space, and refuses with a permission error when
    there is none; so every transaction that the calculation over the same
    rows filed in a bucket can be looked up by its bill number, provided
    that number is not empty, and the answer is a transaction with that
    bill number standing at or before it in the statement. *)
Theorem bill_number_lookup_finds_the_first_match (w : W)
    (req : GetTransactionReq.t) (calculation : Calculation.t)
    (statementFile : StatementFile.t) (f : File) (rows : list (list string)) :
  GetTransactionReq.Number req <> "" ->
  GetTransactionReq.BillNumber req <> "" ->
  getCalculation w (GetTransactionReq.Number req) = Ok calculation ->
  getStatementFileByName w (Calculation.StatementFileName calculation)
  = Ok statementFile ->
  OpenFile w (StatementFile.Location statementFile) = Ok f ->
  Rows f sheetName = Ok rows ->
  GetIncomeTransactionByBillNumber w req
  = match List.find (billMatches (GetTransactionReq.BillNumber req))
            (omap decodeRow rows) with
    | Some t => Ok t
    | None =>
        Err (RpcStatus PermissionDenied
               "You are not allowed to this resource or (it may not exist)")
    end
  /\ forall wordlists key b t,
      In t (bucket (fold_left (addRow wordlists) rows ∅) key b) ->
      Transaction.BillNumber t = GetTransactionReq.BillNumber req ->
      exists pre t' post,
        omap decodeRow rows = pre ++ t' :: post
        /\ GetIncomeTransactionByBillNumber w req = Ok t'
        /\ billMatches (Transaction.BillNumber t) t' = true
        /\ Forall (fun z => billMatches (Transaction.BillNumber t) z = false) pre.
Proof.
  intros Hn Hb Ec Es Ef Er.
  assert (Hget : GetIncomeTransactionByBillNumber w req
                 = match List.find (billMatches (GetTransactionReq.BillNumber req))
                         (omap decodeRow rows) with
                   | Some t => Ok t
                   | None =>
                       Err (RpcStatus PermissionDenied
                              "You are not allowed to this resource or (it may not exist)")
                   end).
  { unfold GetIncomeTransactionByBillNumber, GetTransactionReq_Validate.
    destruct (GetTransactionReq.Number req) as [|c1 s1] eqn:E1; [congruence|].
    destruct (GetTransactionReq.BillNumber req) as [|c2 s2] eqn:E2; [congruence|].
    cbn [String.length Nat.eqb orb]. rewrite Ec, Es, Ef. cbn. rewrite Er. cbn.
    now rewrite findByBillNumber_spec. }
  split; [exact Hget|].
  intros wordlists key b t Hin Hbill. rewrite bucket_rows in Hin.
  unfold bucket in Hin at 1. rewrite lookup_empty in Hin. cbn [app] in Hin.
  apply filter_In in Hin. destruct Hin as [Hin _].
  destruct (find_first (billMatches (Transaction.BillNumber t)) _ t Hin
              (billMatches_refl t)) as (pre & t' & post & E & Efind & Ht & Hpre).
  exists pre, t', post. repeat split; auto.
  rewrite Hget, <- Hbill, Efind. reflexivity.
Qed.

End BillNumber.

Lemma bill_number_lookup_finds_the_first_match_witness :
  exists t,
    GetIncomeTransactionByBillNumber (H := Sample.library) (H0 := Sample.backend)
      Sample.world (GetTransactionReq.mk "N-001" " b3 ")
    = Ok t
    /\ Transaction.BillNumber t = "B3"
    /\ Transaction.Noted t = "Salary Feb part 1".
Proof.
  eexists. split.
  - rewrite (proj1 (bill_number_lookup_finds_the_first_match (H := Sample.library)
                      (H0 := Sample.backend) Sample.world
                      (GetTransactionReq.mk "N-001" " b3 ") Sample.pending
                      (StatementFile.mk "statement.xlsx" "/files/1") Sample.sheet
                      Sample.rows ltac:(discriminate) ltac:(discriminate)
                      eq_refl eq_refl eq_refl eq_refl)).
    vm_compute. reflexivity.
  - split; reflexivity.
Defined.

(** ** The text forms of a product *)

Section ProductText.

Lemma substring_prefix (s t : string) :
  String.substring 0 (String.length s) (s ++ t)%string = s.
Proof.
  induction s as [|c s IH]; simpl; [now destruct t | f_equal; exact IH].
Qed.

Lemma length_append (s t : string) :
  String.length (s ++ t)%string = (String.length s + String.length t)%nat.
Proof. induction s as [|c s IH]; simpl; [reflexivity | f_equal; exact IH]. Qed.

Lemma unquote (s : string) :
  String.substring 1 (String.length (quote ++ s ++ quote)%string - 2)
    (quote ++ s ++ quote)%string
  = s.
Proof.
  change (quote ++ s ++ quote)%string
    with (String (ascii_of_nat 34) (s ++ quote)%string).
  cbn [String.length]. rewrite length_append.
  replace (S (String.length s + String.length quote) - 2)%nat
    with (String.length s) by (cbn; lia).
  cbn [String.substring]. apply substring_prefix.
Qed.

Lemma productNames_None (n : Z) : n < 0 \/ 3 < n -> productNames n = None.
Proof.
  intros Hn. unfold productNames.
  destruct (Z.eqb_spec n 0); [lia|]. destruct (Z.eqb_spec n 1); [lia|].
  destruct (Z.eqb_spec n 2); [lia|]. destruct (Z.eqb_spec n 3); [lia|].
  reflexivity.
Qed.

(** X11: the JSON and the database text of a product read back as the same
    product for the four named products, whatever the variable held before;
    the text the package writes for any other number ("Product(n)") is
    refused by both readers with the "invalid product" error; the JSON
    [null] and a [nil] column leave the variable as it was. *)
Theorem product_text_round_trip (q : Z) :
  (forall p : product,
      product_UnmarshalJSON q (product_MarshalJSON (productInt p)) = Ok (productInt p)
      /\ product_Scan q (Some (product_Value (productInt p))) = Ok (productInt p))
  /\ (forall n : Z,
        n < 0 \/ 3 < n ->
        product_UnmarshalJSON q (product_MarshalJSON n)
        = Err (Errorf ("invalid product: Product(" ++ itoa n ++ ")"))
        /\ product_Scan q (Some (product_Value n))
           = Err (Errorf ("invalid product: Product(" ++ itoa n ++ ")")))
  /\ product_UnmarshalJSON q "null" = Ok q
  /\ product_Scan q None = Ok q.
Proof.
  split; [|split; [|split; reflexivity]].
  - intros p. destruct p; split; reflexivity.
  - intros n Hn. unfold product_MarshalJSON, product_Value, product_String.
    rewrite (productNames_None n Hn). split.
    + unfold product_UnmarshalJSON.
      rewrite unquote.
      change (String.eqb (quote ++ ("Product(" ++ itoa n ++ ")") ++ quote) "null")
        with false.
      cbn [String.length quote append Nat.ltb Nat.leb]. reflexivity.
    + reflexivity.
Qed.


Lemma of_uint_acc_value (d : Decimal.uint) (acc : positive) :
  Z.pos (Pos.of_uint_acc d acc)
  = Z.pos acc * 10 ^ Z.of_nat (Decimal.nb_digits d) + Z.of_N (Pos.of_uint d).
Proof.
  revert acc. induction d as [|d IH|d IH|d IH|d IH|d IH|d IH|d IH|d IH|d IH|d IH];
    intros acc;
    cbn [Pos.of_uint_acc Pos.of_uint Decimal.nb_digits];
    rewrite ?Nat2Z.inj_succ, ?Z.pow_succ_r by lia;
    cbn [Z.of_N]; rewrite ?IH; nia.
Qed.

Lemma of_uint_value (d : Decimal.uint) (acc : Z) :
  digitsValue acc (DecimalString.NilEmpty.string_of_uint d)
  = Some (acc * 10 ^ Z.of_nat (Decimal.nb_digits d) + Z.of_N (Pos.of_uint d)).
Proof.
  revert acc. induction d as [|d IH|d IH|d IH|d IH|d IH|d IH|d IH|d IH|d IH|d IH];
    intros acc;
    cbn [DecimalString.NilEmpty.string_of_uint digitsValue Pos.of_uint
         Decimal.nb_digits];
    [cbn; f_equal; lia|..];
    change (nat_of_ascii _) with 48%nat || change (nat_of_ascii _) with 49%nat
    || change (nat_of_ascii _) with 50%nat || change (nat_of_ascii _) with 51%nat
    || change (nat_of_ascii _) with 52%nat || change (nat_of_ascii _) with 53%nat
    || change (nat_of_ascii _) with 54%nat || change (nat_of_ascii _) with 55%nat
    || change (nat_of_ascii _) with 56%nat || change (nat_of_ascii _) with 57%nat;
    cbn [Nat.leb andb]; rewrite IH;
    replace (Z.of_nat (S (Decimal.nb_digits d)))
      with (Z.succ (Z.of_nat (Decimal.nb_digits d))) by lia;
    rewrite Z.pow_succ_r by lia;
    f_equal; cbn [Z.of_N]; rewrite ?of_uint_acc_value; nia.
Qed.

Lemma digitsValue_to_uint (p : positive) :
  digitsValue 0 (DecimalString.NilEmpty.string_of_uint (Pos.to_uint p))
  = Some (Z.pos p).
Proof.
  rewrite of_uint_value, DecimalPos.Unsigned.of_to. reflexivity.
Qed.

Lemma string_of_uint_digit (d : Decimal.uint) :
  d <> Decimal.Nil ->
  DecimalString.NilZero.string_of_uint d = DecimalString.NilEmpty.string_of_uint d
  /\ exists c s,
      DecimalString.NilEmpty.string_of_uint d = String c s
      /\ c <> "-"%char /\ c <> "+"%char.
Proof.
  intros Hd. destruct d; try congruence; (split; [reflexivity|]);
    cbn [DecimalString.NilEmpty.string_of_uint]; eexists _, _;
    (split; [reflexivity|]); split; discriminate.
Qed.

Lemma Atoi_digits (s : string) (c : ascii) (s' : string) (v : Z) :
  s = String c s' -> c <> "-"%char -> c <> "+"%char ->
  digitsValue 0 s = Some v ->
  Atoi s = if ((- 2 ^ 63 <=? v) && (v <=? 2 ^ 63 - 1))%bool then Some v else None.
Proof.
  intros -> Hm Hp Hv. unfold Atoi.
  destruct (Ascii.eqb_spec c "-"%char) as [->|_]; [congruence|].
  destruct (Ascii.eqb_spec c "+"%char) as [->|_]; [congruence|].
  assert (E : match String c s' with
              | String "-"%char r => (true, r)
              | String "+"%char r => (false, r)
              | _ => (false, String c s')
              end = (false, String c s')).
  { destruct c as [[] [] [] [] [] [] [] []]; try reflexivity; congruence. }
  rewrite E, Hv. reflexivity.
Qed.

Lemma Atoi_itoa (n : Z) :
  - 2 ^ 63 <= n <= 2 ^ 63 - 1 -> Atoi (itoa n) = Some n.
Proof.
  intros Hn. unfold itoa. destruct n as [|p|p].
  - reflexivity.
  - cbn [Z.to_int DecimalString.NilZero.string_of_int].
    destruct (string_of_uint_digit (Pos.to_uint p)) as (E & c & s & Es & Hm & Hp).
    { intros E0. pose proof (DecimalPos.Unsigned.of_to p) as Hof.
      rewrite E0 in Hof. discriminate. }
    rewrite E. rewrite (Atoi_digits _ c s (Z.pos p) Es Hm Hp (digitsValue_to_uint p)).
    destruct (Z.leb_spec (- 2 ^ 63) (Z.pos p)); [|lia].
    destruct (Z.leb_spec (Z.pos p) (2 ^ 63 - 1)); [|lia]. reflexivity.
  - cbn [Z.to_int DecimalString.NilZero.string_of_int].
    destruct (string_of_uint_digit (Pos.to_uint p)) as (E & c & s & Es & Hm & Hp).
    { intros E0. pose proof (DecimalPos.Unsigned.of_to p) as Hof.
      rewrite E0 in Hof. discriminate. }
    rewrite E. pose proof (digitsValue_to_uint p) as Hv. rewrite Es in Hv |- *.
    unfold Atoi. rewrite Hv. change (- Z.pos p) with (Z.neg p).
    destruct (Z.leb_spec (- 2 ^ 63) (Z.neg p)); [|lia].
    destruct (Z.leb_spec (Z.neg p) (2 ^ 63 - 1)); [|lia]. reflexivity.
Qed.

Lemma itoa_first (n : Z) :
  exists c s, itoa n = String c s
              /\ (c = "-"%char \/ (48 <= nat_of_ascii c <= 57)%nat).
Proof.
  unfold itoa. destruct n as [|p|p].
  - eexists _, _. split; [reflexivity|]. right. vm_compute. lia.
  - cbn [Z.to_int DecimalString.NilZero.string_of_int].
    assert (Hd : Pos.to_uint p <> Decimal.Nil).
    { intros E0. pose proof (DecimalPos.Unsigned.of_to p) as Hof.
      rewrite E0 in Hof. discriminate. }
    destruct (Pos.to_uint p); try congruence;
      eexists _, _; (split; [reflexivity|]); right; vm_compute; lia.
  - eexists _, _. split; [reflexivity|]. now left.
Qed.


Lemma productValues_other (c : ascii) (s : string) :
  c = "-"%char \/ (48 <= nat_of_ascii c <= 57)%nat ->
  productValues (String c s) = None.
Proof.
  intros Hc. unfold productValues. cbn [String.eqb].
  destruct (Ascii.eqb_spec c "U"%char) as [->|_];
    [destruct Hc as [Hc|Hc]; [discriminate | vm_compute in Hc; lia]|].
  destruct (Ascii.eqb_spec c "S"%char) as [->|_];
    [destruct Hc as [Hc|Hc]; [discriminate | vm_compute in Hc; lia]|].
  destruct (Ascii.eqb_spec c "P"%char) as [->|_];
    [destruct Hc as [Hc|Hc]; [discriminate | vm_compute in Hc; lia]|].
  reflexivity.
Qed.

(** X12: the JSON reader of a product accepts any integer of 64 bits
    written in quotes and stores it as it is, named or not; it does not
    check that the number is one of the four products.  Input shorter than
    two bytes makes it fault on the slice. *)
Theorem product_json_accepts_any_quoted_integer (q n : Z) :
  - 2 ^ 63 <= n <= 2 ^ 63 - 1 ->
  product_UnmarshalJSON q (quote ++ itoa n ++ quote)%string = Ok n
  /\ forall b, (String.length b < 2)%nat ->
               product_UnmarshalJSON q b = Panic "slice bounds out of range".
Proof.
  intros Hn. split.
  - unfold product_UnmarshalJSON. rewrite unquote.
    change (String.eqb (quote ++ itoa n ++ quote) "null") with false.
    change (quote ++ itoa n ++ quote)%string
      with (String (ascii_of_nat 34) (itoa n ++ quote)%string).
    cbn [String.length]. rewrite length_append.
    destruct (itoa_first n) as (c & s & E & Hc).
    rewrite (Atoi_itoa n Hn). rewrite E at 2. rewrite (productValues_other c s Hc).
    rewrite E. cbn [String.length quote Nat.add]. reflexivity.
  - intros b Hb. unfold product_UnmarshalJSON.
    destruct b as [|c1 [|c2 b]]; cbn in Hb; try lia; cbn [String.eqb String.length].
    + reflexivity.
    + now destruct (Ascii.eqb c1 "n"%char).
Qed.

End ProductText.

Lemma product_json_accepts_any_quoted_integer_witness :
  product_UnmarshalJSON 0 (quote ++ "7" ++ quote)%string = Ok 7.
Proof.
  apply (proj1 (product_json_accepts_any_quoted_integer 0 7 ltac:(lia))).
Defined.

(** ** Splitting and trimming *)

Section SplitFacts.

Import strings.

Lemma HasPrefix_empty (sep : string) : sep <> EmptyString -> HasPrefix "" sep = false.
Proof. now destruct sep. Qed.

Lemma Contains_empty (sep : string) : sep <> EmptyString -> Contains "" sep = false.
Proof. now destruct sep. Qed.

Lemma string_app_cons (x : ascii) (a b : string) :
  (String x a ++ b)%string = String x (a ++ b)%string.
Proof. reflexivity. Qed.

Lemma string_app_assoc (a b c : string) :
  ((a ++ b) ++ c)%string = (a ++ b ++ c)%string.
Proof.
  induction a as [|x a IH]; [reflexivity|]. rewrite !string_app_cons. now f_equal.
Qed.

Lemma string_app_nil_r (a : string) : (a ++ "")%string = a.
Proof.
  induction a as [|x a IH]; [reflexivity|]. rewrite string_app_cons. now f_equal.
Qed.

Lemma HasPrefix_app (s t p : string) :
  HasPrefix s p = true -> HasPrefix (s ++ t)%string p = true.
Proof.
  rewrite !HasPrefix_spec. intros [post ->]. exists (post ++ t)%string.
  apply string_app_assoc.
Qed.

(** Without an occurrence of the separator the string is the only piece. *)
Lemma splitFrom_single (sep s : string) :
  Contains s sep = false -> splitFrom sep 0 s = [s].
Proof.
  induction s as [|c s IH]; [reflexivity|].
  cbn [Contains splitFrom]. intros Hc. apply orb_false_iff in Hc.
  destruct Hc as [Hp Hc]. rewrite Hp, (IH Hc). reflexivity.
Qed.

(** A first piece is a prefix of the string, followed by nothing or by the
    separator. *)
Lemma splitFrom_head (sep s piece : string) (rest : list string) :
  sep <> EmptyString ->
  splitFrom sep 0 s = piece :: rest ->
  exists t, s = (piece ++ t)%string /\ (rest <> [] -> HasPrefix t sep = true).
Proof.
  intros Hsep E. pose proof (Join_splitFrom sep 0 s Hsep) as HJ.
  rewrite E in HJ. cbn [dropBytes] in HJ. destruct rest as [|r rest].
  - exists ""%string. cbn in HJ. subst s. split; [|congruence].
    now rewrite string_app_nil_r.
  - exists (sep ++ Join (r :: rest) sep)%string. split.
    + now rewrite <- HJ.
    + intros _. apply HasPrefix_spec. now eexists.
Qed.

(** With an occurrence there are at least two pieces. *)
Lemma splitFrom_several (sep s : string) :
  sep <> EmptyString ->
  Contains s sep = true ->
  exists piece r rest, splitFrom sep 0 s = piece :: r :: rest.
Proof.
  intros Hsep. induction s as [|c s IH]; cbn [Contains splitFrom].
  - destruct sep; [congruence | discriminate].
  - destruct (HasPrefix (String c s) sep) eqn:Hp.
    + intros _. destruct (splitFrom sep (String.length sep - 1) s) as [|r rest] eqn:E.
      * now apply splitFrom_nonempty in E.
      * now exists ""%string, r, rest.
    + cbn [orb]. intros Hc. destruct (IH Hc) as (piece & r & rest & ->).
      now exists (String c piece), r, rest.
Qed.

Lemma Split_single_iff (s sep : string) :
  sep <> EmptyString ->
  (exists piece, Split s sep = [piece]) <-> Contains s sep = false.
Proof.
  intros Hsep. split.
  - intros [piece E]. destruct (Contains s sep) eqn:Hc; [|reflexivity].
    destruct (splitFrom_several sep s Hsep Hc) as (p & r & rest & E').
    unfold Split in E. congruence.
  - intros Hc. exists s. now apply splitFrom_single.
Qed.

(** No piece holds the separator. *)
Lemma splitFrom_pieces (sep : string) (s : string) (k : nat) :
  sep <> EmptyString ->
  Forall (fun p => Contains p sep = false) (splitFrom sep k s).
Proof.
  intros Hsep. revert k. induction s as [|c s IH]; intros k; cbn [splitFrom].
  - constructor; [now apply Contains_empty | constructor].
  - destruct k as [|k]; [|apply IH].
    destruct (HasPrefix (String c s) sep) eqn:Hp.
    + constructor; [now apply Contains_empty | apply IH].
    + specialize (IH 0%nat).
      destruct (splitFrom sep 0 s) as [|piece rest] eqn:Es;
        [now apply splitFrom_nonempty in Es|].
      inversion IH as [|? ? Hpiece Hrest]; subst. constructor; [|exact Hrest].
      cbn [Contains]. rewrite Hpiece, orb_false_r.
      destruct (HasPrefix (String c piece) sep) eqn:Hq; [|reflexivity].
      destruct (splitFrom_head sep s piece rest Hsep Es) as (t & -> & _).
      apply (HasPrefix_app _ t) in Hq. rewrite string_app_cons in Hq. congruence.
Qed.

Lemma TrimLeft_length (s : string) :
  (String.length (TrimLeft s) <= String.length s)%nat.
Proof.
  induction s as [|c s IH]; cbn [TrimLeft String.length]; [lia|].
  destruct (isSpace c); cbn [String.length]; lia.
Qed.

Lemma TrimLeft_idem (s : string) : TrimLeft (TrimLeft s) = TrimLeft s.
Proof.
  induction s as [|c s IH]; [reflexivity|]. cbn [TrimLeft].
  destruct (isSpace c) eqn:E; [exact IH|]. cbn [TrimLeft]. now rewrite E.
Qed.

Lemma TrimRight_idem (s : string) : TrimRight (TrimRight s) = TrimRight s.
Proof.
  induction s as [|c s IH]; [reflexivity|]. cbn [TrimRight].
  destruct (TrimRight s) as [|d r] eqn:E.
  - destruct (isSpace c) eqn:Ec; [reflexivity|]. cbn [TrimRight]. now rewrite Ec.
  - cbn [TrimRight] in *. cbn [TrimRight]. now rewrite IH.
Qed.

Lemma TrimLeft_TrimRight (s : string) :
  TrimLeft s = s -> TrimLeft (TrimRight s) = TrimRight s.
Proof.
  destruct s as [|c s]; [reflexivity|]. cbn [TrimLeft].
  destruct (isSpace c) eqn:Ec.
  - intros E. pose proof (TrimLeft_length s) as Hl. rewrite E in Hl.
    cbn [String.length] in Hl. lia.
  - intros _. cbn [TrimRight].
    destruct (TrimRight s); rewrite ?Ec; cbn [TrimLeft]; now rewrite Ec.
Qed.

Lemma isASCII_TrimLeft (s : string) : isASCII s = true -> isASCII (TrimLeft s) = true.
Proof.
  induction s as [|c s IH]; [reflexivity|]. cbn [TrimLeft].
  destruct (isSpace c); [|trivial].
  cbn [isASCII]. intros [_ E]%andb_true_iff. now apply IH.
Qed.

Lemma isASCII_TrimRight (s : string) : isASCII s = true -> isASCII (TrimRight s) = true.
Proof.
  induction s as [|c s IH]; [reflexivity|]. cbn [TrimRight isASCII].
  intros [Ec E]%andb_true_iff. specialize (IH E).
  destruct (TrimRight s) as [|d r].
  - destruct (isSpace c); cbn [isASCII]; [reflexivity | now rewrite Ec].
  - cbn [isASCII] in *. now rewrite Ec, IH.
Qed.

Lemma lastByte_ASCII (s : string) (c : ascii) :
  isASCII s = true -> lastByte s = Some c -> isASCIIByte c = true.
Proof.
  induction s as [|d s IH]; [discriminate|]. cbn [isASCII lastByte].
  intros [Ed E]%andb_true_iff. destruct s as [|e s].
  - now intros [= <-].
  - now apply IH.
Qed.

Section Tables.
Context `{Unicode}.

(** On a text of ASCII bytes [TrimSpace] is the two loops over
    [asciiSpace]. *)
Lemma TrimSpace_ASCII (s : string) :
  isASCII s = true -> TrimSpace s = TrimRight (TrimLeft s).
Proof.
  unfold TrimSpace. induction s as [|c s IH]; [reflexivity|].
  intros E. pose proof E as E'. cbn [isASCII] in E'.
  apply andb_true_iff in E' as [Ec Es].
  cbn [trimSpace TrimLeft]. rewrite Ec.
  destruct (isSpace c); [now apply IH|].
  unfold trimTail.
  destruct (lastByte (TrimRight (String c s))) as [d|] eqn:El; [|reflexivity].
  now rewrite (lastByte_ASCII _ d (isASCII_TrimRight _ E) El).
Qed.

Lemma isASCII_TrimSpace (s : string) : isASCII s = true -> isASCII (TrimSpace s) = true.
Proof.
  intros E. rewrite (TrimSpace_ASCII s E).
  now apply isASCII_TrimRight, isASCII_TrimLeft.
Qed.

Lemma TrimSpace_idem (s : string) : TrimSpace (TrimSpace s) = TrimSpace s.
Proof. apply TrimSpace_trimmed. Qed.

End Tables.

End SplitFacts.

(** ** The header of a statement *)

Section HeaderCells.

Context `{Library} {W : Type} `{Backend W}.

Import strings.

Lemma extractPeriod_Panic_iff (raw msg : string) :
  extractPeriod raw = Panic msg
  <-> msg = "index out of range [1]"
      /\ exists label d from,
          Split (TrimSpace raw) " : " = [label; d]
          /\ Contains d " ຫາ " = false
          /\ ParseDate d = Some from.
Proof.
  unfold extractPeriod. split.
  - destruct (Split (TrimSpace raw) " : ") as [|label [|d [|x rest]]] eqn:Es;
      try discriminate.
    destruct (Split d " ຫາ ") as [|p0 [|p1 ps]] eqn:Ep.
    + now apply splitFrom_nonempty in Ep.
    + cbn [nth nth_error]. destruct (ParseDate p0) as [from|] eqn:Ed; [|discriminate].
      intros [= <-]. split; [reflexivity|]. exists label, d, from.
      split; [reflexivity|].
      assert (Hc : Contains d " ຫາ " = false).
      { apply Split_single_iff; [discriminate | now exists p0]. }
      split; [exact Hc|]. unfold Split in Ep.
      rewrite (splitFrom_single _ _ Hc) in Ep. now injection Ep as ->.
    + cbn [nth nth_error]. destruct (ParseDate p0); [|discriminate].
      destruct (ParseDate p1); discriminate.
  - intros (-> & label & d & from & -> & Hc & Ed). unfold Split.
    rewrite (splitFrom_single _ _ Hc). cbn [nth nth_error]. now rewrite Ed.
Qed.

(** C6, as the code has it: when the request is well-formed, its number
    is new, the statement file is known, the wordlists are listed, the
    statement opens and its four header cells are read, a header whose
    account number or display name is missing, or whose trimmed currency
    code is not 3 bytes long, stops the computation and leaves the store
    unchanged; an empty header cell counts as missing.  The computation
    then fails with the invalid-statement error, unless reading the period
    cell faults: the period is read before the header is checked, and a
    period cell "label : date" that holds a single date makes the
    computation stop with that fault.  (The rows play no part in the
    rejection.) *)
Theorem invalid_header_is_rejected (w : W) (by_ : string) (now : Time)
    (req : CalculateReq.t) (statementFile : StatementFile.t)
    (wordlists : list Wordlist.t) (f : File) (a7 a9 a10 a11 : string) :
  CalculateReq_Validate req = None ->
  isCalculationExists w (CalculateReq.Number req) = Ok false ->
  getStatementFileByName w (CalculateReq.StatementFileName req) = Ok statementFile ->
  listWordlists w = Ok wordlists ->
  OpenFile w (StatementFile.Location statementFile) = Ok f ->
  GetCellValue f sheetName "A7" = Ok a7 ->
  GetCellValue f sheetName "A9" = Ok a9 ->
  GetCellValue f sheetName "A10" = Ok a10 ->
  GetCellValue f sheetName "A11" = Ok a11 ->
  headerInvalid a9 a10 a11 ->
  (returns (extractPeriod a7) ->
   CalculateIncome w by_ now req
   = (Err (RpcStatus FailedPrecondition
             "The statement file is not valid. Please check your statement file and try again."),
      w))
  /\ (forall msg,
        extractPeriod a7 = Panic msg ->
        CalculateIncome w by_ now req = (Panic msg, w))
  /\ (returns (extractPeriod a7) \/ exists msg, extractPeriod a7 = Panic msg)
  /\ ((exists msg, extractPeriod a7 = Panic msg)
      <-> exists label d from,
           Split (TrimSpace a7) " : " = [label; d]
           /\ Contains d " ຫາ " = false
           /\ ParseDate d = Some from)
  /\ extractAccount "" = "".
Proof.
  intros Hv He Hf Hw Ho H7 H9 H10 H11 Hh.
  assert (Hbad :
    ((String.length (extractAccount a9) =? 0)%nat
     || (String.length (extractAccount a10) =? 0)%nat
     || negb (String.length (strings.TrimSpace (extractAccount a11)) =? 3)%nat)%bool
    = true).
  { destruct Hh as [E | [E | E]].
    - rewrite E. reflexivity.
    - rewrite E. cbn. now rewrite orb_true_r.
    - apply Nat.eqb_neq in E. rewrite E. cbn. apply orb_true_r. }
  assert (Hrun : CalculateIncome w by_ now req
                 = (match extractPeriod a7 with
                    | Panic msg => Panic msg
                    | _ => Err (RpcStatus FailedPrecondition
                                  "The statement file is not valid. Please check your statement file and try again.")
                    end, w)).
  { unfold CalculateIncome. rewrite Hv, He, Hf, Hw.
    unfold calculateIncomeFromStatementFile. rewrite Ho. cbn [wrap mbind outcome_bind].
    rewrite H7. cbn [wrap mbind outcome_bind].
    destruct (extractPeriod a7) as [[from to]|e|msg]; cbn [mbind outcome_bind];
      try reflexivity.
    rewrite H9. cbn [wrap mbind outcome_bind].
    rewrite H10. cbn [wrap mbind outcome_bind].
    rewrite H11. cbn [wrap mbind outcome_bind Account.Number Account.DisplayName
                        Account.Currency].
    now rewrite Hbad. }
  split; [|split; [|split; [|split]]].
  - intros [r Hr]. now rewrite Hrun, Hr.
  - intros msg Hm. now rewrite Hrun, Hm.
  - destruct (extractPeriod a7) as [r|e|msg] eqn:E.
    + left. now exists r.
    + exfalso. unfold extractPeriod in E.
      destruct (Split (TrimSpace a7) " : ") as [|label [|d [|x rest]]];
        try discriminate.
      destruct (ParseDate _); [|discriminate].
      destruct (nth_error _ 1); [|discriminate].
      destruct (ParseDate _); discriminate.
    + right. now exists msg.
  - split.
    + intros [msg Hm]. now apply extractPeriod_Panic_iff in Hm.
    + intros Hx. exists "index out of range [1]". now apply extractPeriod_Panic_iff.
  - reflexivity.
Qed.

(** X13: reading the period cell faults, on the index of the second date,
    exactly when the trimmed cell has the form "label : text" with a single
    separator, the text holds no range separator and reads as a date; every
    other cell yields a pair of dates.  With such a cell [CalculateIncome]
    faults too, and leaves the store as it was. *)
Theorem period_cell_with_a_single_date_faults (raw : string) :
  ((exists msg, extractPeriod raw = Panic msg)
   <-> exists label d from,
        Split (TrimSpace raw) " : " = [label; d]
        /\ Contains d " ຫາ " = false
        /\ ParseDate d = Some from)
  /\ ((forall label d from,
          Split (TrimSpace raw) " : " = [label; d] ->
          Contains d " ຫາ " = false ->
          ParseDate d <> Some from) ->
      returns (extractPeriod raw))
  /\ (forall (w : W) by_ now req statementFile wordlists f label d from,
        CalculateReq_Validate req = None ->
        isCalculationExists w (CalculateReq.Number req) = Ok false ->
        getStatementFileByName w (CalculateReq.StatementFileName req)
        = Ok statementFile ->
        listWordlists w = Ok wordlists ->
        OpenFile w (StatementFile.Location statementFile) = Ok f ->
        GetCellValue f sheetName "A7" = Ok raw ->
        Split (TrimSpace raw) " : " = [label; d] ->
        Contains d " ຫາ " = false ->
        ParseDate d = Some from ->
        CalculateIncome w by_ now req = (Panic "index out of range [1]", w)).
Proof.
  split; [|split].
  - split.
    + intros [msg Hm]. now apply extractPeriod_Panic_iff in Hm.
    + intros Hx. exists "index out of range [1]". now apply extractPeriod_Panic_iff.
  - intros Hno. destruct (extractPeriod raw) as [r|e|msg] eqn:E.
    + now exists r.
    + unfold extractPeriod in E.
      destruct (Split (TrimSpace raw) " : ") as [|label [|d [|x rest]]];
        try discriminate.
      destruct (ParseDate _); [|discriminate].
      destruct (nth_error _ 1); [|discriminate].
      destruct (ParseDate _); discriminate.
    + apply extractPeriod_Panic_iff in E.
      destruct E as (_ & label & d & from & Es & Hc & Ed).
      now destruct (Hno label d from Es Hc).
  - intros w by_ now req statementFile wordlists f label d from
      Hv Hex Hst Hwl Hf H7 Hs Hc Hd.
    assert (Hp : extractPeriod raw = Panic "index out of range [1]").
    { apply extractPeriod_Panic_iff. split; [reflexivity|]. now exists label, d, from. }
    unfold CalculateIncome. rewrite Hv, Hex, Hst, Hwl.
    unfold calculateIncomeFromStatementFile. rewrite Hf. cbn [wrap mbind outcome_bind].
    rewrite H7. cbn [wrap mbind outcome_bind]. rewrite Hp. reflexivity.
Qed.

End HeaderCells.

Lemma invalid_header_is_rejected_witness :
  CalculateIncome (H := Sample.library) (H0 := Sample.backend) Sample.world
    "officer" (time.Date 2025 4 2) (CalculateReq.mk "N-002" ProductPL "bad.xlsx")
  = (Err (RpcStatus FailedPrecondition
            "The statement file is not valid. Please check your statement file and try again."),
     Sample.world).
Proof.
  apply (proj1 (invalid_header_is_rejected (H := Sample.library)
                  (H0 := Sample.backend) Sample.world "officer" (time.Date 2025 4 2)
                  (CalculateReq.mk "N-002" ProductPL "bad.xlsx")
                  (StatementFile.mk "bad.xlsx" "/files/3") Sample.wordlist
                  Sample.badCurrencySheet
                  "Period : 01/01/2025 ຫາ 01/04/2025" "Account No : 0101"
                  "Account Name : Somchai" "Currency : KIPS"
                  eq_refl eq_refl eq_refl eq_refl eq_refl eq_refl
                  eq_refl eq_refl eq_refl
                  ltac:(right; right; vm_compute; lia))).
  exists (time.Date 2025 1 1, time.Date 2025 4 1). reflexivity.
Defined.

(** C6, as stated, fails: the statement "quiet.xlsx" has a valid header and
    two income rows, neither of which matches a wordlist entry, so a full
    pass classifies nothing; the computation succeeds all the same and
    stores a pending calculation whose figures are 0. *)
Lemma zero_classified_rows_are_accepted :
  fold_left (addRow (H := Sample.library) Sample.wordlist)
    (Sample.Rows_ Sample.unclassifiedSheet) ∅ = ∅
  /\ exists c w',
      CalculateIncome (H := Sample.library) (H0 := Sample.backend) Sample.world
        "officer" (time.Date 2025 4 2) (CalculateReq.mk "N-002" ProductPL "quiet.xlsx")
      = (Ok c, w')
      /\ Sample.calculations w' !! "N-002" = Some c
      /\ Calculation.Status c = StatusPending
      /\ Calculation.TotalIncome c = decimal.Zero
      /\ Calculation.MonthlyNetIncome c = decimal.Zero.
Proof.
  split; [vm_compute; reflexivity|].
  eexists. eexists. split; [vm_compute; reflexivity|].
  split; [vm_compute; reflexivity|]. split; [reflexivity|].
  split; apply Qc_is_canon; reflexivity.
Qed.

Section AccountCells.

Context `{Library}.

Import strings.

(** X14: a header value is read as the text that follows the separator
    " : " when the trimmed cell holds exactly one, trimmed again; neither
    the label before it nor the value holds a separator; a cell without a
    separator gives the empty value (and so a rejected statement); the
    value never has surrounding white space. *)
Theorem extractAccount_reads_the_value_after_the_separator (raw : string) :
  (extractAccount raw <> "" ->
   exists label v,
     TrimSpace raw = (label ++ " : " ++ v)%string
     /\ Contains label " : " = false
     /\ Contains v " : " = false
     /\ extractAccount raw = TrimSpace v)
  /\ (Contains (TrimSpace raw) " : " = false -> extractAccount raw = "")
  /\ TrimSpace (extractAccount raw) = extractAccount raw.
Proof.
  unfold extractAccount. split; [|split].
  - destruct (Split (TrimSpace raw) " : ") as [|label [|v [|x rest]]] eqn:Es;
      try congruence.
    intros _. exists label, v.
    pose proof (Join_Split (TrimSpace raw) " : " ltac:(discriminate)) as HJ.
    rewrite Es in HJ. cbn [Join] in HJ.
    pose proof (splitFrom_pieces " : " (TrimSpace raw) 0 ltac:(discriminate)) as HF.
    unfold Split in Es. rewrite Es in HF.
    inversion HF as [|? ? Hl HF']; subst. inversion HF' as [|? ? Hv _]; subst.
    auto.
  - intros Hc. unfold Split. now rewrite (splitFrom_single _ _ Hc).
  - destruct (Split (TrimSpace raw) " : ") as [|label [|v [|x rest]]];
      try reflexivity. apply TrimSpace_idem.
Qed.

End AccountCells.

(** ** The order of the breakdowns *)

Section Chronological.

Context `{Library}.

Import decimal.

Lemma Before_spec (a b : Time) :
  time.Before a b = true
  <-> time.Year a < time.Year b
      \/ (time.Year a = time.Year b
          /\ (time.Month a < time.Month b
              \/ (time.Month a = time.Month b
                  /\ (time.Day a < time.Day b
                      \/ (time.Day a = time.Day b
                          /\ time.Nanos a < time.Nanos b))))).
Proof.
  unfold time.Before.
  destruct (Z.compare_spec (time.Year a) (time.Year b));
    [|split; [lia | reflexivity]|split; [discriminate | lia]].
  destruct (Z.compare_spec (time.Month a) (time.Month b));
    [|split; [lia | reflexivity]|split; [discriminate | lia]].
  destruct (Z.compare_spec (time.Day a) (time.Day b));
    [|split; [lia | reflexivity]|split; [discriminate | lia]].
  rewrite Z.ltb_lt. lia.
Qed.

Lemma Before_asym (a b : Time) :
  time.Before a b = true -> time.Before b a = false.
Proof.
  intros Hab. apply not_true_iff_false. rewrite Before_spec in *. lia.
Qed.

Lemma notBefore_trans (a b c : Time) :
  time.Before b a = false -> time.Before c b = false -> time.Before c a = false.
Proof.
  rewrite <- !not_true_iff_false, !Before_spec. lia.
Qed.

Lemma insertSorted_sorted {A} (key : A -> Time) (x : A) (l : list A) :
  Sorted.StronglySorted (fun a b => time.Before (key b) (key a) = false) l ->
  Sorted.StronglySorted (fun a b => time.Before (key b) (key a) = false)
    (insertSorted (fun a b => time.Before (key a) (key b)) x l).
Proof.
  induction l as [|y l IH]; intros Hs; cbn [insertSorted].
  - constructor; constructor.
  - apply Sorted.StronglySorted_inv in Hs. destruct Hs as [Hl Hy].
    destruct (time.Before (key x) (key y)) eqn:E.
    + constructor; [constructor; assumption|]. constructor.
      * now apply Before_asym.
      * apply List.Forall_forall. intros z Hz.
        rewrite List.Forall_forall in Hy. specialize (Hy z Hz).
        apply notBefore_trans with (key y); [now apply Before_asym | exact Hy].
    + constructor; [now apply IH|]. apply List.Forall_forall. intros z Hz.
      apply list_elem_of_In in Hz. rewrite insertSorted_Permutation in Hz.
      apply list_elem_of_In in Hz. destruct Hz as [<- | Hz]; [exact E|].
      rewrite List.Forall_forall in Hy. now apply Hy.
Qed.

Lemma sortSlice_sorted {A} (key : A -> Time) (l : list A) :
  Sorted.StronglySorted (fun a b => time.Before (key b) (key a) = false)
    (sortSlice (fun a b => time.Before (key a) (key b)) l).
Proof.
  unfold sortSlice. apply fold_left_invariant; [constructor|].
  intros acc x. apply insertSorted_sorted.
Qed.

Lemma NoDup_omap_keys {A B} (f : string * A -> option B) (key : B -> string)
    (l : list (string * A)) :
  (forall k a b, f (k, a) = Some b -> key b = k) ->
  List.NoDup (map fst l) -> List.NoDup (map key (omap f l)).
Proof.
  intros Hf. induction l as [|[k a] l IH]; cbn [map omap list_omap fst].
  - constructor.
  - intros Hnd. apply List.NoDup_cons_iff in Hnd. destruct Hnd as [Hk Hnd].
    destruct (f (k, a)) as [b|] eqn:E; [|now apply IH].
    cbn [map]. constructor; [|now apply IH].
    rewrite (Hf _ _ _ E). intros Hin. apply Hk.
    apply in_map_iff in Hin. destruct Hin as (b' & Eb & Hin).
    apply list_elem_of_In, list_elem_of_omap in Hin.
    destruct Hin as ([k' a'] & Hin & E').
    apply Hf in E'. apply in_map_iff. exists (k', a'). split; [cbn; congruence|].
    now apply list_elem_of_In.
Qed.

Lemma toListCommissions_elems (s : statMap) (period : Decimal) (raw : statCal.t)
    (cb : CommissionBreakdown.t) (c : Commission.t) :
  s !! sourceNames SourceCommission = Some raw ->
  toListCommissions s period = Ok cb ->
  In c (CommissionBreakdown.Commissions cb)
  <-> exists month tx,
      statCal.Transactions raw !! month = Some tx /\ tx <> []
      /\ c = Commission.mk month tx (sumTransactions tx).
Proof.
  intros Hraw. unfold toListCommissions. rewrite Hraw.
  intros Hc. apply bind_Ok in Hc. destruct Hc as (avg & _ & [= <-]).
  cbn [CommissionBreakdown.Commissions].
  rewrite <- list_elem_of_In, sortSlice_Permutation, list_elem_of_omap.
  split.
  - intros ([month tx] & Hin & E). apply elem_of_rangeOrder in Hin.
    exists month, tx. destruct tx as [|t tx]; [discriminate E|].
    injection E as <-. split; [exact Hin|]. split; [congruence | reflexivity].
  - intros (month & tx & Hin & Hne & ->). exists (month, tx).
    split; [now apply elem_of_rangeOrder|].
    destruct tx; [congruence | reflexivity].
Qed.

(** X15: the salary breakdown lists exactly one entry for each month that
    holds a salary transaction, with the transactions of the month, their
    number and the sum of their amounts, no month twice, in chronological
    order of the months; the commission breakdown lists in the same way
    one entry for each month that holds a commission transaction, in
    chronological order; all this in whichever order the buckets are
    visited. *)
Theorem breakdowns_are_in_chronological_order (s : statMap) (period : Decimal) :
  Sorted.StronglySorted (fun a b => notAfter (MonthlySalary.Month a) (MonthlySalary.Month b))
    (SalaryBreakdown.MonthlySalaries (toListMonthlySalaries s))
  /\ List.NoDup (map MonthlySalary.Month
                   (SalaryBreakdown.MonthlySalaries (toListMonthlySalaries s)))
  /\ (forall raw,
        s !! sourceNames SourceSalary = Some raw ->
        forall m,
          In m (SalaryBreakdown.MonthlySalaries (toListMonthlySalaries s))
          <-> exists month tx,
              statCal.Transactions raw !! month = Some tx /\ tx <> []
              /\ m = MonthlySalary.mk month (NewFromInt (Z.of_nat (length tx))) tx
                       (sumTransactions tx))
  /\ (s !! sourceNames SourceSalary = None ->
      SalaryBreakdown.MonthlySalaries (toListMonthlySalaries s) = [])
  /\ (forall cb,
        toListCommissions s period = Ok cb ->
        Sorted.StronglySorted (fun a b => notAfter (Commission.Month a) (Commission.Month b))
          (CommissionBreakdown.Commissions cb)
        /\ List.NoDup (map Commission.Month (CommissionBreakdown.Commissions cb))
        /\ (forall raw,
              s !! sourceNames SourceCommission = Some raw ->
              forall c,
                In c (CommissionBreakdown.Commissions cb)
                <-> exists month tx,
                    statCal.Transactions raw !! month = Some tx /\ tx <> []
                    /\ c = Commission.mk month tx (sumTransactions tx))
        /\ (s !! sourceNames SourceCommission = None ->
            CommissionBreakdown.Commissions cb = [])).
Proof.
  split; [|split; [|split; [|split]]].
  - unfold toListMonthlySalaries.
    destruct (s !! sourceNames SourceSalary) as [raw|]; [|constructor].
    cbn [SalaryBreakdown.MonthlySalaries].
    apply (sortSlice_sorted (fun a => monthTime (MonthlySalary.Month a))).
  - unfold toListMonthlySalaries.
    destruct (s !! sourceNames SourceSalary) as [raw|]; [|constructor].
    cbn [SalaryBreakdown.MonthlySalaries].
    eapply Permutation_NoDup;
      [symmetry; apply Permutation_map, sortSlice_Permutation|].
    apply NoDup_omap_keys.
    + intros k tx b. destruct tx; [discriminate|]. now intros [= <-].
    + apply NoDup_fst_rangeOrder.
  - intros raw Hraw m. now apply toListMonthlySalaries_elems.
  - intros Hnone. unfold toListMonthlySalaries. now rewrite Hnone.
  - intros cb Hcb. split; [|split; [|split]].
    + revert Hcb. unfold toListCommissions.
      destruct (s !! sourceNames SourceCommission) as [raw|];
        [|intros [= <-]; constructor].
      intros Hc. apply bind_Ok in Hc. destruct Hc as (avg & _ & [= <-]).
      cbn [CommissionBreakdown.Commissions].
      apply (sortSlice_sorted (fun a => monthTime (Commission.Month a))).
    + revert Hcb. unfold toListCommissions.
      destruct (s !! sourceNames SourceCommission) as [raw|];
        [|intros [= <-]; constructor].
      intros Hc. apply bind_Ok in Hc. destruct Hc as (avg & _ & [= <-]).
      cbn [CommissionBreakdown.Commissions].
      eapply Permutation_NoDup;
        [symmetry; apply Permutation_map, sortSlice_Permutation|].
      apply NoDup_omap_keys.
      * intros k tx b. destruct tx; [discriminate|]. now intros [= <-].
      * apply NoDup_fst_rangeOrder.
    + intros raw Hraw c. now apply (toListCommissions_elems s period raw cb c).
    + intros Hnone. revert Hcb. unfold toListCommissions. rewrite Hnone.
      now intros [= <-].
Qed.

End Chronological.

(** ** Letter case and padding in the classifier *)

Section Normalisation.

Context `{Library}.

Import strings.

Lemma isSpace_lowerByte (c : ascii) : isSpace (lowerByte c) = isSpace c.
Proof. destruct c as [[] [] [] [] [] [] [] []]; reflexivity. Qed.

Lemma lowerBytes_length (s : string) : String.length (lowerBytes s) = String.length s.
Proof. induction s as [|c s IH]; cbn [lowerBytes String.length]; congruence. Qed.

Lemma TrimLeft_lowerBytes (s : string) : TrimLeft (lowerBytes s) = lowerBytes (TrimLeft s).
Proof.
  induction s as [|c s IH]; [reflexivity|]. cbn [lowerBytes TrimLeft].
  rewrite isSpace_lowerByte. now destruct (isSpace c).
Qed.

Lemma TrimRight_lowerBytes (s : string) :
  TrimRight (lowerBytes s) = lowerBytes (TrimRight s).
Proof.
  induction s as [|c s IH]; [reflexivity|]. cbn [lowerBytes TrimRight].
  rewrite IH, isSpace_lowerByte.
  destruct (TrimRight s); cbn [lowerBytes]; [now destruct (isSpace c) | reflexivity].
Qed.

(** On a text of ASCII bytes lowering and trimming commute. *)
Lemma TrimSpace_ToLower (s : string) :
  isASCII s = true -> TrimSpace (ToLower s) = ToLower (TrimSpace s).
Proof.
  intros E. rewrite (ToLower_ASCII s E).
  rewrite (ToLower_ASCII _ (isASCII_TrimSpace s E)).
  rewrite TrimSpace_ASCII by (now rewrite isASCII_lowerBytes).
  rewrite (TrimSpace_ASCII s E).
  now rewrite TrimLeft_lowerBytes, TrimRight_lowerBytes.
Qed.

Lemma ToLower_idem (s : string) :
  isASCII s = true -> ToLower (ToLower s) = ToLower s.
Proof.
  intros E. rewrite (ToLower_ASCII s E).
  rewrite ToLower_ASCII by (now rewrite isASCII_lowerBytes).
  apply lowerBytes_idem.
Qed.

Lemma ToLower_length (s : string) :
  isASCII s = true -> String.length (ToLower s) = String.length s.
Proof. intros E. rewrite (ToLower_ASCII s E). apply lowerBytes_length. Qed.

Lemma matchWord_lower (target word word' : string) :
  isASCII word = true -> isASCII word' = true ->
  ToLower word = ToLower word' -> matchWord target word = matchWord target word'.
Proof.
  intros Hw Hw' E. unfold matchWord, matchTokens.
  rewrite <- (ToLower_length word Hw), <- (ToLower_length word' Hw'), E.
  reflexivity.
Qed.

(** X16: the classifier looks at a memo only up to the white space around
    it: trimming the memo beforehand changes nothing in the result.  For a
    memo of ASCII bytes it looks at it only up to the case of its letters:
    lowering the memo beforehand changes nothing; and two entries whose
    words are ASCII texts that agree up to case and padding match the same
    memos. *)
Theorem classifier_ignores_case_and_padding (memo : string)
    (wordlists : list Wordlist.t) :
  (matchWordlists (TrimSpace memo) wordlists = matchWordlists memo wordlists
   /\ forall w, entryMatches (TrimSpace memo) w = entryMatches memo w)
  /\ (isASCII memo = true ->
      matchWordlists (ToLower memo) wordlists = matchWordlists memo wordlists
      /\ forall w, entryMatches (ToLower memo) w = entryMatches memo w)
  /\ (forall w w',
        isASCII (Wordlist.Word w) = true ->
        isASCII (Wordlist.Word w') = true ->
        ToLower (TrimSpace (Wordlist.Word w)) = ToLower (TrimSpace (Wordlist.Word w')) ->
        entryMatches memo w = entryMatches memo w').
Proof.
  split; [|split].
  - unfold matchWordlists, entryMatches. rewrite TrimSpace_idem. now split.
  - intros Hm.
    assert (E1 : ToLower (TrimSpace (ToLower memo)) = ToLower (TrimSpace memo)).
    { rewrite (TrimSpace_ToLower memo Hm).
      apply ToLower_idem. now apply isASCII_TrimSpace. }
    unfold matchWordlists, entryMatches. rewrite E1. now split.
  - intros w w' Hw Hw' E. unfold entryMatches.
    apply matchWord_lower; [now apply isASCII_TrimSpace.. | exact E].
Qed.

End Normalisation.

(** ** The basic salary shown in the salary breakdown *)

Section BreakdownBasicSalary.

Context `{Library}.

Import decimal.

Lemma salaryAmounts_addIncome (m : statMap) (key bucket : string)
    (amount : Decimal) (t : Transaction.t) :
  salaryAmounts (addIncome m key bucket amount t)
  = salaryAmounts m
    ++ (if bool_decide (key = sourceNames SourceSalary) then [amount] else []).
Proof.
  unfold salaryAmounts, addIncome.
  destruct (decide (key = sourceNames SourceSalary)) as [->|Hk].
  - rewrite lookup_insert_eq, bool_decide_eq_true_2 by reflexivity.
    cbn [statCal.Monthly]. now destruct (m !! sourceNames SourceSalary).
  - rewrite lookup_insert_ne by exact Hk.
    rewrite bool_decide_eq_false_2 by exact Hk. now rewrite app_nil_r.
Qed.

Lemma salaryAmounts_addRow (wordlists : list Wordlist.t) (m : statMap)
    (row : list string) :
  salaryAmounts (addRow wordlists m row)
  = salaryAmounts m ++ map Transaction.Amount (salaryTransactions wordlists [row]).
Proof.
  unfold salaryTransactions, decodeRow, addRow. cbn [omap list_omap].
  destruct (length row <=? 4)%nat; [now rewrite app_nil_r|].
  destruct (NewFromString _) as [amount|]; [|now rewrite app_nil_r].
  destruct (GreaterThan amount Zero); cbn [negb]; [|now rewrite app_nil_r].
  destruct (String.length (nth 2 row "") =? 0)%nat; [now rewrite app_nil_r|].
  destruct (ParseDate _) as [date|]; [|now rewrite app_nil_r].
  cbn [List.filter]. unfold isSalary. cbn [Transaction.Noted].
  destruct (matchWordlists (nth 2 row "") wordlists) as [[category title] matched].
  destruct matched; cbn [negb].
  - destruct category; cbn [map Transaction.Amount]; rewrite ?app_nil_r;
      try reflexivity.
    + now rewrite salaryAmounts_addIncome.
    + rewrite salaryAmounts_addIncome.
      rewrite bool_decide_eq_false_2 by discriminate. rewrite app_nil_r.
      unfold salaryAmounts, setAverageMonth.
      now rewrite lookup_insert_ne by discriminate.
    + rewrite salaryAmounts_addIncome.
      rewrite bool_decide_eq_false_2 by discriminate. now rewrite app_nil_r.
  - destruct category; cbn [map]; now rewrite app_nil_r.
Qed.

Lemma salaryAmounts_rows (wordlists : list Wordlist.t) (rows : list (list string))
    (m : statMap) :
  salaryAmounts (fold_left (addRow wordlists) rows m)
  = salaryAmounts m ++ map Transaction.Amount (salaryTransactions wordlists rows).
Proof.
  revert m. induction rows as [|row rows IH]; intros m.
  - cbn. now rewrite app_nil_r.
  - cbn [fold_left]. rewrite IH, salaryAmounts_addRow, <- app_assoc, <- map_app.
    change (row :: rows) with ([row] ++ rows).
    now rewrite salaryTransactions_app.
Qed.

Lemma salaryAmounts_toStateMap (c : Calculation.t) (m : statMap) :
  toStateMap c = Ok m ->
  salaryAmounts m = map Transaction.Amount (suppliedSalaryTransactions c).
Proof.
  unfold toStateMap, suppliedSalaryTransactions.
  pose proof (addMonthlySalary_amounts
                (SalaryBreakdown.MonthlySalaries (Calculation.SalaryBreakdown c))
                (∅, [])) as Ha.
  destruct (fold_left addAllowance _ _) as [[awnTxs awsMonthly] awsAvg].
  destruct (fold_left addCommission _ _) as [comTxs commMonthly].
  destruct (fold_left addMonthlySalary _ _) as [salTxs salaryMonthly].
  cbn [fst snd app] in Ha. intros [= <-].
  unfold salaryAmounts. rewrite lookup_insert_eq. exact Ha.
Qed.

Lemma breakdown_BasicSalary (m : statMap) :
  SalaryBreakdown.BasicSalary (toListMonthlySalaries m)
  = findMinAmount (salaryAmounts m).
Proof.
  unfold toListMonthlySalaries, salaryAmounts.
  now destruct (m !! sourceNames SourceSalary).
Qed.

Lemma findMinAmount_min (l : list Decimal) :
  l <> [] ->
  (exists x, In x l /\ findMinAmount l = x)
  /\ (forall x, In x l -> (findMinAmount l <= x)%Qc).
Proof.
  destruct l as [|a l]; [congruence|]. intros _. unfold findMinAmount.
  destruct (fold_min_spec (fun x : Decimal => x) (a :: l) a) as (Hin & _ & Hall).
  split; [|exact Hall].
  destruct Hin as [E | (x & Hx & E)].
  - exists a. split; [now left | exact E].
  - exists x. split; [exact Hx | exact E].
Qed.

Lemma decodeRow_positive (row : list string) (t : Transaction.t) :
  decodeRow row = Some t -> (Zero < Transaction.Amount t)%Qc.
Proof.
  unfold decodeRow. destruct (length row <=? 4)%nat; [discriminate|].
  destruct (NewFromString _) as [amount|]; [|discriminate].
  destruct (GreaterThan amount Zero) eqn:E; [|discriminate].
  destruct (String.length _ =? 0)%nat; [discriminate|].
  destruct (ParseDate _); [|discriminate].
  intros [= <-]. cbn. now apply GreaterThan_true.
Qed.

Lemma total_nonneg (l : list Decimal) :
  (forall x, In x l -> (Zero <= x)%Qc) -> (Zero <= total l)%Qc.
Proof.
  induction l as [|a l IH]; intros Hl; cbn [total foldr].
  - apply Qcle_refl.
  - fold (total l). unfold Add.
    replace Zero with (Zero + Zero)%Qc by apply Qcplus_0_l.
    apply Qcplus_le_compat; [apply Hl; now left | apply IH].
    intros x Hx. apply Hl. now right.
Qed.

Lemma total_ge_elem (l : list Decimal) (x : Decimal) :
  (forall y, In y l -> (Zero <= y)%Qc) -> In x l -> (x <= total l)%Qc.
Proof.
  induction l as [|a l IH]; intros Hl Hx; [destruct Hx|].
  cbn [total foldr]. fold (total l). unfold Add.
  assert (Ht : (Zero <= total l)%Qc).
  { apply total_nonneg. intros y Hy. apply Hl. now right. }
  assert (Ha : (Zero <= a)%Qc) by (apply Hl; now left).
  destruct Hx as [<- | Hx].
  - rewrite <- (Qcplus_0_r a) at 1. apply Qcplus_le_compat; [apply Qcle_refl | exact Ht].
  - rewrite <- (Qcplus_0_l x). apply Qcplus_le_compat; [exact Ha|].
    apply IH; [|exact Hx]. intros y Hy. apply Hl. now right.
Qed.

Lemma filedUnder_isSalary (wordlists : list Wordlist.t) (t : Transaction.t)
    (b : string) :
  filedUnder wordlists t = Some (sourceNames SourceSalary, b) ->
  isSalary wordlists t = true.
Proof.
  unfold filedUnder, isSalary.
  destruct (matchWordlists _ _) as [[c title] matched].
  now destruct c, matched.
Qed.

(** X17: the basic salary shown in the salary breakdown is the smallest
    single salary transaction: of the statement when the calculation is made
    from a statement, of the request when it is recalculated.  For a
    calculation made from a statement it is therefore never above the basic
    salary of the PL and SF products, the smallest monthly total. *)
Theorem breakdown_basic_salary_is_the_smallest_transaction
    (wordlists : list Wordlist.t) (rows : list (list string)) :
  SalaryBreakdown.BasicSalary
    (toListMonthlySalaries (fold_left (addRow wordlists) rows ∅))
  = findMinAmount (map Transaction.Amount (salaryTransactions wordlists rows))
  /\ (forall t,
        In t (salaryTransactions wordlists rows) ->
        (SalaryBreakdown.BasicSalary
           (toListMonthlySalaries (fold_left (addRow wordlists) rows ∅))
         <= Transaction.Amount t)%Qc)
  /\ (salaryTransactions wordlists rows <> [] ->
      exists t,
        In t (salaryTransactions wordlists rows)
        /\ SalaryBreakdown.BasicSalary
             (toListMonthlySalaries (fold_left (addRow wordlists) rows ∅))
           = Transaction.Amount t)
  /\ (forall p period b,
        p = ProductPL \/ p = ProductSF ->
        basicSalary (fold_left (addRow wordlists) rows ∅) p period = Ok b ->
        (SalaryBreakdown.BasicSalary
           (toListMonthlySalaries (fold_left (addRow wordlists) rows ∅))
         <= b)%Qc)
  /\ (forall c m,
        toStateMap c = Ok m ->
        SalaryBreakdown.BasicSalary (toListMonthlySalaries m)
        = findMinAmount (map Transaction.Amount (suppliedSalaryTransactions c))).
Proof.
  set (m := fold_left (addRow wordlists) rows ∅).
  assert (Hb : SalaryBreakdown.BasicSalary (toListMonthlySalaries m)
               = findMinAmount (map Transaction.Amount
                                  (salaryTransactions wordlists rows))).
  { rewrite breakdown_BasicSalary. unfold m. rewrite salaryAmounts_rows.
    unfold salaryAmounts. now rewrite lookup_empty. }
  assert (Hle : forall t, In t (salaryTransactions wordlists rows) ->
                  (SalaryBreakdown.BasicSalary (toListMonthlySalaries m)
                   <= Transaction.Amount t)%Qc).
  { intros t Ht. rewrite Hb.
    apply findMinAmount_min; [|now apply in_map].
    destruct (salaryTransactions wordlists rows); [destruct Ht | discriminate]. }
  split; [exact Hb|]. split; [exact Hle|]. split; [|split].
  - intros Hne. rewrite Hb.
    destruct (findMinAmount_min (map Transaction.Amount
                                   (salaryTransactions wordlists rows)))
      as ((x & Hx & E) & _).
    { destruct (salaryTransactions wordlists rows); [congruence | discriminate]. }
    apply in_map_iff in Hx. destruct Hx as (t & <- & Ht). now exists t.
  - intros p period b Hp Hbs.
    assert (E : b = findMinAmountFromMonthlySalaries
                      (SalaryBreakdown.MonthlySalaries (toListMonthlySalaries m))).
    { destruct Hp as [-> | ->]; cbn in Hbs; now injection Hbs. }
    destruct (m !! sourceNames SourceSalary) as [raw|] eqn:Er.
    2:{ rewrite E, breakdown_BasicSalary. unfold toListMonthlySalaries, salaryAmounts.
        rewrite Er. apply Qcle_refl. }
    destruct (SalaryBreakdown.MonthlySalaries (toListMonthlySalaries m))
      as [|m0 ms] eqn:Ems.
    + (* no month holds a transaction: no salary transaction at all *)
      rewrite E. cbn [findMinAmountFromMonthlySalaries]. rewrite Hb.
      destruct (salaryTransactions wordlists rows) as [|t ts] eqn:Est;
        [apply Qcle_refl|].
      exfalso.
      assert (Ht : In t (bucket m (sourceNames SourceSalary)
                           (FormatMonth (Transaction.Date t)))).
      { unfold m. rewrite bucket_rows. unfold bucket at 1. rewrite lookup_empty.
        cbn [app]. apply filter_In.
        assert (Hin : In t (salaryTransactions wordlists rows))
          by (rewrite Est; now left).
        unfold salaryTransactions in Hin. apply filter_In in Hin.
        destruct Hin as [Hin Hs]. split; [exact Hin|].
        apply bool_decide_eq_true. unfold filedUnder. unfold isSalary in Hs.
        destruct (matchWordlists _ _) as [[c title] matched].
        now destruct c, matched. }
      unfold bucket in Ht. rewrite Er in Ht.
      destruct (statCal.Transactions raw !! FormatMonth (Transaction.Date t))
        as [tx|] eqn:Etx; [|destruct Ht].
      cbn [default] in Ht.
      assert (Hm : In (MonthlySalary.mk (FormatMonth (Transaction.Date t))
                         (NewFromInt (Z.of_nat (length tx))) tx (sumTransactions tx))
                     (SalaryBreakdown.MonthlySalaries (toListMonthlySalaries m))).
      { apply (toListMonthlySalaries_elems m raw _ Er).
        exists (FormatMonth (Transaction.Date t)), tx.
        split; [exact Etx|]. split; [|reflexivity].
        intros ->. destruct Ht. }
      rewrite Ems in Hm. destruct Hm.
    + destruct (findMinAmountFromMonthlySalaries_min (m0 :: ms)) as ((mm & Hmm & Emin) & _);
        [discriminate|].
      rewrite <- Ems in Hmm.
      apply (toListMonthlySalaries_elems m raw _ Er) in Hmm.
      destruct Hmm as (month & tx & Etx & Hne & ->).
      rewrite E, Emin. cbn [MonthlySalary.Total].
      destruct tx as [|t tx]; [congruence|].
      assert (Hbucket : forall u, In u (t :: tx) ->
                          In u (salaryTransactions wordlists rows)).
      { intros u Hu.
        assert (Hu' : In u (bucket m (sourceNames SourceSalary) month)).
        { unfold bucket. rewrite Er, Etx. exact Hu. }
        unfold m in Hu'. rewrite bucket_rows in Hu'. unfold bucket in Hu' at 1.
        rewrite lookup_empty in Hu'. cbn [app] in Hu'.
        apply filter_In in Hu'. destruct Hu' as [Hin Hf].
        apply bool_decide_eq_true in Hf.
        unfold salaryTransactions. apply filter_In. split; [exact Hin|].
        now apply filedUnder_isSalary with month. }
      apply Qcle_trans with (Transaction.Amount t).
      * apply Hle, Hbucket. now left.
      * rewrite sumTransactions_total.
        apply total_ge_elem; [|apply in_map; now left].
        intros y Hy. apply in_map_iff in Hy. destruct Hy as (u & <- & Hu).
        apply Hbucket in Hu. unfold salaryTransactions in Hu.
        apply filter_In in Hu. destruct Hu as [Hu _].
        apply list_elem_of_In, list_elem_of_omap in Hu.
        destruct Hu as (row & _ & Hrow).
        apply Qclt_le_weak. now apply decodeRow_positive with row.
  - intros c m' Hm'. rewrite breakdown_BasicSalary.
    now rewrite (salaryAmounts_toStateMap c m' Hm').
Qed.

End BreakdownBasicSalary.

(** ** Recalculating with the breakdowns unchanged *)

Section RoundTrip.

Context `{Library}.

Import decimal.

(** *** What the formulas read of a [statMap] *)

Lemma DivRound_Zero (d : Decimal) (precision : Z) : DivRound Zero d precision = Zero.
Proof.
  unfold DivRound.
  assert (E : (Zero / d)%Qc = Zero).
  { unfold Qcdiv. apply Qcmult_0_l. }
  rewrite E. cbn [this Zero Q2Qc Qred Qnum Qden].
  change (Qnum (Qred 0)) with 0. change (Qden (Qred 0)) with 1%positive.
  rewrite Z.mul_0_l. cbn [Z.quot Z.rem Z.abs Z.mul Z.ltb Z.compare Z.sgn Z.add].
  change (2 * Z.abs (Z.rem 0 1) <? 1) with true. cbn iota.
  change (Z.quot 0 1) with 0.
  apply Q2Qc_eq_iff. reflexivity.
Qed.

Lemma totalIncome_entry (m : statMap) (p : product) :
  totalIncome m p
  = match p with
    | ProductSA =>
        fold_left (fun total '(_, tx) => Add total (findMinFromTransactions tx))
          (rangeOrder (statCal.Transactions (entry m (sourceNames SourceSalary))))
          Zero
    | ProductPL | ProductSF => statCal.Total (entry m (sourceNames SourceSalary))
    | ProductUnSpecified => Zero
    end.
Proof.
  unfold totalIncome, entry.
  destruct p; try reflexivity;
    destruct (m !! sourceNames SourceSalary); try reflexivity.
  cbn. now rewrite rangeOrder_empty.
Qed.

Lemma toListMonthlySalaries_entry (m : statMap) :
  toListMonthlySalaries m
  = SalaryBreakdown.mk
      (sortSlice
         (fun a b => time.Before (monthTime (MonthlySalary.Month a))
                                 (monthTime (MonthlySalary.Month b)))
         (omap
            (fun '(month, tx) =>
               match tx with
               | [] => None
               | _ =>
                   Some (MonthlySalary.mk month (NewFromInt (Z.of_nat (length tx)))
                           tx (sumTransactions tx))
               end)
            (rangeOrder (statCal.Transactions (entry m (sourceNames SourceSalary))))))
      (findMinAmount (statCal.Monthly (entry m (sourceNames SourceSalary))))
      (statCal.Total (entry m (sourceNames SourceSalary))).
Proof.
  unfold toListMonthlySalaries, entry.
  destruct (m !! sourceNames SourceSalary); [reflexivity|].
  cbn. now rewrite rangeOrder_empty.
Qed.

Lemma toListAllowances_entry (m : statMap) :
  toListAllowances m
  = (r ← allowancesLoop (statCal.AverageMonth (entry m (sourceNames SourceAllowance)))
           (rangeOrder (statCal.Transactions (entry m (sourceNames SourceAllowance))))
           [] Zero (NewFromInt 12);
     Ok (AllowanceBreakdown.mk r.1 r.2)).
Proof.
  unfold toListAllowances, entry.
  destruct (m !! sourceNames SourceAllowance); [reflexivity|].
  cbn. now rewrite rangeOrder_empty.
Qed.

Lemma toListCommissions_entry (m : statMap) (period : Decimal) :
  toListCommissions m period
  = Ok (CommissionBreakdown.mk
          (sortSlice
             (fun a b => time.Before (monthTime (Commission.Month a))
                                     (monthTime (Commission.Month b)))
             (omap
                (fun '(month, tx) =>
                   match tx with
                   | [] => None
                   | _ => Some (Commission.mk month tx (sumTransactions tx))
                   end)
                (rangeOrder
                   (statCal.Transactions (entry m (sourceNames SourceCommission))))))
          (if IsZero period then Zero
           else DivRound (statCal.Total (entry m (sourceNames SourceCommission)))
                  period DivisionPrecision)
          (statCal.Total (entry m (sourceNames SourceCommission)))).
Proof.
  unfold toListCommissions, entry.
  destruct (m !! sourceNames SourceCommission) as [raw|]; cbn [default].
  - unfold Div. destruct (IsZero period); reflexivity.
  - cbn [emptyStatCal statCal.Transactions statCal.Total].
    rewrite rangeOrder_empty. cbn. rewrite DivRound_Zero.
    now destruct (IsZero period).
Qed.

Lemma basicSalaryFromInterview_entry (m : statMap) :
  basicSalaryFromInterview m
  = statCal.Total (entry m (sourceNames SourceBasicSalaryInterview)).
Proof.
  unfold basicSalaryFromInterview, entry.
  now destruct (m !! sourceNames SourceBasicSalaryInterview).
Qed.


(** *** The figures depend on the five readers only *)

Section SameReaders.

Variables m m' : statMap.

Hypothesis Htotal : forall p, totalIncome m p = totalIncome m' p.
Hypothesis Hsalaries : toListMonthlySalaries m = toListMonthlySalaries m'.
Hypothesis Hallowances : toListAllowances m = toListAllowances m'.
Hypothesis Hcommissions :
  forall period, toListCommissions m period = toListCommissions m' period.
Hypothesis Hinterview : basicSalaryFromInterview m = basicSalaryFromInterview m'.

Lemma basicSalary_same (p : product) (period : Decimal) :
  basicSalary m p period = basicSalary m' p period.
Proof. unfold basicSalary. now rewrite Htotal, Hsalaries. Qed.

Lemma totalBasicSalary_same (p : product) (period : Decimal) :
  totalBasicSalary m p period = totalBasicSalary m' p period.
Proof. unfold totalBasicSalary. now rewrite Htotal, !basicSalary_same. Qed.

Lemma totalOtherIncome_same (period : Decimal) :
  totalOtherIncome m period = totalOtherIncome m' period.
Proof. unfold totalOtherIncome. now rewrite totalBasicSalary_same, Htotal. Qed.

Lemma averageOtherIncome_same (period : Decimal) :
  averageOtherIncome m period = averageOtherIncome m' period.
Proof. unfold averageOtherIncome. now rewrite totalOtherIncome_same. Qed.

Lemma averageCommission_same (period : Decimal) :
  averageCommission m period = averageCommission m' period.
Proof. unfold averageCommission. now rewrite Hcommissions. Qed.

Lemma averageAllowance_same (period : Decimal) :
  averageAllowance m period = averageAllowance m' period.
Proof. unfold averageAllowance. now rewrite Hallowances. Qed.

Lemma averageOtherIncomeIn80Percent_same (period : Decimal) :
  averageOtherIncomeIn80Percent m period = averageOtherIncomeIn80Percent m' period.
Proof.
  unfold averageOtherIncomeIn80Percent.
  rewrite averageOtherIncome_same, averageCommission_same.
  now rewrite (averageAllowance_same period).
Qed.

Lemma averageMonthlyIncome_same (p : product) (period : Decimal) :
  averageMonthlyIncome m p period = averageMonthlyIncome m' p period.
Proof.
  unfold averageMonthlyIncome.
  rewrite !basicSalary_same, Hinterview, averageOtherIncomeIn80Percent_same,
    averageCommission_same.
  now rewrite (averageAllowance_same period).
Qed.

Lemma netIncomeMonthly_same (p : product) (exchangeRate period : Decimal) :
  netIncomeMonthly m p exchangeRate period = netIncomeMonthly m' p exchangeRate period.
Proof. unfold netIncomeMonthly. now rewrite averageMonthlyIncome_same. Qed.

Lemma newSourceIncome_same (p : product) (period : Decimal) :
  newSourceIncome m p period = newSourceIncome m' p period.
Proof.
  unfold newSourceIncome.
  rewrite Hallowances, Hcommissions, averageCommission_same, totalBasicSalary_same,
    basicSalary_same.
  now rewrite (averageAllowance_same period).
Qed.

Lemma populate_same (c : Calculation.t) (p : product)
    (period exchangeRate : Decimal) :
  populate c p period exchangeRate m = populate c p period exchangeRate m'.
Proof.
  unfold populate.
  now rewrite newSourceIncome_same, Hallowances, Hcommissions, Hsalaries,
    totalBasicSalary_same, Htotal, totalOtherIncome_same, averageMonthlyIncome_same,
    netIncomeMonthly_same.
Qed.

End SameReaders.


(** *** The pass over a statement keeps the bookkeeping *)

Lemma bucketTransactions_Permutation (l l' : list (string * list Transaction.t)) :
  Permutation l l' -> Permutation (bucketTransactions l) (bucketTransactions l').
Proof.
  unfold bucketTransactions.
  induction 1 as [|b l l' _ IH|a b l|l1 l2 l3 _ IH1 _ IH2]; cbn [map concat].
  - constructor.
  - now apply Permutation_app_head.
  - rewrite !app_assoc. apply Permutation_app_tail, Permutation_app_comm.
  - now transitivity (concat (map snd l2)).
Qed.

Lemma bucketTransactions_appendAt (txs : gmap string (list Transaction.t))
    (k : string) (new : list Transaction.t) :
  Permutation (bucketTransactions (map_to_list (appendAt txs k new)))
    (bucketTransactions (map_to_list txs) ++ new).
Proof.
  unfold appendAt. destruct (txs !! k) as [old|] eqn:E; cbn [default].
  - rewrite <- insert_delete_eq.
    rewrite (bucketTransactions_Permutation _ _
               (map_to_list_insert (delete k txs) k (old ++ new)
                  (lookup_delete_eq txs k))).
    rewrite <- (bucketTransactions_Permutation _ _ (map_to_list_delete txs k old E)).
    unfold bucketTransactions. cbn [map concat snd].
    rewrite <- !app_assoc. apply Permutation_app_head, Permutation_app_comm.
  - rewrite (bucketTransactions_Permutation _ _ (map_to_list_insert txs k new E)).
    unfold bucketTransactions. cbn [map concat snd app]. apply Permutation_app_comm.
Qed.

Lemma tidyEntry_empty : tidyEntry emptyStatCal.
Proof.
  split; [|split].
  - intros b tx E. cbn in E. now rewrite lookup_empty in E.
  - cbn. rewrite map_to_list_empty. constructor.
  - reflexivity.
Qed.

Lemma tidyEntry_addIncome (cur : statCal.t) (bucket : string) (t : Transaction.t)
    (averageMonth : gmap string Decimal) :
  tidyEntry cur ->
  tidyEntry
    (statCal.mk (appendAt (statCal.Transactions cur) bucket [t])
       (statCal.Monthly cur ++ [Transaction.Amount t])
       (Add (statCal.Total cur) (Transaction.Amount t))
       averageMonth).
Proof.
  intros (Hne & Hperm & Htot). split; [|split];
    cbn [statCal.Transactions statCal.Monthly statCal.Total].
  - intros b tx. unfold appendAt.
    destruct (decide (bucket = b)) as [->|Hb].
    + rewrite lookup_insert_eq. intros [= <-] E.
      apply app_eq_nil in E as [_ E]. discriminate.
    + rewrite lookup_insert_ne by exact Hb. apply Hne.
  - rewrite bucketTransactions_appendAt, map_app. cbn [map].
    now apply Permutation_app_tail.
  - rewrite total_app, Htot. cbn [total foldr]. now rewrite Add_Zero_r.
Qed.

Lemma tidy_addIncome (m : statMap) (key bucket : string) (t : Transaction.t) :
  key <> sourceNames SourceAllowance ->
  key <> sourceNames SourceBasicSalaryInterview ->
  tidy m -> tidy (addIncome m key bucket (Transaction.Amount t) t).
Proof.
  intros Hka Hki (He & Ha & Hi). unfold addIncome. split; [|split].
  - intros key' raw. destruct (decide (key = key')) as [<-|Hk].
    + rewrite lookup_insert_eq. intros [= <-]. apply tidyEntry_addIncome.
      destruct (m !! key) as [raw|] eqn:E; [now apply (He key) | apply tidyEntry_empty].
    + rewrite lookup_insert_ne by exact Hk. apply He.
  - intros raw. rewrite lookup_insert_ne by exact Hka. apply Ha.
  - now rewrite lookup_insert_ne by exact Hki.
Qed.

Lemma tidy_addAllowance (m : statMap) (title : string) (t : Transaction.t) :
  tidy m ->
  tidy (addIncome
          (setAverageMonth m (sourceNames SourceAllowance) title (NewFromInt 12))
          (sourceNames SourceAllowance) title (Transaction.Amount t) t).
Proof.
  intros Hm.
  assert (Hne : sourceNames SourceAllowance <> sourceNames SourceBasicSalaryInterview)
    by discriminate.
  unfold tidy, addIncome, setAverageMonth in *.
  set (k := sourceNames SourceAllowance) in *.
  set (ki := sourceNames SourceBasicSalaryInterview) in *. clearbody k ki.
  destruct Hm as (He & Ha & Hi).
  rewrite !lookup_insert_eq. cbn [default statCal.Transactions statCal.Monthly
    statCal.Total statCal.AverageMonth].
  split; [|split].
  - intros key' raw. destruct (decide (k = key')) as [<-|Hk].
    + rewrite lookup_insert_eq. intros [= <-]. apply tidyEntry_addIncome.
      destruct (m !! k) as [raw|] eqn:E; [now apply (He k) | apply tidyEntry_empty].
    + rewrite !lookup_insert_ne by exact Hk. apply He.
  - intros raw [= <-].
    cbn [statCal.Transactions statCal.AverageMonth]. unfold appendAt.
    rewrite fmap_insert. f_equal.
    destruct (m !! k) as [raw|] eqn:E; cbn [default]; [now apply Ha|].
    cbn. now rewrite fmap_empty.
  - now rewrite !lookup_insert_ne by exact Hne.
Qed.


Lemma tidy_addRow (wordlists : list Wordlist.t) (m : statMap) (row : list string) :
  tidy m -> tidy (addRow wordlists m row).
Proof.
  intros Hm. unfold addRow.
  destruct (length row <=? 4)%nat; [exact Hm|].
  destruct (NewFromString _) as [amount|]; [|exact Hm].
  destruct (negb _); [exact Hm|].
  destruct (String.length _ =? 0)%nat; [exact Hm|].
  destruct (ParseDate _) as [date|]; [|exact Hm].
  destruct (matchWordlists _ _) as [[category title] matched].
  destruct (negb matched); [exact Hm|].
  destruct category; try exact Hm.
  - apply (tidy_addIncome m _ _ (Transaction.mk date (nth 1 row "") (nth 2 row "") amount));
      [discriminate | discriminate | exact Hm].
  - apply (tidy_addAllowance m _ (Transaction.mk date (nth 1 row "") (nth 2 row "") amount)).
    exact Hm.
  - apply (tidy_addIncome m _ _ (Transaction.mk date (nth 1 row "") (nth 2 row "") amount));
      [discriminate | discriminate | exact Hm].
Qed.

Lemma tidy_rows (wordlists : list Wordlist.t) (rows : list (list string)) :
  tidy (fold_left (addRow wordlists) rows ∅).
Proof.
  apply fold_left_invariant.
  - split; [|split].
    + intros key raw E. now rewrite lookup_empty in E.
    + intros raw E. now rewrite lookup_empty in E.
    + apply lookup_empty.
  - intros acc row. apply tidy_addRow.
Qed.

Lemma tidyEntry_entry (m : statMap) (key : string) : tidy m -> tidyEntry (entry m key).
Proof.
  intros (He & _ & _). unfold entry.
  destruct (m !! key) as [raw|] eqn:E; [now apply (He key) | apply tidyEntry_empty].
Qed.

Lemma tidy_averageMonth (m : statMap) :
  tidy m ->
  statCal.AverageMonth (entry m (sourceNames SourceAllowance))
  = (fun _ => NewFromInt 12)
      <$> statCal.Transactions (entry m (sourceNames SourceAllowance)).
Proof.
  intros (_ & Ha & _). unfold entry.
  destruct (m !! sourceNames SourceAllowance) as [raw|] eqn:E; [now apply Ha|].
  cbn. now rewrite fmap_empty.
Qed.

(** *** Rebuilding the buckets from a list of them *)

Lemma fold_appendAt_notin (l : list (string * list Transaction.t))
    (acc : gmap string (list Transaction.t)) (k : string) :
  ~ In k (map fst l) ->
  fold_left (fun acc e => appendAt acc e.1 e.2) l acc !! k = acc !! k.
Proof.
  revert acc. induction l as [|[k' tx] l IH]; intros acc Hk; [reflexivity|].
  cbn [fold_left fst snd]. rewrite IH by (intros Hin; apply Hk; now right).
  unfold appendAt. apply lookup_insert_ne. intros ->. apply Hk. now left.
Qed.

Lemma fold_appendAt_in (l : list (string * list Transaction.t))
    (acc : gmap string (list Transaction.t)) (k : string) (tx : list Transaction.t) :
  List.NoDup (map fst l) -> In (k, tx) l ->
  fold_left (fun acc e => appendAt acc e.1 e.2) l acc !! k
  = Some (default [] (acc !! k) ++ tx).
Proof.
  revert acc. induction l as [|[k' tx'] l IH]; intros acc Hnd Hin; [destruct Hin|].
  cbn [map fst] in Hnd. apply List.NoDup_cons_iff in Hnd. destruct Hnd as [Hk' Hnd].
  cbn [fold_left fst snd]. destruct Hin as [[= -> ->] | Hin].
  - rewrite fold_appendAt_notin by exact Hk'. unfold appendAt.
    apply lookup_insert_eq.
  - rewrite (IH _ Hnd Hin). unfold appendAt. rewrite lookup_insert_ne; [reflexivity|].
    intros ->. apply Hk'. apply in_map_iff. now exists (k, tx).
Qed.

Lemma rebuild (txs : gmap string (list Transaction.t))
    (l : list (string * list Transaction.t)) :
  List.NoDup (map fst l) ->
  (forall k tx, In (k, tx) l <-> txs !! k = Some tx) ->
  fold_left (fun acc e => appendAt acc e.1 e.2) l ∅ = txs.
Proof.
  intros Hnd Hl. apply map_eq. intros k.
  destruct (txs !! k) as [tx|] eqn:E.
  - apply Hl in E. rewrite (fold_appendAt_in l ∅ k tx Hnd E).
    now rewrite lookup_empty.
  - rewrite fold_appendAt_notin; [apply lookup_empty|].
    intros Hin. apply in_map_iff in Hin. destruct Hin as ([k' tx] & <- & Hin).
    apply Hl in Hin. cbn in E. congruence.
Qed.


Lemma addMonthlySalary_buckets (l : list MonthlySalary.t)
    (st : gmap string (list Transaction.t) * list Decimal) :
  (forall s, In s l -> MonthlySalary.Transactions s <> []) ->
  (fold_left addMonthlySalary l st).1
  = fold_left (fun acc e => appendAt acc e.1 e.2)
      (map (fun s => (MonthlySalary.Month s, MonthlySalary.Transactions s)) l) st.1.
Proof.
  revert st. induction l as [|s l IH]; intros [txs monthly] Hl; [reflexivity|].
  cbn [fold_left map]. rewrite IH by (intros x Hx; apply Hl; now right).
  f_equal. unfold addMonthlySalary.
  pose proof (Hl s (or_introl eq_refl)) as Hs.
  destruct (MonthlySalary.Transactions s); [congruence | reflexivity].
Qed.

Lemma addCommission_buckets (l : list Commission.t)
    (st : gmap string (list Transaction.t) * list Decimal) :
  (forall c, In c l -> Commission.Transactions c <> []) ->
  (fold_left addCommission l st).1
  = fold_left (fun acc e => appendAt acc e.1 e.2)
      (map (fun c => (Commission.Month c, Commission.Transactions c)) l) st.1.
Proof.
  revert st. induction l as [|c l IH]; intros [txs monthly] Hl; [reflexivity|].
  cbn [fold_left map]. rewrite IH by (intros x Hx; apply Hl; now right).
  f_equal. unfold addCommission.
  pose proof (Hl c (or_introl eq_refl)) as Hc.
  destruct (Commission.Transactions c); [congruence | reflexivity].
Qed.

Lemma addAllowance_buckets (l : list Allowance.t)
    (st : gmap string (list Transaction.t) * list Decimal * gmap string Decimal) :
  (forall a, In a l -> Allowance.Transactions a <> []) ->
  (fold_left addAllowance l st).1.1
  = fold_left (fun acc e => appendAt acc e.1 e.2)
      (map (fun a => (Allowance.Title a, Allowance.Transactions a)) l) st.1.1.
Proof.
  revert st. induction l as [|a l IH]; intros [[txs monthly] months] Hl; [reflexivity|].
  cbn [fold_left map]. rewrite IH by (intros x Hx; apply Hl; now right).
  f_equal. unfold addAllowance.
  pose proof (Hl a (or_introl eq_refl)) as Ha.
  destruct (Allowance.Transactions a); [congruence | reflexivity].
Qed.

Lemma addAllowance_months (l : list Allowance.t)
    (st : gmap string (list Transaction.t) * list Decimal * gmap string Decimal) :
  (forall a, In a l -> Allowance.Months a = NewFromInt 12) ->
  st.2 = (fun _ => NewFromInt 12) <$> st.1.1 ->
  (fold_left addAllowance l st).2
  = (fun _ => NewFromInt 12) <$> (fold_left addAllowance l st).1.1.
Proof.
  revert st. induction l as [|a l IH]; intros [[txs monthly] months] Hl Hst;
    [exact Hst|].
  cbn [fold_left]. apply IH; [intros x Hx; apply Hl; now right|].
  unfold addAllowance. cbn [fst snd] in Hst.
  destruct (Allowance.Transactions a) as [|t ts]; [exact Hst|].
  cbn [fst snd]. unfold appendAt. rewrite fmap_insert, <- Hst.
  now rewrite (Hl a (or_introl eq_refl)).
Qed.

Lemma concat_Permutation {A} (l l' : list (list A)) :
  Permutation l l' -> Permutation (concat l) (concat l').
Proof.
  induction 1 as [|x l l' _ IH|x y l|l1 l2 l3 _ IH1 _ IH2]; cbn [concat].
  - constructor.
  - now apply Permutation_app_head.
  - rewrite !app_assoc. apply Permutation_app_tail, Permutation_app_comm.
  - now transitivity (concat l2).
Qed.

(** The list [L] holds one record for each bucket of [txs] that is not
    empty, made by [h]. *)
Lemma records_of_buckets {B} (h : string * list Transaction.t -> option B)
    (key : B -> string) (trs : B -> list Transaction.t)
    (txs : gmap string (list Transaction.t)) (L : list B) :
  (forall k tx b, h (k, tx) = Some b -> key b = k /\ trs b = tx) ->
  (forall k tx, h (k, tx) = None <-> tx = []) ->
  (forall k tx, txs !! k = Some tx -> tx <> []) ->
  Permutation L (omap h (map_to_list txs)) ->
  List.NoDup (map fst (map (fun b => (key b, trs b)) L))
  /\ (forall k tx, In (k, tx) (map (fun b => (key b, trs b)) L) <-> txs !! k = Some tx)
  /\ (forall b, In b L -> trs b <> [])
  /\ Permutation (concat (map trs L)) (bucketTransactions (map_to_list txs)).
Proof.
  intros Hsome Hnone Hne HL. split; [|split; [|split]].
  - rewrite map_map. cbn [fst].
    eapply Permutation_NoDup; [symmetry; apply Permutation_map, HL|].
    apply NoDup_omap_keys.
    + intros k a b E. now apply Hsome in E.
    + apply NoDup_ListNoDup, NoDup_fst_map_to_list.
  - intros k tx. rewrite in_map_iff. split.
    + intros (b & [= <- <-] & Hb).
      apply list_elem_of_In in Hb. rewrite HL in Hb.
      apply list_elem_of_omap in Hb. destruct Hb as ([k tx] & Hin & E).
      apply elem_of_map_to_list in Hin. apply Hsome in E. destruct E as [-> ->].
      exact Hin.
    + intros E. destruct (h (k, tx)) as [b|] eqn:Eh.
      * exists b. pose proof (Hsome _ _ _ Eh) as [-> ->]. split; [reflexivity|].
        apply list_elem_of_In. rewrite HL. apply list_elem_of_omap.
        exists (k, tx). split; [now apply elem_of_map_to_list | exact Eh].
      * apply Hnone in Eh. now apply Hne in E.
  - intros b Hb. apply list_elem_of_In in Hb. rewrite HL in Hb.
    apply list_elem_of_omap in Hb. destruct Hb as ([k tx] & Hin & E).
    apply elem_of_map_to_list in Hin. apply Hsome in E. destruct E as [_ ->].
    now apply Hne in Hin.
  - rewrite (concat_Permutation _ _ (Permutation_map trs HL)).
    unfold bucketTransactions.
    replace (concat (map trs (omap h (map_to_list txs))))
      with (concat (map snd (map_to_list txs))); [reflexivity|].
    clear HL Hne. induction (map_to_list txs) as [|[k tx] M IH]; [reflexivity|].
    cbn [map concat omap list_omap snd].
    destruct (h (k, tx)) as [b|] eqn:Eh.
    + apply Hsome in Eh. destruct Eh as [_ <-]. cbn [map concat]. now rewrite IH.
    + apply Hnone in Eh. subst tx. exact IH.
Qed.


Lemma findMinAmount_Permutation (l l' : list Decimal) :
  Permutation l l' -> findMinAmount l = findMinAmount l'.
Proof.
  intros Hp. destruct l as [|a l].
  - apply Permutation_nil in Hp. now subst l'.
  - assert (Hl' : l' <> []).
    { intros ->. symmetry in Hp. now apply Permutation_nil in Hp. }
    destruct (findMinAmount_min (a :: l)) as ((x & Hx & Ex) & Hall); [discriminate|].
    destruct (findMinAmount_min l' Hl') as ((y & Hy & Ey) & Hall').
    apply Qcle_antisym.
    + rewrite Ey. apply Hall. apply list_elem_of_In. rewrite Hp.
      now apply list_elem_of_In.
    + rewrite Ex. apply Hall'. apply list_elem_of_In. rewrite <- Hp.
      now apply list_elem_of_In.
Qed.

Lemma total_sums (l : list (list Transaction.t)) :
  total (map (fun tx => sumTransactions tx) l)
  = total (map Transaction.Amount (concat l)).
Proof.
  induction l as [|tx l IH]; [reflexivity|].
  cbn [map concat total foldr]. fold (total (map (fun tx => sumTransactions tx) l)).
  now rewrite map_app, total_app, IH, sumTransactions_total.
Qed.

(** The salary entry after the breakdown is sent back. *)
Lemma salary_rebuilt (m : statMap) :
  tidy m ->
  let st := fold_left addMonthlySalary
              (SalaryBreakdown.MonthlySalaries (toListMonthlySalaries m)) (∅, []) in
  st.1 = statCal.Transactions (entry m (sourceNames SourceSalary))
  /\ Permutation st.2 (statCal.Monthly (entry m (sourceNames SourceSalary))).
Proof.
  intros Hm st. subst st.
  destruct (tidyEntry_entry m (sourceNames SourceSalary) Hm) as (Hne & Hperm & _).
  rewrite toListMonthlySalaries_entry. cbn [SalaryBreakdown.MonthlySalaries].
  match goal with
  | |- context [sortSlice ?less (omap ?h ?M)] =>
      destruct (records_of_buckets h MonthlySalary.Month MonthlySalary.Transactions
                  (statCal.Transactions (entry m (sourceNames SourceSalary)))
                  (sortSlice less (omap h M)))
        as (Hnd & Hin & Hall & Hcat)
  end.
  - intros k tx b. destruct tx; [discriminate|]. now intros [= <-].
  - intros k tx. now destruct tx.
  - exact Hne.
  - rewrite sortSlice_Permutation. apply omap_Permutation, rangeOrder_Permutation.
  - split.
    + rewrite addMonthlySalary_buckets by exact Hall. cbn [fst].
      now apply rebuild.
    + rewrite addMonthlySalary_amounts. cbn [snd app].
      rewrite Hperm. now apply Permutation_map.
Qed.

(** The commission entry after the breakdown is sent back. *)
Lemma commission_rebuilt (m : statMap) (period : Decimal) (cb : CommissionBreakdown.t) :
  tidy m ->
  toListCommissions m period = Ok cb ->
  let st := fold_left addCommission (CommissionBreakdown.Commissions cb) (∅, []) in
  st.1 = statCal.Transactions (entry m (sourceNames SourceCommission))
  /\ sumAmounts st.2 = statCal.Total (entry m (sourceNames SourceCommission)).
Proof.
  intros Hm Hcb st. subst st.
  destruct (tidyEntry_entry m (sourceNames SourceCommission) Hm) as (Hne & Hperm & Htot).
  rewrite toListCommissions_entry in Hcb. injection Hcb as <-.
  cbn [CommissionBreakdown.Commissions].
  match goal with
  | |- context [sortSlice ?less (omap ?h ?M)] =>
      destruct (records_of_buckets h Commission.Month Commission.Transactions
                  (statCal.Transactions (entry m (sourceNames SourceCommission)))
                  (sortSlice less (omap h M)))
        as (Hnd & Hin & Hall & Hcat);
      [| | | | set (L := sortSlice less (omap h M)) in *;
             assert (HT : forall c, In c L ->
                            Commission.Total c
                            = sumTransactions (Commission.Transactions c))]
  end.
  - intros k tx b. destruct tx; [discriminate|]. now intros [= <-].
  - intros k tx. now destruct tx.
  - exact Hne.
  - rewrite sortSlice_Permutation. apply omap_Permutation, rangeOrder_Permutation.
  - intros c Hc. apply list_elem_of_In in Hc. subst L.
    rewrite sortSlice_Permutation in Hc. apply list_elem_of_omap in Hc.
    destruct Hc as ([k tx] & _ & E). destruct tx; [discriminate|].
    now injection E as <-.
  - split.
    + rewrite addCommission_buckets by exact Hall. cbn [fst]. now apply rebuild.
    + rewrite addCommission_totals. cbn [snd app].
      rewrite sumAmounts_total, Htot.
      rewrite (total_Permutation _ _ Hperm).
      rewrite <- (total_Permutation _ _ (Permutation_map Transaction.Amount Hcat)).
      rewrite <- total_sums. f_equal.
      assert (Hf : List.filter
                     (fun k => negb (length (Commission.Transactions k) =? 0)%nat) L
                   = L).
      { clear -Hall. induction L as [|c L IH]; [reflexivity|]. cbn [List.filter].
        pose proof (Hall c (or_introl eq_refl)) as Hc.
        destruct (Commission.Transactions c); [congruence|]. cbn.
        f_equal. apply IH. intros x Hx. apply Hall. now right. }
      rewrite Hf, map_map. apply map_ext_in. intros c Hc. now apply HT.
Qed.


Lemma filter_all {A} (P : A -> bool) (l : list A) :
  (forall x, In x l -> P x = true) -> List.filter P l = l.
Proof.
  induction l as [|x l IH]; intros Hl; [reflexivity|]. cbn [List.filter].
  rewrite (Hl x (or_introl eq_refl)). f_equal. apply IH.
  intros y Hy. apply Hl. now right.
Qed.

(** The allowance entry after the breakdown is sent back. *)
Lemma allowance_rebuilt (m : statMap) (ab : AllowanceBreakdown.t) :
  tidy m ->
  toListAllowances m = Ok ab ->
  let st := fold_left addAllowance (AllowanceBreakdown.Allowances ab) (∅, [], ∅) in
  st.1.1 = statCal.Transactions (entry m (sourceNames SourceAllowance))
  /\ st.2 = statCal.AverageMonth (entry m (sourceNames SourceAllowance)).
Proof.
  intros Hm Hab st. subst st.
  destruct (tidyEntry_entry m (sourceNames SourceAllowance) Hm) as (Hne & _ & _).
  pose proof (tidy_averageMonth m Hm) as Hav.
  rewrite toListAllowances_entry in Hab.
  apply bind_Ok in Hab. destruct Hab as (r & Hr & [= <-]).
  apply allowancesLoop_spec in Hr. destruct Hr as (new & E1 & _ & E3 & HF).
  cbn [AllowanceBreakdown.Allowances]. rewrite E1. cbn [app].
  set (T := statCal.Transactions (entry m (sourceNames SourceAllowance))) in *.
  rewrite filter_all in E3.
  2:{ intros [k tx] Hin. apply In_rangeOrder, Hne in Hin.
      cbn. now destruct tx. }
  assert (Hin : forall a, In a new -> T !! Allowance.Title a = Some (Allowance.Transactions a)).
  { intros a Ha. apply In_rangeOrder. rewrite <- E3.
    exact (in_map (fun a => (Allowance.Title a, Allowance.Transactions a)) _ _ Ha). }
  assert (Hall : forall a, In a new -> Allowance.Transactions a <> []).
  { intros a Ha. apply (Hne (Allowance.Title a)). now apply Hin. }
  assert (Hbuckets : (fold_left addAllowance new (∅, [], ∅)).1.1 = T).
  { rewrite addAllowance_buckets by exact Hall. cbn [fst]. apply rebuild.
    - rewrite E3. apply NoDup_fst_rangeOrder.
    - intros k tx. rewrite E3. apply In_rangeOrder. }
  split; [exact Hbuckets|].
  rewrite addAllowance_months.
  - now rewrite Hbuckets, Hav.
  - intros a Ha. rewrite List.Forall_forall in HF.
    destruct (HF a Ha) as (_ & _ & _ & Hmonths). apply Hmonths.
    rewrite Hav, lookup_fmap, (Hin a Ha). reflexivity.
  - cbn. now rewrite fmap_empty.
Qed.

(** The [statMap] of a calculation that carries the breakdowns of a tidy
    [statMap] reads as that [statMap]. *)
Lemma readers_rebuilt (m : statMap) (period : Decimal) (ab : AllowanceBreakdown.t)
    (cb : CommissionBreakdown.t) (c : Calculation.t) :
  tidy m ->
  toListAllowances m = Ok ab ->
  toListCommissions m period = Ok cb ->
  SalaryBreakdown.MonthlySalaries (Calculation.SalaryBreakdown c)
  = SalaryBreakdown.MonthlySalaries (toListMonthlySalaries m) ->
  AllowanceBreakdown.Allowances (Calculation.AllowanceBreakdown c)
  = AllowanceBreakdown.Allowances ab ->
  CommissionBreakdown.Commissions (Calculation.CommissionBreakdown c)
  = CommissionBreakdown.Commissions cb ->
  exists m',
    toStateMap c = Ok m'
    /\ (forall p, totalIncome m' p = totalIncome m p)
    /\ toListMonthlySalaries m' = toListMonthlySalaries m
    /\ toListAllowances m' = toListAllowances m
    /\ (forall q, toListCommissions m' q = toListCommissions m q)
    /\ basicSalaryFromInterview m' = basicSalaryFromInterview m.
Proof.
  intros Hm Hab Hcb Es Ea Ec. unfold toStateMap. rewrite Es, Ea, Ec.
  destruct (salary_rebuilt m Hm) as [Hs1 Hs2].
  destruct (commission_rebuilt m period cb Hm Hcb) as [Hc1 Hc2].
  destruct (allowance_rebuilt m ab Hm Hab) as [Ha1 Ha2].
  destruct (fold_left addAllowance _ _) as [[awnTxs awsMonthly] awsAvg].
  destruct (fold_left addCommission _ _) as [comTxs commMonthly].
  destruct (fold_left addMonthlySalary _ _) as [salTxs salaryMonthly].
  cbn [fst snd] in *. eexists. split; [reflexivity|].
  match goal with
  | |- (forall p, totalIncome ?M p = _) /\ _ => set (m' := M)
  end.
  assert (Ees : entry m' (sourceNames SourceSalary)
                = statCal.mk salTxs salaryMonthly (sumAmounts salaryMonthly) ∅).
  { unfold entry, m'. now rewrite lookup_insert_eq. }
  assert (Eec : entry m' (sourceNames SourceCommission)
                = statCal.mk comTxs commMonthly (sumAmounts commMonthly) ∅).
  { unfold entry, m'. rewrite lookup_insert_ne by discriminate.
    now rewrite lookup_insert_eq. }
  assert (Eea : entry m' (sourceNames SourceAllowance)
                = statCal.mk awnTxs awsMonthly (sumAmounts awsMonthly) awsAvg).
  { unfold entry, m'. rewrite !lookup_insert_ne by discriminate.
    now rewrite lookup_insert_eq. }
  assert (Etot : sumAmounts salaryMonthly
                 = statCal.Total (entry m (sourceNames SourceSalary))).
  { rewrite sumAmounts_total, (total_Permutation _ _ Hs2).
    now destruct (tidyEntry_entry m (sourceNames SourceSalary) Hm) as (_ & _ & ->). }
  assert (Eei : entry m' (sourceNames SourceBasicSalaryInterview)
                = entry m (sourceNames SourceBasicSalaryInterview)).
  { unfold entry, m'. rewrite !lookup_insert_ne by discriminate.
    rewrite lookup_empty. now destruct Hm as (_ & _ & ->). }
  clearbody m'.
  split; [|split; [|split; [|split]]].
  - intros p. rewrite !totalIncome_entry, Ees.
    cbn [statCal.Transactions statCal.Total]. now rewrite Hs1, Etot.
  - rewrite !toListMonthlySalaries_entry, Ees.
    cbn [statCal.Transactions statCal.Total statCal.Monthly].
    now rewrite Hs1, Etot, (findMinAmount_Permutation _ _ Hs2).
  - rewrite !toListAllowances_entry, Eea.
    cbn [statCal.Transactions statCal.AverageMonth]. now rewrite Ha1, Ha2.
  - intros q. rewrite !toListCommissions_entry, Eec.
    cbn [statCal.Transactions statCal.Total]. now rewrite Hc1, Hc2.
  - now rewrite !basicSalaryFromInterview_entry, Eei.
Qed.

(** With the buckets visited in the same order, a recalculation from the
    breakdowns of a calculation made from a statement changes the update
    stamp only. *)
Lemma ReCalculate_unchanged (wordlists : list Wordlist.t)
    (rows : list (list string)) (c c0 : Calculation.t) (period exchangeRate : Decimal)
    (by_ : string) (now : Time) (interview : Decimal) :
  populate c (Calculation.Product c) period exchangeRate
    (fold_left (addRow wordlists) rows ∅)
  = Ok c0 ->
  ReCalculate c0 by_ now (unchangedRequest c0 interview)
  = Ok (setStatusUpdated c0 (Calculation.Status c0) now by_).
Proof.
  intros Hp. pose proof (tidy_rows wordlists rows) as Hm.
  set (m := fold_left (addRow wordlists) rows ∅) in *.
  pose proof Hp as Hp0. apply populate_Ok in Hp0.
  destruct Hp0 as (src & ab & cb & tbs & toi & mai & mni
                   & E1 & E2 & E3 & E4 & E5 & E6 & E7 & Ec0).
  unfold ReCalculate.
  destruct (readers_rebuilt m period ab cb
              (setBreakdowns c0
                 (newSalaryBreakdown (RecalculateReq.MonthlySalaries
                                        (unchangedRequest c0 interview)))
                 (newAllowanceBreakdown (RecalculateReq.Allowances
                                           (unchangedRequest c0 interview)))
                 (newCommissionBreakdown (RecalculateReq.Commissions
                                            (unchangedRequest c0 interview))))
              Hm E2 E3)
    as (m' & Em' & Ht & Hs & Ha & Hc & Hi); try (rewrite Ec0; reflexivity).
  rewrite Em'. cbn [mbind outcome_bind].
  rewrite (populate_same m' m Ht Hs Ha Hc Hi).
  cbn [setBreakdowns setStatusUpdated Calculation.Status Calculation.Product
       Calculation.PeriodInMonth Calculation.ExchangeRate].
  rewrite Ec0.
  cbn [Calculation.Status Calculation.Product Calculation.PeriodInMonth
       Calculation.ExchangeRate Calculation.ID Calculation.StatementFileName
       Calculation.Number Calculation.Account Calculation.StartedAt
       Calculation.EndedAt Calculation.CreatedBy Calculation.CreatedAt
       Calculation.UpdatedBy Calculation.UpdatedAt].
  unfold populate. rewrite E1, E2, E3, E4, E5, E6, E7. reflexivity.
Qed.

End RoundTrip.

(** ** The order in which the buckets of a map are visited *)

Section VisitingOrder.

Context `{Library}.

Import decimal.

Lemma allowancesLoop_exact (averageMonth : gmap string Decimal)
    (entries : list (string * list Transaction.t)) :
  (forall title tx, In (title, tx) entries -> tx <> [] ->
                    is_Some (averageMonth !! title)) ->
  forall allowances totalAllowance months,
    allowancesLoop averageMonth entries allowances totalAllowance months
    = if existsb (dividesByZero averageMonth) entries
      then Panic "decimal division by 0"
      else
        let new :=
          map (allowanceOf averageMonth)
            (List.filter (fun e => negb (Nat.eqb (length e.2) 0)) entries) in
        Ok (allowances ++ new,
            Add totalAllowance (total (map Allowance.MonthlyAverage new))).
Proof.
  induction entries as [|[title tx] rest IH]; intros Hd allowances totalAllowance months.
  - cbn. now rewrite app_nil_r, Add_Zero_r.
  - cbn [allowancesLoop existsb List.filter]. unfold dividesByZero at 1.
    cbn [fst snd].
    assert (Hrest : forall title tx, In (title, tx) rest -> tx <> [] ->
                      is_Some (averageMonth !! title)).
    { intros t' tx' Hin. apply Hd. now right. }
    destruct tx as [|t tx].
    + cbn [length Nat.eqb negb andb orb]. now apply IH.
    + cbn [length Nat.eqb negb andb].
      destruct (Hd title (t :: tx) (or_introl eq_refl) ltac:(discriminate))
        as [ms Ems].
      rewrite Ems. cbn [default from_option id]. unfold Div.
      destruct (IsZero ms) eqn:Ez; cbn [orb mbind outcome_bind]; [reflexivity|].
      rewrite (IH Hrest). destruct (existsb _ rest); [reflexivity|].
      cbn zeta. cbn [map].
      assert (Ea : allowanceOf averageMonth (title, t :: tx)
                   = Allowance.mk title ms
                       (DivRound (sumTransactions (t :: tx)) ms DivisionPrecision)
                       (t :: tx) (sumTransactions (t :: tx))).
      { unfold allowanceOf. cbn [fst snd]. now rewrite Ems. }
      rewrite Ea. cbn [total foldr Allowance.MonthlyAverage].
      rewrite <- app_assoc. cbn [app]. f_equal. f_equal.
      rewrite Add_assoc. reflexivity.
Qed.

Lemma existsb_Permutation {A} (P : A -> bool) (l l' : list A) :
  Permutation l l' -> existsb P l = existsb P l'.
Proof.
  induction 1 as [|x l l' _ IH|x y l|l1 l2 l3 _ IH1 _ IH2]; cbn [existsb].
  - reflexivity.
  - now rewrite IH.
  - now destruct (P x), (P y).
  - congruence.
Qed.

Lemma filter_Permutation {A} (P : A -> bool) (l l' : list A) :
  Permutation l l' -> Permutation (List.filter P l) (List.filter P l').
Proof.
  induction 1 as [|x l l' _ IH|x y l|l1 l2 l3 _ IH1 _ IH2]; cbn [List.filter].
  - constructor.
  - destruct (P x); [now constructor | exact IH].
  - destruct (P x), (P y); try reflexivity. constructor.
  - now transitivity (List.filter P l2).
Qed.

Lemma addAllowance_divisors (l : list Allowance.t)
    (st : gmap string (list Transaction.t) * list Decimal * gmap string Decimal) :
  (forall title, is_Some (st.1.1 !! title) -> is_Some (st.2 !! title)) ->
  forall title,
    is_Some ((fold_left addAllowance l st).1.1 !! title) ->
    is_Some ((fold_left addAllowance l st).2 !! title).
Proof.
  revert st. induction l as [|a l IH]; intros [[txs monthly] months] Hst; [exact Hst|].
  cbn [fold_left]. apply IH. unfold addAllowance.
  destruct (Allowance.Transactions a) as [|t ts]; [exact Hst|].
  cbn [fst snd] in *. intros title. unfold appendAt.
  destruct (decide (Allowance.Title a = title)) as [->|Hne].
  - rewrite !lookup_insert_eq. eauto.
  - rewrite !lookup_insert_ne by exact Hne. apply Hst.
Qed.

Lemma aggregated_divisors (m : statMap) (raw : statCal.t) (title : string)
    (tx : list Transaction.t) :
  aggregated m ->
  m !! sourceNames SourceAllowance = Some raw ->
  statCal.Transactions raw !! title = Some tx ->
  is_Some (statCal.AverageMonth raw !! title).
Proof.
  intros [(wordlists & rows & ->) | (c & Hc)] Er Et.
  - rewrite (dividedByTwelve_rows wordlists rows raw title tx Er Et). eauto.
  - unfold toStateMap in Hc.
    pose proof (addAllowance_divisors
                  (AllowanceBreakdown.Allowances (Calculation.AllowanceBreakdown c))
                  (∅, [], ∅)) as Hd.
    destruct (fold_left addAllowance _ _) as [[awnTxs awsMonthly] awsAvg].
    destruct (fold_left addCommission _ _) as [comTxs commMonthly].
    destruct (fold_left addMonthlySalary _ _) as [salTxs salaryMonthly].
    injection Hc as <-.
    rewrite !lookup_insert_ne in Er by discriminate. rewrite lookup_insert_eq in Er.
    injection Er as <-. cbn [statCal.Transactions statCal.AverageMonth] in *.
    apply Hd; [|eauto]. cbn. intros t' [x Hx]. now rewrite lookup_empty in Hx.
Qed.

(** X19: Go visits the buckets of a map in no fixed order; the figures do
    not depend on it.  For every [statMap] the package builds, visiting the
    allowance buckets in any order gives the same allowance total (or the
    same fault) and the same allowances up to their order in the list,
    whatever the divisor the loop starts with; and visiting the salary
    buckets in any order gives the same SA total income. *)
Theorem visiting_order_of_buckets_does_not_matter (m : statMap) :
  aggregated m ->
  (forall raw entries months,
      m !! sourceNames SourceAllowance = Some raw ->
      Permutation entries (map_to_list (statCal.Transactions raw)) ->
      match toListAllowances m with
      | Ok ab =>
          exists r,
            allowancesLoop (statCal.AverageMonth raw) entries [] Zero months = Ok r
            /\ r.2 = AllowanceBreakdown.Total ab
            /\ Permutation r.1 (AllowanceBreakdown.Allowances ab)
      | Panic msg =>
          allowancesLoop (statCal.AverageMonth raw) entries [] Zero months = Panic msg
      | Err _ => False
      end)
  /\ (forall raw entries,
        m !! sourceNames SourceSalary = Some raw ->
        Permutation entries (map_to_list (statCal.Transactions raw)) ->
        fold_left (fun total '(_, tx) => Add total (findMinFromTransactions tx))
          entries Zero
        = totalIncome m ProductSA).
Proof.
  intros Hm. split.
  - intros raw entries months Er Hp. unfold toListAllowances. rewrite Er.
    assert (Hd : forall l, Permutation l (map_to_list (statCal.Transactions raw)) ->
                   forall title tx, In (title, tx) l -> tx <> [] ->
                     is_Some (statCal.AverageMonth raw !! title)).
    { intros l Hl title tx Hin _. apply (aggregated_divisors m raw title tx Hm Er).
      apply elem_of_map_to_list. rewrite <- Hl. now apply list_elem_of_In. }
    pose proof (rangeOrder_Permutation (statCal.Transactions raw)) as Hv.
    assert (Hp' : Permutation entries (rangeOrder (statCal.Transactions raw)))
      by (now rewrite Hv).
    rewrite (allowancesLoop_exact _ _ (Hd _ Hv)).
    rewrite (allowancesLoop_exact _ _ (Hd _ Hp)).
    rewrite (existsb_Permutation _ _ _ Hp').
    destruct (existsb _ (rangeOrder (statCal.Transactions raw)));
      cbn [mbind outcome_bind]; [reflexivity|].
    cbn zeta. cbn [app fst snd AllowanceBreakdown.Total AllowanceBreakdown.Allowances].
    eexists. split; [reflexivity|]. cbn [fst snd].
    assert (Hq : Permutation
                   (map (allowanceOf (statCal.AverageMonth raw))
                      (List.filter (fun e => negb (length e.2 =? 0)%nat) entries))
                   (map (allowanceOf (statCal.AverageMonth raw))
                      (List.filter (fun e => negb (length e.2 =? 0)%nat)
                         (rangeOrder (statCal.Transactions raw))))).
    { now apply Permutation_map, filter_Permutation. }
    split; [|exact Hq].
    f_equal. apply total_Permutation. now apply Permutation_map.
  - intros raw entries Er Hp. unfold totalIncome. rewrite Er.
    apply fold_left_minimums_Permutation.
    now rewrite (rangeOrder_Permutation (statCal.Transactions raw)).
Qed.

End VisitingOrder.

Lemma visiting_order_of_buckets_does_not_matter_witness :
  let m := fold_left (addRow (H := Sample.library) Sample.wordlist) Sample.rows ∅ in
  exists raw,
    m !! sourceNames SourceSalary = Some raw
    /\ fold_left (fun total '(_, tx) => decimal.Add total (findMinFromTransactions tx))
         (rev (map_to_list (statCal.Transactions raw))) decimal.Zero
       = totalIncome (H := Sample.library) m ProductSA.
Proof.
  intros m.
  destruct (m !! sourceNames SourceSalary) as [raw|] eqn:Er;
    [|vm_compute in Er; discriminate].
  exists raw. split; [reflexivity|].
  apply (proj2 (visiting_order_of_buckets_does_not_matter (H := Sample.library) m
                  (or_introl (ex_intro _ Sample.wordlist
                                (ex_intro _ Sample.rows eq_refl))))
           raw _ Er).
  symmetry. apply Permutation_rev.
Defined.

(** ** Basic salary and other income add up to the total income *)

Section PartsAddUp.

Context `{Library}.

Import decimal.

Lemma NewFromInt_succ (n : nat) :
  NewFromInt (Z.of_nat (S n)) = (NewFromInt (Z.of_nat n) + 1)%Qc.
Proof.
  unfold NewFromInt. apply Qc_is_canon. cbn [this Qcplus Q2Qc].
  rewrite !Qred_correct. rewrite Nat2Z.inj_succ. unfold Z.succ.
  rewrite inject_Z_plus. reflexivity.
Qed.

Lemma Qc_add_sub (a t : Qc) : (a + (t - a))%Qc = t.
Proof. ring. Qed.

Lemma total_ge_times (l : list Decimal) (b : Decimal) :
  (forall x, In x l -> (b <= x)%Qc) ->
  (NewFromInt (Z.of_nat (length l)) * b <= total l)%Qc.
Proof.
  induction l as [|x l IH]; intros Hl.
  - cbn [length total foldr]. change (NewFromInt (Z.of_nat 0)) with Zero.
    rewrite Qcmult_0_l. apply Qcle_refl.
  - cbn [length total foldr]. fold (total l). rewrite NewFromInt_succ.
    rewrite Qcmult_plus_distr_l, Qcmult_1_l, Qcplus_comm. unfold Add.
    apply Qcplus_le_compat; [apply Hl; now left | apply IH].
    intros y Hy. apply Hl. now right.
Qed.

Lemma statement_salary_total (wordlists : list Wordlist.t) (rows : list (list string)) :
  totalIncome (fold_left (addRow wordlists) rows ∅) ProductPL
  = total (map MonthlySalary.Total
             (SalaryBreakdown.MonthlySalaries
                (toListMonthlySalaries (fold_left (addRow wordlists) rows ∅)))).
Proof.
  pose proof (tidy_rows wordlists rows) as Hm.
  set (m := fold_left (addRow wordlists) rows ∅) in *.
  destruct (tidyEntry_entry m (sourceNames SourceSalary) Hm) as (Hne & Hperm & Htot).
  rewrite totalIncome_entry, Htot, (total_Permutation _ _ Hperm).
  rewrite toListMonthlySalaries_entry. cbn [SalaryBreakdown.MonthlySalaries].
  match goal with
  | |- context [sortSlice ?less (omap ?h ?M)] =>
      destruct (records_of_buckets h MonthlySalary.Month MonthlySalary.Transactions
                  (statCal.Transactions (entry m (sourceNames SourceSalary)))
                  (sortSlice less (omap h M)))
        as (_ & _ & _ & Hcat);
      [| | | | set (L := sortSlice less (omap h M)) in *;
             assert (HT : forall s, In s L ->
                            MonthlySalary.Total s
                            = sumTransactions (MonthlySalary.Transactions s))]
  end.
  - intros k tx b. destruct tx; [discriminate|]. now intros [= <-].
  - intros k tx. now destruct tx.
  - exact Hne.
  - rewrite sortSlice_Permutation. apply omap_Permutation, rangeOrder_Permutation.
  - intros s Hs. apply list_elem_of_In in Hs. subst L.
    rewrite sortSlice_Permutation in Hs. apply list_elem_of_omap in Hs.
    destruct Hs as ([k tx] & _ & E). destruct tx; [discriminate|].
    now injection E as <-.
  - rewrite <- (total_Permutation _ _ (Permutation_map Transaction.Amount Hcat)).
    rewrite <- total_sums, map_map. f_equal. apply map_ext_in.
    intros s Hs. symmetry. now apply HT.
Qed.

Lemma statement_monthly_totals_nonneg (wordlists : list Wordlist.t)
    (rows : list (list string)) (s : MonthlySalary.t) :
  In s (SalaryBreakdown.MonthlySalaries
          (toListMonthlySalaries (fold_left (addRow wordlists) rows ∅))) ->
  (Zero <= MonthlySalary.Total s)%Qc.
Proof.
  set (m := fold_left (addRow wordlists) rows ∅). intros Hs.
  destruct (m !! sourceNames SourceSalary) as [raw|] eqn:Er.
  2:{ unfold toListMonthlySalaries in Hs. rewrite Er in Hs. destruct Hs. }
  apply (toListMonthlySalaries_elems m raw s Er) in Hs.
  destruct Hs as (month & tx & Etx & _ & ->). cbn [MonthlySalary.Total].
  rewrite sumTransactions_total. apply total_nonneg.
  intros y Hy. apply in_map_iff in Hy. destruct Hy as (u & <- & Hu).
  assert (Hu' : In u (bucket m (sourceNames SourceSalary) month)).
  { unfold bucket. rewrite Er, Etx. exact Hu. }
  unfold m in Hu'. rewrite bucket_rows in Hu'. unfold bucket in Hu' at 1.
  rewrite lookup_empty in Hu'. cbn [app] in Hu'.
  apply filter_In in Hu'. destruct Hu' as [Hin _].
  apply list_elem_of_In, list_elem_of_omap in Hin. destruct Hin as (row & _ & Hrow).
  apply Qclt_le_weak. now apply decodeRow_positive with row.
Qed.

(** X20: for the PL and SF products of a calculation made from a
    statement, when the period is positive and not longer than the number
    of months that hold a salary transaction, the total basic salary and
    the total other income add up to the total income: nothing is cut off
    by the floor at zero of the other income. *)
Theorem basic_salary_and_other_income_add_up (wordlists : list Wordlist.t)
    (rows : list (list string)) (p : product) (period : Decimal) :
  p = ProductPL \/ p = ProductSF ->
  (Zero < period)%Qc ->
  (period
   <= NewFromInt
        (Z.of_nat
           (length
              (SalaryBreakdown.MonthlySalaries
                 (toListMonthlySalaries (fold_left (addRow wordlists) rows ∅))))))%Qc ->
  exists tb toi,
    totalBasicSalary (fold_left (addRow wordlists) rows ∅) p period = Ok tb
    /\ totalOtherIncome (fold_left (addRow wordlists) rows ∅) period = Ok toi
    /\ Add tb toi = totalIncome (fold_left (addRow wordlists) rows ∅) p
    /\ (Zero <= tb)%Qc /\ (Zero <= toi)%Qc.
Proof.
  intros Hp Hpos Hle.
  pose proof (statement_salary_total wordlists rows) as Htotal.
  pose proof (statement_monthly_totals_nonneg wordlists rows) as Hnonneg.
  set (m := fold_left (addRow wordlists) rows ∅) in *.
  set (L := SalaryBreakdown.MonthlySalaries (toListMonthlySalaries m)) in *.
  set (b := findMinAmountFromMonthlySalaries L).
  assert (Hz : IsZero period = false).
  { apply IsZero_false. intros E. apply (Qclt_not_eq _ _ Hpos). now symmetry. }
  assert (HL : L <> []).
  { intros E. rewrite E in Hle. cbn [length] in Hle.
    change (NewFromInt (Z.of_nat 0)) with Zero in Hle.
    apply (Qclt_not_le _ _ Hpos Hle). }
  destruct (findMinAmountFromMonthlySalaries_min L HL) as ((s0 & Hs0 & Eb) & Hmin).
  fold b in Eb, Hmin.
  assert (Hb : (Zero <= b)%Qc) by (rewrite Eb; now apply Hnonneg).
  assert (Hbs : forall q, q = ProductPL \/ q = ProductSF ->
                  totalBasicSalary m q period = Ok (Mul b period)).
  { intros q [-> | ->]; unfold totalBasicSalary; rewrite Hz; reflexivity. }
  assert (Hti : totalIncome m p = totalIncome m ProductPL)
    by (destruct Hp as [-> | ->]; reflexivity).
  assert (Hge : (Mul b period <= totalIncome m ProductPL)%Qc).
  { rewrite Htotal. fold L.
    apply Qcle_trans with (NewFromInt (Z.of_nat (length L)) * b)%Qc.
    - unfold Mul. rewrite Qcmult_comm. now apply Qcmult_le_compat_r.
    - rewrite <- (length_map MonthlySalary.Total L). apply total_ge_times.
      intros x Hx. apply in_map_iff in Hx. destruct Hx as (s & <- & Hs).
      now apply Hmin. }
  exists (Mul b period), (Sub (totalIncome m ProductPL) (Mul b period)).
  split; [now apply Hbs|]. split; [|split; [|split]].
  - unfold totalOtherIncome. rewrite Hz, (Hbs ProductPL (or_introl eq_refl)).
    cbn [mbind outcome_bind].
    destruct (LessThan _ Zero) eqn:El; [|reflexivity].
    apply LessThan_true in El. exfalso. apply (Qclt_not_le _ _ El).
    unfold Sub. apply -> Qcle_minus_iff. exact Hge.
  - rewrite Hti. apply Qc_add_sub.
  - unfold Mul. replace Zero with (Zero * period)%Qc by apply Qcmult_0_l.
    apply Qcmult_le_compat_r; [exact Hb | now apply Qclt_le_weak].
  - unfold Sub. apply -> Qcle_minus_iff. exact Hge.
Qed.

End PartsAddUp.

Lemma basic_salary_and_other_income_add_up_witness :
  let m := fold_left (addRow (H := Sample.library) Sample.wordlist) Sample.rows ∅ in
  exists tb toi,
    totalBasicSalary (H := Sample.library) m ProductPL (decimal.NewFromInt 3) = Ok tb
    /\ totalOtherIncome (H := Sample.library) m (decimal.NewFromInt 3) = Ok toi
    /\ decimal.Add tb toi = totalIncome (H := Sample.library) m ProductPL.
Proof.
  intros m.
  destruct (basic_salary_and_other_income_add_up (H := Sample.library)
              Sample.wordlist Sample.rows ProductPL (decimal.NewFromInt 3)
              (or_introl eq_refl)
              ltac:(vm_compute; reflexivity)
              ltac:(vm_compute; discriminate))
    as (tb & toi & Hb & Ho & Hs & _).
  exists tb, toi. auto.
Defined.

(** ** Two runs that visit the buckets in different orders *)

Section AnotherOrder.

Context {L : Library}.
Variable O : MapOrder.

Import decimal.

Lemma visits_Permutation (T : gmap string (list Transaction.t)) :
  Permutation (rangeOrder (MapOrder := O) T) (rangeOrder (MapOrder := order) T).
Proof.
  rewrite (rangeOrder_Permutation (MapOrder := O) T).
  symmetry. apply rangeOrder_Permutation.
Qed.

Lemma totalIncome_order (m : statMap) (p : product) :
  totalIncome (H := withOrder L O) m p = totalIncome m p.
Proof.
  unfold totalIncome. destruct p; try reflexivity.
  destruct (m !! sourceNames SourceSalary) as [raw|]; [|reflexivity].
  apply fold_left_minimums_Permutation, visits_Permutation.
Qed.

Lemma findMinAmountFromMonthlySalaries_amounts (ms : list MonthlySalary.t) :
  findMinAmountFromMonthlySalaries ms = findMinAmount (map MonthlySalary.Total ms).
Proof.
  assert (G : forall l acc,
             fold_left
               (fun min m =>
                  if LessThan (MonthlySalary.Total m) min
                  then MonthlySalary.Total m else min) l acc
             = fold_left (fun min amount => if LessThan amount min then amount else min)
                 (map MonthlySalary.Total l) acc).
  { induction l as [|x l IH]; intros acc; [reflexivity|].
    cbn [map fold_left]. apply IH. }
  destruct ms as [|m0 ms]; [reflexivity|]. apply (G (m0 :: ms)).
Qed.

Lemma toListMonthlySalaries_order (m : statMap) :
  Permutation
    (SalaryBreakdown.MonthlySalaries (toListMonthlySalaries (H := withOrder L O) m))
    (SalaryBreakdown.MonthlySalaries (toListMonthlySalaries m))
  /\ SalaryBreakdown.BasicSalary (toListMonthlySalaries (H := withOrder L O) m)
     = SalaryBreakdown.BasicSalary (toListMonthlySalaries m)
  /\ SalaryBreakdown.Total (toListMonthlySalaries (H := withOrder L O) m)
     = SalaryBreakdown.Total (toListMonthlySalaries m).
Proof.
  unfold toListMonthlySalaries.
  destruct (m !! sourceNames SourceSalary) as [raw|]; [|now split].
  cbn [SalaryBreakdown.MonthlySalaries SalaryBreakdown.BasicSalary
       SalaryBreakdown.Total].
  split; [|now split].
  rewrite !sortSlice_Permutation. apply omap_Permutation, visits_Permutation.
Qed.

Lemma basicSalary_order (m : statMap) (p : product) (period : Decimal) :
  basicSalary (H := withOrder L O) m p period = basicSalary m p period.
Proof.
  unfold basicSalary. rewrite totalIncome_order.
  destruct p; try reflexivity; f_equal;
    rewrite !findMinAmountFromMonthlySalaries_amounts;
    apply findMinAmount_Permutation, Permutation_map, toListMonthlySalaries_order.
Qed.

Lemma totalBasicSalary_order (m : statMap) (p : product) (period : Decimal) :
  totalBasicSalary (H := withOrder L O) m p period = totalBasicSalary m p period.
Proof. unfold totalBasicSalary. now rewrite totalIncome_order, !basicSalary_order. Qed.

Lemma totalOtherIncome_order (m : statMap) (period : Decimal) :
  totalOtherIncome (H := withOrder L O) m period = totalOtherIncome m period.
Proof. unfold totalOtherIncome. now rewrite totalBasicSalary_order, totalIncome_order. Qed.

Lemma averageOtherIncome_order (m : statMap) (period : Decimal) :
  averageOtherIncome (H := withOrder L O) m period = averageOtherIncome m period.
Proof. unfold averageOtherIncome. now rewrite totalOtherIncome_order. Qed.

Lemma toListAllowances_order (m : statMap) (ab : AllowanceBreakdown.t) :
  allDivided m ->
  toListAllowances m = Ok ab ->
  exists ab',
    toListAllowances (H := withOrder L O) m = Ok ab'
    /\ AllowanceBreakdown.Total ab' = AllowanceBreakdown.Total ab
    /\ Permutation (AllowanceBreakdown.Allowances ab')
         (AllowanceBreakdown.Allowances ab).
Proof.
  intros Hd. unfold toListAllowances.
  destruct (m !! sourceNames SourceAllowance) as [raw|] eqn:Er.
  - assert (Hx : forall (X : MapOrder) title tx,
               In (title, tx) (rangeOrder (MapOrder := X) (statCal.Transactions raw)) ->
               tx <> [] -> is_Some (statCal.AverageMonth raw !! title)).
    { intros X title tx Hin _. apply (Hd raw title tx Er).
      now apply (In_rangeOrder (H := X)). }
    rewrite (allowancesLoop_exact _ _ (Hx order)).
    rewrite (allowancesLoop_exact _ _ (Hx O)).
    pose proof (visits_Permutation (statCal.Transactions raw)) as Hp.
    change (@rangeOrder (@order (withOrder L O))) with (@rangeOrder O).
    rewrite (existsb_Permutation _ _ _ Hp).
    destruct (existsb _ (rangeOrder (MapOrder := order) (statCal.Transactions raw)));
      cbn [mbind outcome_bind]; [discriminate|].
    intros [= <-]. eexists. split; [reflexivity|].
    cbn [AllowanceBreakdown.Total AllowanceBreakdown.Allowances fst snd app].
    assert (Hq : Permutation
                   (map (allowanceOf (statCal.AverageMonth raw))
                      (List.filter (fun e => negb (length e.2 =? 0)%nat)
                         (rangeOrder (MapOrder := O) (statCal.Transactions raw))))
                   (map (allowanceOf (statCal.AverageMonth raw))
                      (List.filter (fun e => negb (length e.2 =? 0)%nat)
                         (rangeOrder (MapOrder := order) (statCal.Transactions raw))))).
    { now apply Permutation_map, filter_Permutation. }
    split; [|exact Hq].
    f_equal. apply total_Permutation. now apply Permutation_map.
  - intros [= <-]. exists AllowanceBreakdown.empty. now split.
Qed.

Lemma toListCommissions_order (m : statMap) (period : Decimal)
    (cb : CommissionBreakdown.t) :
  toListCommissions m period = Ok cb ->
  exists cb',
    toListCommissions (H := withOrder L O) m period = Ok cb'
    /\ CommissionBreakdown.MonthlyAverage cb' = CommissionBreakdown.MonthlyAverage cb
    /\ CommissionBreakdown.Total cb' = CommissionBreakdown.Total cb
    /\ Permutation (CommissionBreakdown.Commissions cb')
         (CommissionBreakdown.Commissions cb).
Proof.
  unfold toListCommissions.
  destruct (m !! sourceNames SourceCommission) as [raw|].
  - intros Hc. apply bind_Ok in Hc. destruct Hc as (avg & Ea & [= <-]).
    rewrite Ea. cbn [mbind outcome_bind]. eexists. split; [reflexivity|].
    cbn [CommissionBreakdown.MonthlyAverage CommissionBreakdown.Total
         CommissionBreakdown.Commissions].
    split; [reflexivity|]. split; [reflexivity|].
    rewrite !sortSlice_Permutation. apply omap_Permutation, visits_Permutation.
  - intros [= <-]. exists CommissionBreakdown.empty. now repeat split.
Qed.

(** *** The figures of a [statMap] in which every allowance is divided *)

Section Figures.

Variables (m : statMap) (period : Decimal).
Variables (ab : AllowanceBreakdown.t) (cb : CommissionBreakdown.t).
Hypothesis Hd : allDivided m.
Hypothesis Hab : toListAllowances m = Ok ab.
Hypothesis Hcb : toListCommissions m period = Ok cb.

Lemma averageAllowance_order :
  averageAllowance (H := withOrder L O) m period = averageAllowance m period.
Proof.
  unfold averageAllowance.
  destruct (toListAllowances_order m ab Hd Hab) as (ab' & E & Et & _).
  rewrite E, Hab. cbn [mbind outcome_bind]. now rewrite Et.
Qed.

Lemma averageCommission_order :
  averageCommission (H := withOrder L O) m period = averageCommission m period.
Proof.
  unfold averageCommission.
  destruct (toListCommissions_order m period cb Hcb) as (cb' & E & Ea & _).
  rewrite E, Hcb. cbn [mbind outcome_bind]. now rewrite Ea.
Qed.

Lemma averageOtherIncomeIn80Percent_order :
  averageOtherIncomeIn80Percent (H := withOrder L O) m period
  = averageOtherIncomeIn80Percent m period.
Proof.
  unfold averageOtherIncomeIn80Percent.
  now rewrite averageOtherIncome_order, averageCommission_order,
    averageAllowance_order.
Qed.

Lemma averageMonthlyIncome_order (p : product) :
  averageMonthlyIncome (H := withOrder L O) m p period
  = averageMonthlyIncome m p period.
Proof.
  unfold averageMonthlyIncome.
  now rewrite !basicSalary_order, averageOtherIncomeIn80Percent_order,
    averageCommission_order, averageAllowance_order.
Qed.

Lemma netIncomeMonthly_order (p : product) (exchangeRate : Decimal) :
  netIncomeMonthly (H := withOrder L O) m p exchangeRate period
  = netIncomeMonthly m p exchangeRate period.
Proof. unfold netIncomeMonthly. now rewrite averageMonthlyIncome_order. Qed.

Lemma newSourceIncome_order (p : product) :
  newSourceIncome (H := withOrder L O) m p period = newSourceIncome m p period.
Proof.
  unfold newSourceIncome.
  destruct (toListAllowances_order m ab Hd Hab) as (ab' & Ea & Et & _).
  destruct (toListCommissions_order m period cb Hcb) as (cb' & Ec & _ & Ect & _).
  rewrite Ea, Ec, Hab, Hcb. cbn [mbind outcome_bind].
  now rewrite averageAllowance_order, averageCommission_order,
    totalBasicSalary_order, basicSalary_order, Et, Ect.
Qed.

End Figures.

(** The figures of a calculation do not depend on the order in which the
    buckets are visited; the entries of the breakdowns come in an order
    that does. *)
Lemma populate_order (c r : Calculation.t) (p : product)
    (period exchangeRate : Decimal) (m : statMap) :
  allDivided m ->
  populate c p period exchangeRate m = Ok r ->
  exists r',
    populate (H := withOrder L O) c p period exchangeRate m = Ok r'
    /\ reordered r r'.
Proof.
  intros Hd Hp. apply populate_Ok in Hp.
  destruct Hp as (src & ab & cb & tbs & toi & mai & mni
                  & E1 & E2 & E3 & E4 & E5 & E6 & E7 & ->).
  destruct (toListAllowances_order m ab Hd E2) as (ab' & Ea & Eat & Hap).
  destruct (toListCommissions_order m period cb E3) as (cb' & Ec & Eca & Ect & Hcp).
  destruct (toListMonthlySalaries_order m) as (Hsp & Esb & Est).
  unfold populate.
  rewrite (newSourceIncome_order m period ab cb Hd E2 E3), E1.
  rewrite Ea, Ec. cbn [mbind outcome_bind].
  rewrite totalBasicSalary_order, E4. cbn [mbind outcome_bind].
  rewrite totalOtherIncome_order, E5. cbn [mbind outcome_bind].
  rewrite (averageMonthlyIncome_order m period ab cb Hd E2 E3), E6.
  cbn [mbind outcome_bind].
  rewrite (netIncomeMonthly_order m period ab cb Hd E2 E3), E7.
  cbn [mbind outcome_bind].
  eexists. split; [reflexivity|].
  exists (SalaryBreakdown.MonthlySalaries (toListMonthlySalaries (H := withOrder L O) m)),
    (AllowanceBreakdown.Allowances ab'), (CommissionBreakdown.Commissions cb').
  cbn [Calculation.SalaryBreakdown Calculation.AllowanceBreakdown
       Calculation.CommissionBreakdown].
  split; [exact Hsp|]. split; [exact Hap|]. split; [exact Hcp|].
  unfold setBreakdowns. cbn. rewrite totalIncome_order, <- Esb, <- Est, <- Eat,
    <- Eca, <- Ect.
  destruct (toListMonthlySalaries (H := withOrder L O) m), ab', cb'. reflexivity.
Qed.

Lemma toStateMap_allDivided (c : Calculation.t) (m : statMap) :
  toStateMap c = Ok m -> allDivided m.
Proof.
  intros Hc raw title tx Er Et.
  apply (aggregated_divisors m raw title tx); [|exact Er | exact Et].
  right. now exists c.
Qed.

Lemma ReCalculate_order (c r : Calculation.t) (by_ : string) (now : Time)
    (req : RecalculateReq.t) :
  ReCalculate c by_ now req = Ok r ->
  exists r',
    ReCalculate (H := withOrder L O) c by_ now req = Ok r' /\ reordered r r'.
Proof.
  unfold ReCalculate.
  destruct (toStateMap _) as [m| |] eqn:Em; cbn [mbind outcome_bind];
    try discriminate.
  apply populate_order. now apply toStateMap_allDivided in Em.
Qed.

(** X3: a recalculation keeps the identity, the product, the account, the
    period, the exchange rate, the status and the creation stamp of the
    stored calculation and stamps the update; it reads nothing else of the
    stored calculation, so repeating it with the same request, the buckets
    visited in any other order, gives the same figures, the same summary
    and the same entries in the breakdowns, in some order, and changes the
    update stamp only. *)
Theorem recalculation_is_repeatable (c c' : Calculation.t) (by_ : string)
    (now : Time) (req : RecalculateReq.t) :
  ReCalculate c by_ now req = Ok c' ->
  (Calculation.ID c' = Calculation.ID c
   /\ Calculation.StatementFileName c' = Calculation.StatementFileName c
   /\ Calculation.Number c' = Calculation.Number c
   /\ Calculation.Product c' = Calculation.Product c
   /\ Calculation.Account c' = Calculation.Account c
   /\ Calculation.PeriodInMonth c' = Calculation.PeriodInMonth c
   /\ Calculation.ExchangeRate c' = Calculation.ExchangeRate c
   /\ Calculation.StartedAt c' = Calculation.StartedAt c
   /\ Calculation.EndedAt c' = Calculation.EndedAt c
   /\ Calculation.Status c' = Calculation.Status c
   /\ Calculation.CreatedBy c' = Calculation.CreatedBy c
   /\ Calculation.CreatedAt c' = Calculation.CreatedAt c
   /\ Calculation.UpdatedBy c' = by_
   /\ Calculation.UpdatedAt c' = now)
  /\ forall by' now',
      exists c'',
        ReCalculate (H := withOrder L O) c' by' now' req = Ok c''
        /\ reordered (setStatusUpdated c' (Calculation.Status c') now' by') c''.
Proof.
  intros Hc. split; [exact (ReCalculate_keeps c c' by_ now req Hc)|].
  intros by' now'. apply ReCalculate_order.
  exact (ReCalculate_again c c' by_ now req by' now' Hc).
Qed.

(** X18: when the breakdowns of a calculation made from a statement are
    sent back unchanged, the recalculation reproduces the calculation,
    in whichever order the buckets are visited the second time: every
    figure and the summary are the same, the breakdowns hold the same
    entries, in some order, and only the update stamp changes. *)
Theorem recalculation_with_unchanged_breakdowns (wordlists : list Wordlist.t)
    (rows : list (list string)) (c c0 : Calculation.t) (period exchangeRate : Decimal)
    (by_ : string) (now : Time) (interview : Decimal) :
  populate c (Calculation.Product c) period exchangeRate
    (fold_left (addRow wordlists) rows ∅)
  = Ok c0 ->
  exists c1,
    ReCalculate (H := withOrder L O) c0 by_ now (unchangedRequest c0 interview)
    = Ok c1
    /\ reordered (setStatusUpdated c0 (Calculation.Status c0) now by_) c1.
Proof.
  intros Hp. apply ReCalculate_order.
  exact (ReCalculate_unchanged wordlists rows c c0 period exchangeRate by_ now
           interview Hp).
Qed.

End AnotherOrder.

Lemma recalculation_is_repeatable_witness :
  exists c',
    ReCalculate (H := Sample.library) Sample.pending "officer" (time.Date 2025 4 3)
      Sample.reqTwoAllowances = Ok c'
    /\ exists c'',
        ReCalculate (H := withOrder Sample.library Sample.descending) c' "officer"
          (time.Date 2025 4 4) Sample.reqTwoAllowances = Ok c''
        /\ reordered
             (setStatusUpdated c' (Calculation.Status c') (time.Date 2025 4 4)
                "officer")
             c''
        /\ AllowanceBreakdown.Allowances (Calculation.AllowanceBreakdown c'')
           = rev (AllowanceBreakdown.Allowances (Calculation.AllowanceBreakdown c'))
        /\ length (AllowanceBreakdown.Allowances (Calculation.AllowanceBreakdown c''))
           = 2%nat.
Proof.
  eexists. split; [vm_compute; reflexivity|].
  destruct (proj2 (recalculation_is_repeatable (L := Sample.library)
                     Sample.descending Sample.pending _ "officer"
                     (time.Date 2025 4 3) Sample.reqTwoAllowances
                     ltac:(vm_compute; reflexivity))
              "officer" (time.Date 2025 4 4)) as (c'' & E & Hr).
  exists c''. split; [exact E|]. split; [exact Hr|].
  vm_compute in E. injection E as <-. split; vm_compute; reflexivity.
Defined.

Lemma recalculation_with_unchanged_breakdowns_witness :
  exists c0,
    populate (H := Sample.library) Sample.pending (Calculation.Product Sample.pending)
      (decimal.NewFromInt 3) (decimal.NewFromInt 1)
      (fold_left (addRow (H := Sample.library) Sample.perks) Sample.perkRows ∅)
    = Ok c0
    /\ exists c1,
        ReCalculate (H := withOrder Sample.library Sample.descending) c0 "officer"
          (time.Date 2025 4 5) (unchangedRequest c0 decimal.Zero)
        = Ok c1
        /\ reordered
             (setStatusUpdated c0 (Calculation.Status c0) (time.Date 2025 4 5)
                "officer")
             c1
        /\ AllowanceBreakdown.Allowances (Calculation.AllowanceBreakdown c1)
           = rev (AllowanceBreakdown.Allowances (Calculation.AllowanceBreakdown c0))
        /\ length (AllowanceBreakdown.Allowances (Calculation.AllowanceBreakdown c1))
           = 2%nat.
Proof.
  eexists. split; [vm_compute; reflexivity|].
  destruct (recalculation_with_unchanged_breakdowns (L := Sample.library)
              Sample.descending Sample.perks Sample.perkRows Sample.pending _
              (decimal.NewFromInt 3) (decimal.NewFromInt 1)
              "officer" (time.Date 2025 4 5) decimal.Zero
              ltac:(vm_compute; reflexivity)) as (c1 & E & Hr).
  exists c1. split; [exact E|]. split; [exact Hr|].
  vm_compute in E. injection E as <-. split; vm_compute; reflexivity.
Defined.
